(** * terminol: a shallow embedding of the terminal core

    The development follows the C++ sources:
    - [Damage]    : [Buffer::Damage]            (common/buffer.hxx)
    - [Tabs]      : [Buffer::resetTabs] and the tab loop of [Terminal]
                    (common/buffer.hxx, common/terminal.cxx)
    - [Config]    : [Config::getSystemColor]    (common/config.hxx, config.cxx)
    - [Regex]     : [Regex::matchAllOffsets]    (support/regex.hxx)
    - [Terminal]  : the controller              (common/terminal.cxx)
    - [Grid]      : a content model for the buffer the controller drives
    - [NewBuffer] : [Buffer::write] as declared in common/buffer.hxx

    Integers of the C++ code are [Z]; a conversion that can wrap is written
    with its modulus.  An [ASSERT]/[ENFORCE] that fails aborts the program:
    operations that contain one return [option], [None] being the abort.
    Bytes are their codes in [Z]. *)

From Stdlib Require Import ZArith Lia Ascii.
From Stdlib Require String.
From stdpp Require Import base option list.

#[local] Open Scope Z_scope.

(** ** Common helpers *)

(** [clamp<T>(v, lo, hi)] of support: the usual saturation. *)
Definition clamp (v lo hi : Z) : Z :=
  if v <? lo then lo else if hi <? v then hi else v.

Definition to_uint16 (v : Z) : Z := v mod 65536.
Definition to_uint8 (v : Z) : Z := v mod 256.

(** The code of a character literal, e.g. [chr "A" = 65]. *)
Definition chr (a : ascii) : Z := Z.of_N (N_of_ascii a).
Arguments chr a%_char.

(** [ASSERT(cond, ...)] / [ENFORCE(cond, ...)] *)
Definition ASSERT (cond : bool) : option unit := if cond then Some tt else None.

(** Decimal rendering of an [int] streamed into a [std::ostringstream]. *)
Fixpoint uint_bytes (d : Decimal.uint) : list Z :=
  match d with
  | Decimal.Nil => []
  | Decimal.D0 d' => 48 :: uint_bytes d'
  | Decimal.D1 d' => 49 :: uint_bytes d'
  | Decimal.D2 d' => 50 :: uint_bytes d'
  | Decimal.D3 d' => 51 :: uint_bytes d'
  | Decimal.D4 d' => 52 :: uint_bytes d'
  | Decimal.D5 d' => 53 :: uint_bytes d'
  | Decimal.D6 d' => 54 :: uint_bytes d'
  | Decimal.D7 d' => 55 :: uint_bytes d'
  | Decimal.D8 d' => 56 :: uint_bytes d'
  | Decimal.D9 d' => 57 :: uint_bytes d'
  end.

Definition int_bytes (z : Z) : list Z :=
  match Z.to_int z with
  | Decimal.Pos d => uint_bytes d
  | Decimal.Neg d => 45 :: uint_bytes d
  end.

(** ** Buffer::Damage (common/buffer.hxx, lines 131-166) *)

Module Damage.

Record Damage := mkDamage {
  dBegin : Z;      (* inclusive *)
  dEnd   : Z       (* exclusive *)
}.

(** [Damage()] : initially there is no damage. *)
Definition initial : Damage := mkDamage 0 0.

Definition damageSet (b e : Z) (d : Damage) : option Damage :=
  if b <=? e then Some (mkDamage b e) else None.

Definition damageAdd (b e : Z) (d : Damage) : option Damage :=
  if b <=? e then
    if b =? e then Some d
    else if dBegin d =? dEnd d then damageSet b e d
    else Some (mkDamage (Z.min (dBegin d) b) (Z.max (dEnd d) e))
  else None.

Definition reset (d : Damage) : Damage := initial.

(** Column [x] lies in the half-open interval of [d]. *)
Definition covers (d : Damage) (x : Z) : Prop := dBegin d <= x < dEnd d.

End Damage.

(** ** Tab stops *)

Module Tabs.

(** [Terminal::TAB_SIZE] *)
Definition TAB_SIZE : Z := 8.

(** [Buffer::resetTabs] (buffer.hxx, 390-394):
    [for i: _tabs[i] = i % 8 == 0]. *)
Definition Buffer_resetTabs (tabs : list bool) : list bool :=
  imap (fun i _ => Z.of_nat i mod 8 =? 0) tabs.

(** The loop of [Terminal::Terminal], [Terminal::resize] and
    [Terminal::resetAll] (terminal.cxx, 117-119, 173-175, 836-838):
    [for i: _tabs[i] = (i + 1) % TAB_SIZE == 0]. *)
Definition Terminal_resetTabs (tabs : list bool) : list bool :=
  imap (fun i _ => (Z.of_nat i + 1) mod TAB_SIZE =? 0) tabs.

(** [std::vector<bool> _tabs(cols)] : value-initialised to [false]. *)
Definition fresh (cols : Z) : list bool := replicate (Z.to_nat cols) false.

End Tabs.

(** ** Config::getSystemColor (common/config.hxx, config.cxx) *)

Module Config.

Record Color := mkColor { r : Z; g : Z; b : Z }.

Definition COLOURS_SOLARIZED_DARK : list Color :=
  [ mkColor 0x07 0x36 0x42; mkColor 0xDC 0x32 0x2F; mkColor 0x85 0x99 0x00;
    mkColor 0xB5 0x89 0x00; mkColor 0x26 0x8B 0xD2; mkColor 0xD3 0x36 0x82;
    mkColor 0x2A 0xA1 0x98; mkColor 0xEE 0xE8 0xD5; mkColor 0x00 0x2B 0x36;
    mkColor 0xCB 0x4B 0x16; mkColor 0x58 0x6E 0x75; mkColor 0x65 0x7B 0x83;
    mkColor 0x83 0x94 0x96; mkColor 0x6C 0x71 0xC4; mkColor 0x93 0xA1 0xA1;
    mkColor 0xFD 0xF6 0xE3 ].

(** The fields of [Config] the embedded code reads. [_systemColors] is the
    C array [Color _systemColors[16]]. *)
Record Config := mkConfig {
  _scrollOnTtyOutput   : bool;
  _scrollOnTtyKeyPress : bool;
  _traceTty            : bool;
  _syncTty             : bool;
  _systemColors        : list Color
}.

(** [Config::Config()] with [setColorScheme("solarized-dark")]. *)
Definition default : Config :=
  mkConfig false true false false COLOURS_SOLARIZED_DARK.

(** The three ways a read of the palette can end. *)
Inductive Access (A : Type) :=
| AssertFailed            (* the ASSERT fired *)
| OutOfBounds             (* the read leaves the array *)
| Value (a : A).
Arguments AssertFailed {A}.
Arguments OutOfBounds {A}.
Arguments Value {A} a.

(** [getSystemColor(uint8_t index)]:
    [ASSERT(index <= 16, ""); return _systemColors[index];] *)
Definition getSystemColor (c : Config) (index : Z) : Access Color :=
  if index <=? 16 then
    match _systemColors c !! Z.to_nat index with
    | Some col => Value col
    | None => OutOfBounds
    end
  else AssertFailed.

End Config.

(** ** Regex::matchAllOffsets (support/regex.hxx) *)

Module Regex.

Record Substr := mkSubstr { first : Z; last : Z }.

Section Matcher.

(** [pcre_exec] on the compiled pattern: subject, length, start offset and
    the size of the offsets vector give the return value and the filled
    offsets vector.  The PCRE library is outside the repository. *)
Variable pcre_exec : list Z -> Z -> Z -> Z -> Z * list Z.
Variable _maxMatches : Z.

(** [Regex::common] (lines 124-166). *)
Definition common (text : list Z) (size offset : Z) : list Substr :=
  let '(rval, offsets) := pcre_exec text size offset (_maxMatches * 3) in
  if rval <? 0 then []
  else if rval =? 0 then []
  else
    map (fun i => mkSubstr (offsets !!! (2 * i)%nat) (offsets !!! (2 * i + 1)%nat))
        (seq 0 (Z.to_nat rval)).

(** The state of the [for (;;)] loop of [matchAllOffsets]. *)
Inductive Loop :=
| Running (offset : Z) (allOffsets : list (list Substr))
| Finished (allOffsets : list (list Substr)).

(** One pass through the loop body (lines 105-117). *)
Definition body (text : list Z) (size : Z) (offset : Z)
           (allOffsets : list (list Substr)) : Loop :=
  let offsets := common text size offset in
  match offsets with
  | [] => Finished allOffsets
  | front :: _ =>
      let offset' := last front in
      let allOffsets' := allOffsets ++ [offsets] in
      if offset' =? size then Finished allOffsets' else Running offset' allOffsets'
  end.

(** [n] passes of the loop, starting from a loop state. *)
Fixpoint iterate (n : nat) (text : list Z) (size : Z) (l : Loop) : Loop :=
  match n with
  | O => l
  | S n' =>
      match l with
      | Running offset allOffsets => iterate n' text size (body text size offset allOffsets)
      | Finished _ => l
      end
  end.

(** [matchAllOffsets] run for at most [fuel] passes; [None] when the loop
    is still running after them. *)
Definition matchAllOffsets (fuel : nat) (text : list Z) (size : Z)
  : option (list (list Substr)) :=
  match iterate fuel text size (Running 0 []) with
  | Finished allOffsets => Some allOffsets
  | Running _ _ => None
  end.

End Matcher.

(** PCRE on the compiled pattern [c*] (one literal byte under a star): at
    the start offset the greedy run of [c] matches, possibly empty, so
    [pcre_exec] returns 1 with [ovector[0] = offset] and
    [ovector[1] = offset + run]. *)
Fixpoint run_length (c : Z) (text : list Z) : Z :=
  match text with
  | x :: text' => if x =? c then 1 + run_length c text' else 0
  | [] => 0
  end.

Definition pcre_exec_star (c : Z) (text : list Z) (size offset ovecsize : Z)
  : Z * list Z :=
  let n := run_length c (drop (Z.to_nat offset) (take (Z.to_nat size) text)) in
  (1, [offset; offset + n] ++ replicate (Z.to_nat (ovecsize - 2)) 0).

End Regex.


(** ** Data types shared by the buffer and the controller *)

(** Modelled from the spec: common/data_types.hxx ([Pos], [Region]) is not
    part of the sources at hand.  [Pos = {row, col}] in viewport coordinates;
    the helpers are the displacements their names say.  The fields are
    [uint16_t] in the code (terminal.cxx casts to it at 754 and 764 to
    compare with them); the helpers here compute in [Z] and do not wrap.
    [moveCursor] clamps whatever position it is given, so the invariants of
    the cursor do not depend on how a helper treats a position that leaves
    the grid; a statement that says where a computed position lands keeps
    the position below 65536, where a field holds it as it is. *)
Record Pos := mkPos { row : Z; col : Z }.

Definition Pos0 : Pos := mkPos 0 0.
Definition atRow (p : Pos) (r : Z) : Pos := mkPos r (col p).
Definition atCol (p : Pos) (c : Z) : Pos := mkPos (row p) c.
Definition up (p : Pos) (n : Z) : Pos := mkPos (row p - n) (col p).
Definition down (p : Pos) (n : Z) : Pos := mkPos (row p + n) (col p).
Definition left (p : Pos) (n : Z) : Pos := mkPos (row p) (col p - n).
Definition right (p : Pos) (n : Z) : Pos := mkPos (row p) (col p + n).

Record Region := mkRegion { rBegin : Pos; rEnd : Pos }.

(** Modelled from the spec: common/cell.hxx ([UColor], [Style], [Cell]) and
    the UTF-8 helpers are not part of the sources at hand.  A colour is a
    stock default, a palette index or a direct RGB value; a style is an
    attribute set with a foreground and a background; a cell is a UTF-8
    sequence with a style. *)
Inductive UColor :=
| StockFg
| StockBg
| Indexed (index : Z)
| Direct (r g b : Z).

#[export] Instance UColor_eq_dec : EqDecision UColor.
Proof. solve_decision. Defined.

Inductive Attr := BOLD | FAINT | ITALIC | UNDERLINE | BLINK | INVERSE | CONCEAL.

Definition Attr_bit (a : Attr) : Z :=
  match a with
  | BOLD => 0 | FAINT => 1 | ITALIC => 2 | UNDERLINE => 3
  | BLINK => 4 | INVERSE => 5 | CONCEAL => 6
  end.

(** Bit sets ([AttrSet], [ModeSet], [ModifierSet]) are words with one bit
    per enumerator. *)
Definition bit_get (i s : Z) : bool := Z.testbit s i.
Definition bit_set (i s : Z) : Z := Z.lor s (Z.shiftl 1 i).
Definition bit_unset (i s : Z) : Z := Z.ldiff s (Z.shiftl 1 i).
Definition bit_setTo (i : Z) (v : bool) (s : Z) : Z :=
  if v then bit_set i s else bit_unset i s.

Record Style := mkStyle { attrs : Z; fg : UColor; bg : UColor }.

#[export] Instance Style_eq_dec : EqDecision Style.
Proof. solve_decision. Defined.

Definition Style_normal : Style := mkStyle 0 StockFg StockBg.

Definition Style_setAttr (a : Attr) (s : Style) : Style :=
  mkStyle (bit_set (Attr_bit a) (attrs s)) (fg s) (bg s).
Definition Style_unsetAttr (a : Attr) (s : Style) : Style :=
  mkStyle (bit_unset (Attr_bit a) (attrs s)) (fg s) (bg s).
Definition Style_setFg (c : UColor) (s : Style) : Style := mkStyle (attrs s) c (bg s).
Definition Style_setBg (c : UColor) (s : Style) : Style := mkStyle (attrs s) (fg s) c.

(** [std::swap(style.fg, style.bg)] *)
Definition Style_swap (s : Style) : Style := mkStyle (attrs s) (bg s) (fg s).

Record Cell := mkCell { cell_seq : list Z; cell_style : Style }.

Definition SPACE : Z := 32.
Definition Cell_utf8 (s : list Z) (st : Style) : Cell := mkCell s st.
Definition Cell_ascii (c : Z) (st : Style) : Cell := mkCell [c] st.
Definition Cell_blank (st : Style) : Cell := Cell_ascii SPACE st.

(** [seq.lead()] and [utf8::leadLength]: the length a lead byte announces. *)
Definition lead (s : list Z) : Z := s !!! 0%nat.
Definition leadLength (b : Z) : nat :=
  if b <? 0x80 then 1%nat
  else if b <? 0xE0 then 2%nat
  else if b <? 0xF0 then 3%nat
  else 4%nat.

Inductive Mode :=
| AUTO_WRAP | SHOW_CURSOR | AUTO_REPEAT | ALT_SENDS_ESC | INSERT | REVERSE
| CR_ON_LF | APPKEYPAD | APPCURSOR | MOUSE_BUTTON | MOUSE_MOTION | MOUSE_SGR
| BRACKETED_PASTE | DELETE_SENDS_DEL | KBDLOCK | ECHO.

Definition Mode_bit (m : Mode) : Z :=
  match m with
  | AUTO_WRAP => 0 | SHOW_CURSOR => 1 | AUTO_REPEAT => 2 | ALT_SENDS_ESC => 3
  | INSERT => 4 | REVERSE => 5 | CR_ON_LF => 6 | APPKEYPAD => 7
  | APPCURSOR => 8 | MOUSE_BUTTON => 9 | MOUSE_MOTION => 10 | MOUSE_SGR => 11
  | BRACKETED_PASTE => 12 | DELETE_SENDS_DEL => 13 | KBDLOCK => 14 | ECHO => 15
  end.

Definition Mode_get (m : Mode) (s : Z) : bool := bit_get (Mode_bit m) s.
Definition Mode_set (m : Mode) (s : Z) : Z := bit_set (Mode_bit m) s.
Definition Mode_unset (m : Mode) (s : Z) : Z := bit_unset (Mode_bit m) s.
Definition Mode_setTo (m : Mode) (v : bool) (s : Z) : Z := bit_setTo (Mode_bit m) v s.

Inductive Modifier := SHIFT | ALT | CONTROL.

Definition Modifier_bit (m : Modifier) : Z :=
  match m with SHIFT => 0 | ALT => 1 | CONTROL => 2 end.

Definition Modifier_get (m : Modifier) (s : Z) : bool := bit_get (Modifier_bit m) s.

(** ** The buffer as the controller sees it

    terminal.cxx drives a [Buffer] through calls whose bodies are not part of
    the sources at hand.  The geometry the controller reads back (rows,
    columns, margins) is explicit; what a call does to the cells, the damage,
    the history and the selection is left to a content model. *)

Record Geometry := mkGeometry {
  gRows : Z;
  gCols : Z;
  gMarginBegin : Z;      (* first row of the margin, inclusive *)
  gMarginEnd : Z         (* last row of the margin, exclusive *)
}.

(** The calls terminal.cxx makes on [_buffer] that change its content. *)
Inductive BufCall :=
| CScrollBottomHistory
| CScrollTopHistory
| CScrollUpHistory (n : Z)
| CScrollDownHistory (n : Z)
| CMarkSelection (p : Pos)
| CExpandSelection (p : Pos)
| CAdjustSelection (p : Pos)
| CDelimitSelection (p : Pos)
| CClearSelection
| CDamageCell (p : Pos)
| CDamageAll
| CResetDamage
| CSetCell (p : Pos) (c : Cell)
| CSetCells (p : Pos) (n : Z) (c : Cell)
| CInsertCells (p : Pos) (n : Z)
| CEraseCells (p : Pos) (n : Z)
| CClearLine (r : Z)
| CClearLineLeft (p : Pos)
| CClearLineRight (p : Pos)
| CClearAbove (r : Z)
| CClearBelow (r : Z)
| CClear
| CInsertLines (r : Z) (n : Z)
| CEraseLines (r : Z) (n : Z)
| CScrollUpMargins (n : Z)
| CScrollDownMargins (n : Z)
| CAddLine.

(** What [Buffer::resize(rows, cols, cursorRow)] leaves behind: the new
    content, the new margins and the row adjustment it returns. *)
Record Resized (C : Type) := mkResized {
  rsContent : C;
  rsMarginBegin : Z;
  rsMarginEnd : Z;
  rsAdjust : Z
}.
Arguments mkResized {C}.
Arguments rsContent {C}.
Arguments rsMarginBegin {C}.
Arguments rsMarginEnd {C}.
Arguments rsAdjust {C}.

Class BufferContent (C : Type) := {
  (** a call gives the new content and the [bool] the call returns, if any *)
  call : BufCall -> Geometry -> C -> C * bool;
  getCell : C -> Pos -> Cell;
  getDamage : C -> Z -> Z * Z;
  getBarDamage : C -> bool;
  getScrollOffset : C -> N;
  getTotal : C -> Z;
  getBar : C -> Z;
  getSelectedArea : C -> option (Pos * Pos * bool * bool);
  getSelectedText : C -> option (list Z);
  resized : Z -> Z -> Z -> Geometry -> C -> Resized C;
  (** the spec's margin invariant, [0 <= margin_begin < margin_end <= rows],
      holds of the margins a resize leaves *)
  resized_margins : forall rows cols cursorRow g c,
    0 < rows ->
    0 <= rsMarginBegin (resized rows cols cursorRow g c) /\
    rsMarginBegin (resized rows cols cursorRow g c)
      < rsMarginEnd (resized rows cols cursorRow g c) /\
    rsMarginEnd (resized rows cols cursorRow g c) <= rows
}.

Record Buffer (C : Type) := mkBuffer { geom : Geometry; content : C }.
Arguments mkBuffer {C}.
Arguments geom {C}.
Arguments content {C}.

Definition getRows {C} (b : Buffer C) : Z := gRows (geom b).
Definition getCols {C} (b : Buffer C) : Z := gCols (geom b).
Definition getMarginBegin {C} (b : Buffer C) : Z := gMarginBegin (geom b).
Definition getMarginEnd {C} (b : Buffer C) : Z := gMarginEnd (geom b).

(** [Buffer::resetMargins] (buffer.hxx, 385-388). *)
Definition resetMargins {C} (b : Buffer C) : Buffer C :=
  mkBuffer (mkGeometry (getRows b) (getCols b) 0 (getRows b)) (content b).

(** [Buffer::setMargins(begin, end)] as terminal.cxx calls it, with
    [begin < end <= rows] already established by the caller. *)
Definition setMargins {C} (begin_ end_ : Z) (b : Buffer C) : Buffer C :=
  mkBuffer (mkGeometry (getRows b) (getCols b) begin_ end_) (content b).

Definition Buffer_call {C} `{BufferContent C} (c : BufCall) (b : Buffer C)
  : Buffer C * bool :=
  let '(c', r) := call c (geom b) (content b) in (mkBuffer (geom b) c', r).

(** [Buffer::resize(rows, cols, cursorRow)]: the buffer takes the new size;
    the adjustment of the cursor row is returned. *)
Definition Buffer_resize {C} `{BufferContent C} (rows cols cursorRow : Z)
           (b : Buffer C) : Buffer C * Z :=
  let o := resized rows cols cursorRow (geom b) (content b) in
  (mkBuffer (mkGeometry rows cols (rsMarginBegin o) (rsMarginEnd o)) (rsContent o),
   rsAdjust o).

(** [Buffer(config, deduper, rows, cols, historyLimit)]: margins span the
    whole screen. *)
Definition Buffer_new {C} (rows cols : Z) (c : C) : Buffer C :=
  mkBuffer (mkGeometry rows cols 0 rows) c.

(** ** The controller (common/terminal.cxx, common/terminal.hxx) *)

Module Terminal.

(** [nthArg] and [nthArgNonZero] (terminal.cxx, 13-21). *)
Definition nthArg (args : list Z) (n : nat) (fallback : Z) : Z :=
  match args !! n with Some a => a | None => fallback end.

Definition nthArgNonZero (args : list Z) (n : nat) (fallback : Z) : Z :=
  let arg := nthArg args n fallback in
  if arg =? 0 then fallback else arg.

(** The character substitution tables [CS_US], [CS_UK], [CS_SPECIAL]
    (terminal.cxx, 27-69), without their [NUL] terminator. *)
Inductive CharSub := CS_US | CS_UK | CS_SPECIAL.

Definition CharSub_table (t : CharSub) : list (Z * list Z) :=
  match t with
  | CS_US => []
  | CS_UK => [ (chr "#", [0xC2; 0xA3]) ]
  | CS_SPECIAL =>
      [ (chr "`", [0xE2; 0x99; 0xA6]); (chr "a", [0xE2; 0x96; 0x92]);
        (chr "b", [0xE2; 0x90; 0x89]); (chr "c", [0xE2; 0x90; 0x8C]);
        (chr "d", [0xE2; 0x90; 0x8D]); (chr "e", [0xE2; 0x90; 0x8A]);
        (chr "f", [0xC2; 0xB0]);       (chr "g", [0xC2; 0xB1]);
        (chr "h", [0xE2; 0x90; 0xA4]); (chr "i", [0xE2; 0x90; 0x8B]);
        (chr "j", [0xE2; 0x94; 0x98]); (chr "k", [0xE2; 0x94; 0x90]);
        (chr "l", [0xE2; 0x94; 0x8C]); (chr "m", [0xE2; 0x94; 0x94]);
        (chr "n", [0xE2; 0x94; 0xBC]); (chr "o", [0xE2; 0x8E; 0xBA]);
        (chr "p", [0xE2; 0x8E; 0xBB]); (chr "q", [0xE2; 0x94; 0x80]);
        (chr "r", [0xE2; 0x8E; 0xBC]); (chr "s", [0xE2; 0x8E; 0xBD]);
        (chr "t", [0xE2; 0x94; 0x9C]); (chr "u", [0xE2; 0x94; 0xA4]);
        (chr "v", [0xE2; 0x94; 0xB4]); (chr "w", [0xE2; 0x94; 0xAC]);
        (chr "x", [0xE2; 0x94; 0x82]); (chr "y", [0xE2; 0x89; 0xA4]);
        (chr "z", [0xE2; 0x89; 0xA5]); (chr "{", [0xCF; 0x80]);
        (chr "|", [0xE2; 0x89; 0xA0]); (chr "}", [0xC2; 0xA3]);
        (chr "~", [0xE2; 0x8B; 0x85]) ]
  end.

(** [_cursor.cs] points at [_cursor.g0] or at [_cursor.g1]. *)
Inductive CharSet := G0 | G1.

Record Cursor := mkCursor {
  cs : CharSet;
  g0 : CharSub;
  g1 : CharSub;
  pos : Pos;
  wrapNext : bool;
  originMode : bool;
  style : Style
}.

(** [Cursor()] *)
Definition Cursor_new : Cursor := mkCursor G0 CS_US CS_US Pos0 false false Style_normal.

Definition Cursor_setPos (p : Pos) (c : Cursor) : Cursor :=
  mkCursor (cs c) (g0 c) (g1 c) p (wrapNext c) (originMode c) (style c).
Definition Cursor_setWrapNext (w : bool) (c : Cursor) : Cursor :=
  mkCursor (cs c) (g0 c) (g1 c) (pos c) w (originMode c) (style c).
Definition Cursor_setOriginMode (o : bool) (c : Cursor) : Cursor :=
  mkCursor (cs c) (g0 c) (g1 c) (pos c) (wrapNext c) o (style c).
Definition Cursor_setStyle (s : Style) (c : Cursor) : Cursor :=
  mkCursor (cs c) (g0 c) (g1 c) (pos c) (wrapNext c) (originMode c) s.
Definition Cursor_setCs (s : CharSet) (c : Cursor) : Cursor :=
  mkCursor s (g0 c) (g1 c) (pos c) (wrapNext c) (originMode c) (style c).
Definition Cursor_setG0 (s : CharSub) (c : Cursor) : Cursor :=
  mkCursor (cs c) s (g1 c) (pos c) (wrapNext c) (originMode c) (style c).
Definition Cursor_setG1 (s : CharSub) (c : Cursor) : Cursor :=
  mkCursor (cs c) (g0 c) s (pos c) (wrapNext c) (originMode c) (style c).

Inductive Button := LEFT | MIDDLE | RIGHT.

Definition Button_int (b : Button) : Z :=
  match b with LEFT => 0 | MIDDLE => 1 | RIGHT => 2 end.

Inductive ScrollDir := UP | DOWN.
Inductive TabDir := FORWARD | BACKWARD.
Inductive Damager := TTY | EXPOSURE | SCROLL.

Definition Damager_eqb (a b : Damager) : bool :=
  match a, b with
  | TTY, TTY | EXPOSURE, EXPOSURE | SCROLL, SCROLL => true
  | _, _ => false
  end.

(** *** The world outside the controller *)

(** What one call of [I_Tty::write] answers: the number of bytes it took
    (0 when it would block) or the exception [I_Tty::Error]. *)
Inductive TtyReply := Wrote (n : Z) | Error.

(** The calls made on [Terminal::I_Observer], in the order they are made. *)
Inductive ObsCall :=
| terminalCopy (text : list Z) (clipboard : bool)
| terminalPaste (clipboard : bool)
| terminalResetTitle
| terminalSetTitle (title : list Z)
| terminalResizeBuffer (rows cols : Z)
| terminalFixDamageBegin (internal : bool)
| terminalDrawRun (p : Pos) (s : Style) (str : list Z) (count : Z)
| terminalDrawCursor (p : Pos) (s : Style) (str : list Z) (wrap : bool)
| terminalDrawSelection (b e : Pos) (topless bottomless : bool)
| terminalDrawScrollbar (total offset visible : Z)
| terminalFixDamageEnd (internal : bool) (b e : Pos) (scrollbar : bool)
| terminalChildExited (status : Z).

Record Env := mkEnv {
  ttyScript : list TtyReply;      (* the answers of the coming tty writes *)
  ttyOut : list Z;                (* the bytes the tty has taken so far *)
  obsLog : list ObsCall;          (* the observer calls made so far *)
  fixDamageBeginOk : bool;        (* what terminalFixDamageBegin answers *)
  (** the [Terminal::resize(rows, cols)] the observer makes, if any, while it
      handles [terminalResizeBuffer] *)
  resizeOnRequest : Z -> Z -> option (Z * Z)
}.

Definition Env_setTty (s : list TtyReply) (o : list Z) (e : Env) : Env :=
  mkEnv s o (obsLog e) (fixDamageBeginOk e) (resizeOnRequest e).
Definition Env_observe (c : ObsCall) (e : Env) : Env :=
  mkEnv (ttyScript e) (ttyOut e) (obsLog e ++ [c]) (fixDamageBeginOk e) (resizeOnRequest e).

(** The answers of the tty to the write loop
    [while (size != 0) { rval = _tty.write(data, size); if (rval == 0) break;
    data += rval; size -= rval; }]: the script left, the bytes taken and the
    bytes that remain, or the exception.  A tty takes no more than it is
    offered.  The [do ... while] of [flush] is the same loop, entered with a
    queue that is not empty. *)
Inductive Written :=
| Done (script : list TtyReply) (out rest : list Z)
| Failed (script : list TtyReply) (out : list Z).

Fixpoint ttyWriteLoop (script : list TtyReply) (out data : list Z) : Written :=
  match data with
  | [] => Done script out []
  | _ :: _ =>
      match script with
      | [] => Done [] out data
      | Error :: script' => Failed script' out
      | Wrote n :: script' =>
          match Z.to_nat (Z.min n (Z.of_nat (length data))) with
          | O => Done script' out data
          | rval => ttyWriteLoop script' (out ++ take rval data) (drop rval data)
          end
      end
  end.

Section Controller.

Context {C : Type} `{BufferContent C}.

Record Terminal := mkTerminal {
  _dispatch : bool;
  _config : Config.Config;
  _priBuffer : Buffer C;
  _altBuffer : Buffer C;
  _bufferIsAlt : bool;            (* _buffer == &_altBuffer *)
  _modes : Z;
  _tabs : list bool;
  _cursor : Cursor;
  _savedCursor : Cursor;
  _damage : Region;
  _pressed : bool;
  _button : Button;
  _pointerPos : Pos;
  _dumpWrites : bool;
  _writeBuffer : list Z;
  env : Env
}.

Definition set_dispatch (v : bool) (t : Terminal) : Terminal :=
  mkTerminal v (_config t) (_priBuffer t) (_altBuffer t) (_bufferIsAlt t) (_modes t)
    (_tabs t) (_cursor t) (_savedCursor t) (_damage t) (_pressed t) (_button t)
    (_pointerPos t) (_dumpWrites t) (_writeBuffer t) (env t).
Definition set_priBuffer (v : Buffer C) (t : Terminal) : Terminal :=
  mkTerminal (_dispatch t) (_config t) v (_altBuffer t) (_bufferIsAlt t) (_modes t)
    (_tabs t) (_cursor t) (_savedCursor t) (_damage t) (_pressed t) (_button t)
    (_pointerPos t) (_dumpWrites t) (_writeBuffer t) (env t).
Definition set_altBuffer (v : Buffer C) (t : Terminal) : Terminal :=
  mkTerminal (_dispatch t) (_config t) (_priBuffer t) v (_bufferIsAlt t) (_modes t)
    (_tabs t) (_cursor t) (_savedCursor t) (_damage t) (_pressed t) (_button t)
    (_pointerPos t) (_dumpWrites t) (_writeBuffer t) (env t).
Definition set_bufferIsAlt (v : bool) (t : Terminal) : Terminal :=
  mkTerminal (_dispatch t) (_config t) (_priBuffer t) (_altBuffer t) v (_modes t)
    (_tabs t) (_cursor t) (_savedCursor t) (_damage t) (_pressed t) (_button t)
    (_pointerPos t) (_dumpWrites t) (_writeBuffer t) (env t).
Definition set_modes (v : Z) (t : Terminal) : Terminal :=
  mkTerminal (_dispatch t) (_config t) (_priBuffer t) (_altBuffer t) (_bufferIsAlt t) v
    (_tabs t) (_cursor t) (_savedCursor t) (_damage t) (_pressed t) (_button t)
    (_pointerPos t) (_dumpWrites t) (_writeBuffer t) (env t).
Definition set_tabs (v : list bool) (t : Terminal) : Terminal :=
  mkTerminal (_dispatch t) (_config t) (_priBuffer t) (_altBuffer t) (_bufferIsAlt t)
    (_modes t) v (_cursor t) (_savedCursor t) (_damage t) (_pressed t) (_button t)
    (_pointerPos t) (_dumpWrites t) (_writeBuffer t) (env t).
Definition set_cursor (v : Cursor) (t : Terminal) : Terminal :=
  mkTerminal (_dispatch t) (_config t) (_priBuffer t) (_altBuffer t) (_bufferIsAlt t)
    (_modes t) (_tabs t) v (_savedCursor t) (_damage t) (_pressed t) (_button t)
    (_pointerPos t) (_dumpWrites t) (_writeBuffer t) (env t).
Definition set_savedCursor (v : Cursor) (t : Terminal) : Terminal :=
  mkTerminal (_dispatch t) (_config t) (_priBuffer t) (_altBuffer t) (_bufferIsAlt t)
    (_modes t) (_tabs t) (_cursor t) v (_damage t) (_pressed t) (_button t)
    (_pointerPos t) (_dumpWrites t) (_writeBuffer t) (env t).
Definition set_damage (v : Region) (t : Terminal) : Terminal :=
  mkTerminal (_dispatch t) (_config t) (_priBuffer t) (_altBuffer t) (_bufferIsAlt t)
    (_modes t) (_tabs t) (_cursor t) (_savedCursor t) v (_pressed t) (_button t)
    (_pointerPos t) (_dumpWrites t) (_writeBuffer t) (env t).
Definition set_pressed (v : bool) (t : Terminal) : Terminal :=
  mkTerminal (_dispatch t) (_config t) (_priBuffer t) (_altBuffer t) (_bufferIsAlt t)
    (_modes t) (_tabs t) (_cursor t) (_savedCursor t) (_damage t) v (_button t)
    (_pointerPos t) (_dumpWrites t) (_writeBuffer t) (env t).
Definition set_button (v : Button) (t : Terminal) : Terminal :=
  mkTerminal (_dispatch t) (_config t) (_priBuffer t) (_altBuffer t) (_bufferIsAlt t)
    (_modes t) (_tabs t) (_cursor t) (_savedCursor t) (_damage t) (_pressed t) v
    (_pointerPos t) (_dumpWrites t) (_writeBuffer t) (env t).
Definition set_pointerPos (v : Pos) (t : Terminal) : Terminal :=
  mkTerminal (_dispatch t) (_config t) (_priBuffer t) (_altBuffer t) (_bufferIsAlt t)
    (_modes t) (_tabs t) (_cursor t) (_savedCursor t) (_damage t) (_pressed t) (_button t)
    v (_dumpWrites t) (_writeBuffer t) (env t).
Definition set_dumpWrites (v : bool) (t : Terminal) : Terminal :=
  mkTerminal (_dispatch t) (_config t) (_priBuffer t) (_altBuffer t) (_bufferIsAlt t)
    (_modes t) (_tabs t) (_cursor t) (_savedCursor t) (_damage t) (_pressed t) (_button t)
    (_pointerPos t) v (_writeBuffer t) (env t).
Definition set_writeBuffer (v : list Z) (t : Terminal) : Terminal :=
  mkTerminal (_dispatch t) (_config t) (_priBuffer t) (_altBuffer t) (_bufferIsAlt t)
    (_modes t) (_tabs t) (_cursor t) (_savedCursor t) (_damage t) (_pressed t) (_button t)
    (_pointerPos t) (_dumpWrites t) v (env t).
Definition set_env (v : Env) (t : Terminal) : Terminal :=
  mkTerminal (_dispatch t) (_config t) (_priBuffer t) (_altBuffer t) (_bufferIsAlt t)
    (_modes t) (_tabs t) (_cursor t) (_savedCursor t) (_damage t) (_pressed t) (_button t)
    (_pointerPos t) (_dumpWrites t) (_writeBuffer t) v.

(** [*_buffer] *)
Definition buffer (t : Terminal) : Buffer C :=
  if _bufferIsAlt t then _altBuffer t else _priBuffer t.

Definition set_buffer (b : Buffer C) (t : Terminal) : Terminal :=
  if _bufferIsAlt t then set_altBuffer b t else set_priBuffer b t.

(** [_buffer->call(...)], with the [bool] it returns. *)
Definition bufCall (c : BufCall) (t : Terminal) : Terminal * bool :=
  let '(b, r) := Buffer_call c (buffer t) in (set_buffer b t, r).

Definition bufDo (c : BufCall) (t : Terminal) : Terminal := fst (bufCall c t).

Definition observe (c : ObsCall) (t : Terminal) : Terminal :=
  set_env (Env_observe c (env t)) t.

Definition mode (m : Mode) (t : Terminal) : bool := Mode_get m (_modes t).

(** [Terminal::Terminal] (terminal.cxx, 75-120), on the content the two
    buffers start with. *)
Definition new (config : Config.Config) (rows cols : Z) (pri alt : C) (e : Env)
  : Terminal :=
  mkTerminal false config (Buffer_new rows cols pri) (Buffer_new rows cols alt) false
    (Mode_set ALT_SENDS_ESC (Mode_set AUTO_REPEAT (Mode_set SHOW_CURSOR (Mode_set AUTO_WRAP 0))))
    (Tabs.Terminal_resetTabs (Tabs.fresh cols))
    Cursor_new Cursor_new (mkRegion Pos0 Pos0) false LEFT Pos0 false [] e.

(** *** Writing to the pty (terminal.cxx, 440-461 and 794-825) *)

Definition needsFlush (t : Terminal) : bool :=
  match _writeBuffer t with [] => false | _ => true end.

Definition write (data : list Z) (t : Terminal) : Terminal :=
  if _dumpWrites t then t
  else
    match _writeBuffer t with
    | [] =>
        match ttyWriteLoop (ttyScript (env t)) (ttyOut (env t)) data with
        | Done s o rest =>
            set_writeBuffer (_writeBuffer t ++ rest) (set_env (Env_setTty s o (env t)) t)
        | Failed s o =>
            set_writeBuffer [] (set_dumpWrites true (set_env (Env_setTty s o (env t)) t))
        end
    | _ :: _ => set_writeBuffer (_writeBuffer t ++ data) t
    end.

Definition flush (t : Terminal) : option Terminal :=
  _ ← ASSERT (negb (_dispatch t));
  _ ← ASSERT (needsFlush t);
  _ ← ASSERT (negb (_dumpWrites t));
  match ttyWriteLoop (ttyScript (env t)) (ttyOut (env t)) (_writeBuffer t) with
  | Done s o rest => Some (set_writeBuffer rest (set_env (Env_setTty s o (env t)) t))
  | Failed s o =>
      Some (set_writeBuffer [] (set_dumpWrites true (set_env (Env_setTty s o (env t)) t)))
  end.

(** *** Moving the cursor (terminal.cxx, 547-607) *)

Definition damageCursor (t : Terminal) : option Terminal :=
  _ ← ASSERT (row (pos (_cursor t)) <? getRows (buffer t));
  _ ← ASSERT (col (pos (_cursor t)) <? getCols (buffer t));
  Some (bufDo (CDamageCell (pos (_cursor t))) t).

Definition moveCursor (p : Pos) (t : Terminal) : option Terminal :=
  t ← damageCursor t;
  let r :=
    if originMode (_cursor t)
    then clamp (row p) (getMarginBegin (buffer t)) (getMarginEnd (buffer t) - 1)
    else clamp (row p) 0 (getRows (buffer t) - 1) in
  let c := clamp (col p) 0 (getCols (buffer t) - 1) in
  Some (set_cursor
          (Cursor_setWrapNext false
             (Cursor_setPos (mkPos (to_uint16 r) (to_uint16 c)) (_cursor t))) t).

(** [pos.down(...)] is a [Pos] again: in the code its row is kept in 16
    bits, here it is the sum in [Z] (see the note on [Pos]). *)
Definition moveCursorOriginMode (p : Pos) (t : Terminal) : option Terminal :=
  moveCursor (down p (if originMode (_cursor t) then getMarginBegin (buffer t) else 0)) t.

(** The [while (count != 0)] loops of [tabCursor]; each pass moves [col] by
    one towards the edge it stops at, so [n] passes are enough when [n] is
    the distance to that edge. *)
Definition tabAt (tabs : list bool) (col : Z) : bool := tabs !!! Z.to_nat col.

Fixpoint tabForward (n : nat) (tabs : list bool) (cols col count : Z) : Z :=
  match n with
  | O => col
  | S n' =>
      if count =? 0 then col
      else
        let col' := to_uint16 (col + 1) in
        if col' =? cols then to_uint16 (col' - 1)
        else tabForward n' tabs cols col'
               (if tabAt tabs col' then to_uint16 (count - 1) else count)
  end.

Fixpoint tabBackward (n : nat) (tabs : list bool) (col count : Z) : Z :=
  match n with
  | O => col
  | S n' =>
      if count =? 0 then col
      else if col =? 0 then col
      else
        let col' := to_uint16 (col - 1) in
        tabBackward n' tabs col'
          (if tabAt tabs col' then to_uint16 (count - 1) else count)
  end.

Definition tabCursor (dir : TabDir) (count : Z) (t : Terminal) : option Terminal :=
  let col0 := col (pos (_cursor t)) in
  let count := to_uint16 count in
  let c :=
    match dir with
    | FORWARD =>
        tabForward (Z.to_nat (getCols (buffer t) - col0)) (_tabs t)
          (getCols (buffer t)) col0 count
    | BACKWARD => tabBackward (Z.to_nat col0) (_tabs t) col0 count
    end in
  moveCursor (atCol (pos (_cursor t)) c) t.

(** *** Drawing (terminal.cxx, 609-639 and 658-792) *)

(** [std::copy(cell.seq.bytes, cell.seq.bytes + length, ...)] with
    [length = leadLength(cell.seq.lead())]; [bytes] is a 4-byte array. *)
Definition seqBytes (c : Cell) : list Z :=
  take (leadLength (lead (cell_seq c))) (cell_seq c ++ replicate 4 0).

Definition isEmpty {A} (l : list A) : bool :=
  match l with [] => true | _ => false end.

(** The variables of the column loop: the bytes of the run being gathered,
    its start column [c_], its style, and the observer calls made. *)
Record RunState := mkRunState {
  run : list Z;
  c_ : Z;
  runStyle : Style;
  calls : list ObsCall
}.

(** [run.push_back(NUL); terminalDrawRun(Pos(r, c_), style, &run.front(),
    c - c_); run.clear();] when the run is not empty. *)
Definition flushRun (r c : Z) (s : RunState) : RunState :=
  if isEmpty (run s) then s
  else mkRunState [] (c_ s) (runStyle s)
         (calls s ++ [terminalDrawRun (mkPos r (c_ s)) (runStyle s) (run s ++ [0]) (c - c_ s)]).

(** The body of the column loop (lines 704-728). *)
Definition drawCell (reverse : bool) (r c : Z) (cell : Cell) (s : RunState) : RunState :=
  if isEmpty (run s) || negb (bool_decide (runStyle s = cell_style cell)) then
    let s' := flushRun r c s in
    let style' := cell_style cell in
    let style' := if reverse then Style_swap style' else style' in
    mkRunState (seqBytes cell) c style' (calls s')
  else
    mkRunState (run s ++ seqBytes cell) (c_ s) (runStyle s) (calls s).

(** [for (c = colBegin2; c != colEnd2; ++c)] on a [uint16_t c], [n] passes. *)
Fixpoint drawCols (n : nat) (reverse : bool) (b : C) (r c : Z) (s : RunState)
  : Z * RunState :=
  match n with
  | O => (c, s)
  | S n' =>
      drawCols n' reverse b r (to_uint16 (c + 1))
        (drawCell reverse r c (getCell b (mkPos r c)) s)
  end.

(** The body of the row loop (lines 668-736) for row [r]: the damage
    rectangle and the observer calls after it. *)
Definition drawRow (begin_ end_ : Pos) (damage : Damager) (reverse : bool) (b : C)
           (r : Z) (acc : Region * list ObsCall) : Region * list ObsCall :=
  let '(dmg, log) := acc in
  let '(colBegin2, colEnd2) :=
    match damage with
    | TTY => getDamage b r
    | _ => (col begin_, col end_)
    end in
  let '(bc, ec) :=
    if col (rBegin dmg) =? col (rEnd dmg) then (colBegin2, colEnd2)
    else if negb (colBegin2 =? colEnd2)
         then (Z.min (col (rBegin dmg)) colBegin2, Z.max (col (rEnd dmg)) colEnd2)
         else (col (rBegin dmg), col (rEnd dmg)) in
  let '(br, er) :=
    if negb (colBegin2 =? colEnd2) then
      ((if row (rBegin dmg) =? row (rEnd dmg) then r else row (rBegin dmg)),
       to_uint16 (r + 1))
    else (row (rBegin dmg), row (rEnd dmg)) in
  let '(c, s) :=
    drawCols (Z.to_nat (to_uint16 (colEnd2 - colBegin2))) reverse b r colBegin2
      (mkRunState [] 0 Style_normal log) in
  (mkRegion (mkPos br bc) (mkPos er ec), calls (flushRun r c s)).

(** [for (uint16_t r = begin.row; r != end.row; ++r)], [n] passes. *)
Fixpoint drawRows (n : nat) (begin_ end_ : Pos) (damage : Damager) (reverse : bool)
         (b : C) (r : Z) (acc : Region * list ObsCall) : Region * list ObsCall :=
  match n with
  | O => acc
  | S n' =>
      drawRows n' begin_ end_ damage reverse b (to_uint16 (r + 1))
        (drawRow begin_ end_ damage reverse b r acc)
  end.

(** The cursor part of [draw] (lines 739-773). *)
Definition drawCursor (t : Terminal) (acc : Region * list ObsCall)
  : option (Region * list ObsCall) :=
  let '(dmg, log) := acc in
  let b := buffer t in
  let off := Z.of_N (getScrollOffset (content b)) in
  if mode SHOW_CURSOR t && (off + row (pos (_cursor t)) <? getRows b) then
    let p := mkPos (to_uint16 (row (pos (_cursor t)) + off)) (col (pos (_cursor t))) in
    _ ← ASSERT (row p <? getRows b);
    _ ← ASSERT (col p <? getCols b);
    let '(bc, ec) :=
      if col (rBegin dmg) =? col (rEnd dmg) then (col p, to_uint16 (col p + 1))
      else (Z.min (col (rBegin dmg)) (col p),
            Z.max (col (rEnd dmg)) (to_uint16 (col p + 1))) in
    let '(br, er) :=
      if row (rBegin dmg) =? row (rEnd dmg) then (row p, to_uint16 (row p + 1))
      else (Z.min (row (rBegin dmg)) (row p),
            Z.max (row (rEnd dmg)) (to_uint16 (row p + 1))) in
    let cell := getCell (content b) p in
    Some (mkRegion (mkPos br bc) (mkPos er ec),
          log ++ [terminalDrawCursor p (cell_style cell) (seqBytes cell ++ [0])
                    (wrapNext (_cursor t))])
  else Some acc.

(** "Identical in two places." *)
Definition scrollbarDue (damage : Damager) (t : Terminal) : bool :=
  Damager_eqb damage SCROLL || Damager_eqb damage EXPOSURE ||
  (Damager_eqb damage TTY && getBarDamage (content (buffer t))).

Definition draw (begin_ end_ : Pos) (damage : Damager) (t : Terminal) : option Terminal :=
  let b := buffer t in
  let acc :=
    drawRows (Z.to_nat (to_uint16 (row end_ - row begin_))) begin_ end_ damage
      (mode REVERSE t) (content b) (to_uint16 (row begin_)) (mkRegion Pos0 Pos0, []) in
  '(dmg, log) ← drawCursor t acc;
  let log :=
    match getSelectedArea (content b) with
    | Some (sBegin, sEnd, topless, bottomless) =>
        log ++ [terminalDrawSelection sBegin sEnd topless bottomless]
    | None => log
    end in
  let log :=
    if scrollbarDue damage t
    then log ++ [terminalDrawScrollbar (getTotal (content b)) (getBar (content b)) (getRows b)]
    else log in
  Some (set_damage dmg (foldl (fun t c => observe c t) t log)).

Definition fixDamage (begin_ end_ : Pos) (damager : Damager) (t : Terminal)
  : option Terminal :=
  let '(t, damager) :=
    if Damager_eqb damager TTY && Config._scrollOnTtyOutput (_config t) then
      let '(t', scrolled) := bufCall CScrollBottomHistory t in
      (t', if scrolled then SCROLL else damager)
    else (t, damager) in
  let internal := negb (Damager_eqb damager EXPOSURE) in
  let t := observe (terminalFixDamageBegin internal) t in
  if fixDamageBeginOk (env t) then
    t ← draw begin_ end_ damager t;
    let t := observe (terminalFixDamageEnd internal (rBegin (_damage t)) (rEnd (_damage t))
                        (scrollbarDue damager t)) t in
    Some (if Damager_eqb damager TTY then bufDo CResetDamage t else t)
  else
    _ ← ASSERT (negb (Damager_eqb damager EXPOSURE));
    Some t.

(** [fixDamage(Pos(0, 0), Pos(getRows(), getCols()), damager)] *)
Definition fixDamageAll (damager : Damager) (t : Terminal) : option Terminal :=
  fixDamage Pos0 (mkPos (getRows (buffer t)) (getCols (buffer t))) damager t.

(** *** Resize (terminal.cxx, 126-176) *)

Definition resize (rows cols : Z) (t : Terminal) : option Terminal :=
  _ ← ASSERT ((0 <? rows) && (0 <? cols));
  let cur := _cursor t in
  let cur :=
    if wrapNext cur && negb (col (pos cur) =? cols - 1)
    then Cursor_setWrapNext false cur else cur in
  let priCursor := row (pos cur) in
  let altCursor := row (pos (_savedCursor t)) in
  let '(priCursor, altCursor) :=
    if _bufferIsAlt t then (altCursor, priCursor) else (priCursor, altCursor) in
  let '(pri, cursorAdj) := Buffer_resize rows cols priCursor (_priBuffer t) in
  let '(alt, savedCursorAdj) := Buffer_resize rows cols altCursor (_altBuffer t) in
  let '(cursorAdj, savedCursorAdj) :=
    if _bufferIsAlt t then (savedCursorAdj, cursorAdj) else (cursorAdj, savedCursorAdj) in
  let r := to_uint16 (row (pos cur) + cursorAdj) in
  let c := clamp (col (pos cur)) 0 (to_uint16 (cols - 1)) in
  let r := if negb (r <? rows) then to_uint16 (rows - 1) else r in
  _ ← ASSERT (r <? rows);
  _ ← ASSERT (c <? cols);
  let cur := Cursor_setPos (mkPos r c) cur in
  let sr := to_uint16 (row (pos (_savedCursor t)) + savedCursorAdj) in
  let sc := clamp c 0 (to_uint16 (cols - 1)) in
  _ ← ASSERT (sr <? rows);
  _ ← ASSERT (sc <? cols);
  let saved := Cursor_setPos (mkPos sr sc) (_savedCursor t) in
  Some (set_tabs (Tabs.Terminal_resetTabs (resize (Z.to_nat cols) false (_tabs t)))
          (set_savedCursor saved
             (set_cursor cur (set_altBuffer alt (set_priBuffer pri t))))).

(** *** The observer of the VT state machine (terminal.cxx, 827-1925) *)

Definition resetAll (t : Terminal) : Terminal :=
  let t := bufDo CClear t in
  let t := set_modes (Mode_set ALT_SENDS_ESC (Mode_set AUTO_REPEAT
                        (Mode_set SHOW_CURSOR (Mode_set AUTO_WRAP 0)))) t in
  let t := set_tabs (Tabs.Terminal_resetTabs (_tabs t)) t in
  let t := set_savedCursor Cursor_new (set_cursor Cursor_new t) in
  observe terminalResetTitle t.

(** [Terminal::translate(ascii, seq)] walks the table [*_cursor.cs]. *)
Definition translate (ascii : Z) (s : list Z) (t : Terminal) : list Z :=
  let table :=
    CharSub_table (match cs (_cursor t) with G0 => g0 (_cursor t) | G1 => g1 (_cursor t) end) in
  match List.find (fun e => ascii =? fst e) table with
  | Some e => snd e
  | None => s
  end.

(** [if (row == marginEnd - 1) addLine(); else moveCursor(pos.down());],
    as it appears in [machineNormal], for [LF]/[FF]/[VT], [IND] and [NEL]. *)
Definition addLineOrDown (t : Terminal) : option Terminal :=
  if row (pos (_cursor t)) =? getMarginEnd (buffer t) - 1
  then Some (bufDo CAddLine t)
  else moveCursor (down (pos (_cursor t)) 1) t.

Definition machineNormal (s : list Z) (t : Terminal) : option Terminal :=
  let s := if (length s =? 1)%nat then translate (lead s) s t else s in
  t ← (if wrapNext (_cursor t) && mode AUTO_WRAP t then
         t ← moveCursor (atCol (pos (_cursor t)) 0) t;
         addLineOrDown t
       else Some t);
  _ ← ASSERT (col (pos (_cursor t)) <? getCols (buffer t));
  _ ← ASSERT (row (pos (_cursor t)) <? getRows (buffer t));
  let t := if mode INSERT t then bufDo (CInsertCells (pos (_cursor t)) 1) t else t in
  let t := bufDo (CSetCell (pos (_cursor t)) (Cell_utf8 s (style (_cursor t)))) t in
  t ← (if col (pos (_cursor t)) =? getCols (buffer t) - 1
       then Some (set_cursor (Cursor_setWrapNext true (_cursor t)) t)
       else moveCursor (right (pos (_cursor t)) 1) t);
  _ ← ASSERT (col (pos (_cursor t)) <? getCols (buffer t));
  Some t.

Definition NUL : Z := 0.
Definition ENQ : Z := 5.
Definition BEL : Z := 7.
Definition BS : Z := 8.
Definition HT : Z := 9.
Definition LF : Z := 10.
Definition VT : Z := 11.
Definition FF : Z := 12.
Definition CR : Z := 13.
Definition SO : Z := 14.
Definition SI : Z := 15.
Definition DC1 : Z := 17.
Definition DC3 : Z := 19.
Definition CAN : Z := 24.
Definition SUB : Z := 26.
Definition ESC : Z := 27.

Definition machineControl (c : Z) (t : Terminal) : option Terminal :=
  if c =? BEL then Some t
  else if c =? HT then tabCursor FORWARD 1 t
  else if c =? BS then
    if wrapNext (_cursor t) then Some (set_cursor (Cursor_setWrapNext false (_cursor t)) t)
    else if col (pos (_cursor t)) =? 0 then
      if mode AUTO_WRAP t && (getMarginBegin (buffer t) <? row (pos (_cursor t)))
      then moveCursor (atCol (up (pos (_cursor t)) 1) (getCols (buffer t) - 1)) t
      else Some t
    else moveCursor (left (pos (_cursor t)) 1) t
  else if c =? CR then moveCursor (atCol (pos (_cursor t)) 0) t
  else if c =? LF then
    t ← (if mode CR_ON_LF t then moveCursor (atCol (pos (_cursor t)) 0) t else Some t);
    addLineOrDown t
  else if (c =? FF) || (c =? VT) then addLineOrDown t
  else if c =? SO then Some (set_cursor (Cursor_setCs G1 (_cursor t)) t)
  else if c =? SI then Some (set_cursor (Cursor_setCs G0 (_cursor t)) t)
  else Some t.

Definition machineEscape (c : Z) (t : Terminal) : option Terminal :=
  if c =? chr "D" then addLineOrDown t
  else if c =? chr "E" then
    t ← moveCursor (mkPos (row (pos (_cursor t))) 0) t;
    addLineOrDown t
  else if c =? chr "H" then
    Some (set_tabs (<[Z.to_nat (col (pos (_cursor t))) := true]> (_tabs t)) t)
  else if c =? chr "M" then
    if row (pos (_cursor t)) =? getMarginBegin (buffer t)
    then Some (bufDo (CInsertLines (getMarginBegin (buffer t)) 1) t)
    else moveCursor (up (pos (_cursor t)) 1) t
  else if c =? chr "c" then Some (resetAll t)
  else if c =? chr "=" then Some (set_modes (Mode_set APPKEYPAD (_modes t)) t)
  else if c =? chr ">" then Some (set_modes (Mode_unset APPKEYPAD (_modes t)) t)
  else if c =? chr "7" then Some (set_savedCursor (_cursor t) t)
  else if c =? chr "8" then
    t ← damageCursor t;
    Some (set_cursor (_savedCursor t) t)
  else Some t.

(** [UColor(r, g, b)] and [colour.index = v] *)
Definition UColor_rgb (r g b : Z) : UColor := Direct (to_uint8 r) (to_uint8 g) (to_uint8 b).

(** The extended colour of [38]/[48] (lines 1584-1647 and 1652-1715), read
    from the arguments after the [38]/[48]: the colour chosen, if any, and
    the arguments the loop goes on with. *)
Definition extendedColour (rest : list Z) : option UColor * list Z :=
  match rest with
  | [] => (None, [])
  | sel :: rest1 =>
      if sel =? 2 then
        match rest1 with
        | r :: g :: b :: rest2 => (Some (UColor_rgb r g b), rest2)
        | _ => (None, [])
        end
      else if sel =? 3 then
        match rest1 with
        | _ :: _ :: _ :: rest2 => (None, rest2)
        | _ => (None, [])
        end
      else if sel =? 4 then
        match rest1 with
        | _ :: _ :: _ :: _ :: rest2 => (None, rest2)
        | _ => (None, [])
        end
      else if sel =? 5 then
        match rest1 with
        | v2 :: rest2 =>
            ((if (0 <=? v2) && (v2 <? 256) then Some (Indexed v2) else None), rest2)
        | [] => (None, [])
        end
      else (None, rest1)
  end.

(** One argument of [processAttributes] other than [38]/[48]. *)
Definition attribute (v : Z) (s : Style) : Style :=
  if v =? 0 then Style_normal
  else if v =? 1 then Style_setAttr BOLD s
  else if v =? 2 then Style_unsetAttr BOLD s
  else if v =? 3 then Style_setAttr ITALIC s
  else if v =? 4 then Style_setAttr UNDERLINE s
  else if (v =? 5) || (v =? 6) then Style_setAttr BLINK s
  else if v =? 7 then Style_setAttr INVERSE s
  else if v =? 8 then Style_setAttr CONCEAL s
  else if (v =? 21) || (v =? 22) then Style_unsetAttr BOLD s
  else if v =? 23 then Style_unsetAttr ITALIC s
  else if v =? 24 then Style_unsetAttr UNDERLINE s
  else if v =? 25 then Style_unsetAttr BLINK s
  else if v =? 26 then Style_setAttr INVERSE s
  else if v =? 27 then Style_unsetAttr INVERSE s
  else if v =? 28 then Style_unsetAttr CONCEAL s
  else if v =? 39 then Style_setFg StockFg s
  else if v =? 49 then Style_setBg StockBg s
  else if (9 <=? v) && (v <=? 20) then s
  else if (v =? 29) || ((51 <=? v) && (v <=? 55)) || (v =? 99) || (v =? 109) then s
  else if (30 <=? v) && (v <? 38) then Style_setFg (Indexed (v - 30)) s
  else if (40 <=? v) && (v <? 48) then Style_setBg (Indexed (v - 40)) s
  else if (90 <=? v) && (v <? 98) then Style_setFg (Indexed (v - 90 + 8)) s
  else if (100 <=? v) && (v <? 108) then Style_setBg (Indexed (v - 100 + 8)) s
  else if (256 <=? v) && (v <? 512) then Style_setFg (Indexed (v - 256)) s
  else if (512 <=? v) && (v <? 768) then Style_setBg (Indexed (v - 512)) s
  else s.

(** The loop of [processAttributes] over the arguments left; [n] bounds the
    passes and the number of arguments is enough. *)
Fixpoint processAttributesLoop (n : nat) (args : list Z) (s : Style) : Style :=
  match n, args with
  | S n', v :: rest =>
      if v =? 38 then
        let '(c, rest') := extendedColour rest in
        processAttributesLoop n' rest' (match c with Some c => Style_setFg c s | None => s end)
      else if v =? 48 then
        let '(c, rest') := extendedColour rest in
        processAttributesLoop n' rest' (match c with Some c => Style_setBg c s | None => s end)
      else processAttributesLoop n' rest (attribute v s)
  | _, _ => s
  end.

Definition processAttributes (args : list Z) (t : Terminal) : option Terminal :=
  _ ← ASSERT (negb (isEmpty args));
  Some (set_cursor
          (Cursor_setStyle (processAttributesLoop (length args) args (style (_cursor t)))
             (_cursor t)) t).

(** [_observer.terminalResizeBuffer(rows, cols)]; the observer may call
    [Terminal::resize] before it returns ("resizes can occur during
    dispatch"). *)
Definition requestResize (rows cols : Z) (t : Terminal) : option Terminal :=
  let t := observe (terminalResizeBuffer rows cols) t in
  match resizeOnRequest (env t) rows cols with
  | Some (r, c) => resize (to_uint16 r) (to_uint16 c) t
  | None => Some t
  end.

(** [case 1048] of [processModes]. *)
Definition saveOrRestoreCursor (set : bool) (t : Terminal) : option Terminal :=
  t ← (if set then Some (set_savedCursor (_cursor t) t)
       else t ← damageCursor t; Some (set_cursor (_savedCursor t) t));
  Some (bufDo CDamageAll t).

(** [case 1049: case 47: case 1047] of [processModes]. *)
Definition alternateScreen (a : Z) (set : bool) (t : Terminal) : option Terminal :=
  let t := if _bufferIsAlt t then bufDo CClear t else t in
  let t := set_bufferIsAlt set t in
  if negb (a =? 1049) then Some (bufDo CDamageAll t)
  else saveOrRestoreCursor set t.

Definition setMode (m : Mode) (v : bool) (t : Terminal) : Terminal :=
  set_modes (Mode_setTo m v (_modes t)) t.

(** One argument of [processModes]. *)
Definition processMode (priv set : bool) (a : Z) (t : Terminal) : option Terminal :=
  if priv then
    if a =? 1 then Some (setMode APPCURSOR set t)
    else if a =? 2 then
      Some (set_cursor (Cursor_setCs G0 (Cursor_setG1 CS_US (Cursor_setG0 CS_US (_cursor t)))) t)
    else if a =? 3 then
      if set then requestResize 24 132 t else requestResize 24 80 t
    else if a =? 5 then
      if negb (Bool.eqb (mode REVERSE t) set)
      then Some (bufDo CDamageAll (setMode REVERSE set t))
      else Some t
    else if a =? 6 then
      moveCursorOriginMode Pos0 (set_cursor (Cursor_setOriginMode set (_cursor t)) t)
    else if a =? 7 then Some (setMode AUTO_WRAP set t)
    else if a =? 8 then Some (setMode AUTO_REPEAT set t)
    else if a =? 25 then Some (setMode SHOW_CURSOR set t)
    else if a =? 1000 then Some (setMode MOUSE_MOTION false (setMode MOUSE_BUTTON set t))
    else if a =? 1002 then Some (setMode MOUSE_BUTTON false (setMode MOUSE_MOTION set t))
    else if a =? 1006 then Some (setMode MOUSE_SGR set t)
    else if a =? 1037 then Some (setMode DELETE_SENDS_DEL set t)
    else if a =? 1039 then Some (setMode ALT_SENDS_ESC set t)
    else if (a =? 1049) || (a =? 47) || (a =? 1047) then alternateScreen a set t
    else if a =? 1048 then saveOrRestoreCursor set t
    else if a =? 2004 then Some (setMode BRACKETED_PASTE set t)
    else Some t
  else
    if a =? 2 then Some (setMode KBDLOCK set t)
    else if a =? 4 then Some (setMode INSERT set t)
    else if a =? 12 then Some (setMode ECHO set t)
    else if a =? 20 then Some (setMode CR_ON_LF set t)
    else Some t.

Fixpoint processModes (priv set : bool) (args : list Z) (t : Terminal) : option Terminal :=
  match args with
  | [] => Some t
  | a :: args' => t ← processMode priv set a t; processModes priv set args' t
  end.

(** [case 'n'] of [machineCsi] (lines 1242-1291): the reports are put at the
    front of [_writeBuffer]. *)
Definition deviceStatusReport (args : list Z) (t : Terminal) : Terminal :=
  if isEmpty args then t
  else if nthArg args 0 0 =? 5 then
    set_writeBuffer ([ESC; chr "["; chr "0"; chr "n"] ++ _writeBuffer t) t
  else if nthArg args 0 0 =? 6 then
    let r := row (pos (_cursor t)) in
    let c := col (pos (_cursor t)) in
    let r := if originMode (_cursor t) then to_uint16 (r - getMarginBegin (buffer t)) else r in
    set_writeBuffer
      ([ESC; chr "["] ++ int_bytes (r + 1) ++ [chr ";"] ++ int_bytes (c + 1) ++ [chr "R"]
         ++ _writeBuffer t) t
  else t.

(** [case 'r'] of [machineCsi] (lines 1296-1323). *)
Definition setTopBottomMargins (args : list Z) (t : Terminal) : option Terminal :=
  if isEmpty args then
    moveCursorOriginMode Pos0 (set_buffer (resetMargins (buffer t)) t)
  else
    let top := nthArgNonZero args 0 1 - 1 in
    let bottom := nthArgNonZero args 1 (row (pos (_cursor t)) + 1) - 1 in
    let top := clamp top 0 (getRows (buffer t) - 1) in
    let bottom := clamp bottom 0 (getRows (buffer t) - 1) in
    let t :=
      if top <? bottom then set_buffer (setMargins top (bottom + 1) (buffer t)) t
      else set_buffer (resetMargins (buffer t)) t in
    moveCursorOriginMode Pos0 t.

Definition inMargins (t : Terminal) : bool :=
  (getMarginBegin (buffer t) <=? row (pos (_cursor t))) &&
  (row (pos (_cursor t)) <? getMarginEnd (buffer t)).

Definition machineCsi (priv : bool) (args : list Z) (code : Z) (t : Terminal)
  : option Terminal :=
  let p := pos (_cursor t) in
  let b := buffer t in
  if code =? chr "@" then
    let count := clamp (nthArgNonZero args 0 1) 1 (getCols b - col p) in
    Some (bufDo (CInsertCells p count) t)
  else if code =? chr "A" then moveCursor (up p (nthArgNonZero args 0 1)) t
  else if code =? chr "B" then moveCursor (down p (nthArgNonZero args 0 1)) t
  else if code =? chr "C" then moveCursor (right p (nthArgNonZero args 0 1)) t
  else if code =? chr "D" then moveCursor (left p (nthArgNonZero args 0 1)) t
  else if code =? chr "E" then moveCursor (mkPos (row p + nthArgNonZero args 0 1) 0) t
  else if code =? chr "F" then moveCursor (mkPos (row p - nthArgNonZero args 0 1) 0) t
  else if code =? chr "G" then moveCursor (atCol p (nthArgNonZero args 0 1 - 1)) t
  else if (code =? chr "f") || (code =? chr "H") then
    moveCursorOriginMode (mkPos (nthArg args 0 1 - 1) (nthArg args 1 1 - 1)) t
  else if code =? chr "I" then tabCursor FORWARD (nthArg args 0 1) t
  else if code =? chr "J" then
    if nthArg args 0 0 =? 1 then
      Some (bufDo (CClearLineLeft (right p 1)) (bufDo (CClearAbove (row p)) t))
    else if nthArg args 0 0 =? 2 then moveCursor Pos0 (bufDo CClear t)
    else Some (bufDo (CClearBelow (row p + 1)) (bufDo (CClearLineRight p) t))
  else if code =? chr "K" then
    if nthArg args 0 0 =? 1 then Some (bufDo (CClearLineLeft (right p 1)) t)
    else if nthArg args 0 0 =? 2 then Some (bufDo (CClearLine (row p)) t)
    else Some (bufDo (CClearLineRight p) t)
  else if code =? chr "L" then
    if inMargins t then
      let count := Z.min (nthArgNonZero args 0 1) (getMarginEnd b - row p) in
      Some (bufDo (CInsertLines (row p) count) t)
    else Some t
  else if code =? chr "M" then
    if inMargins t then
      let count := Z.min (nthArgNonZero args 0 1) (getMarginEnd b - row p) in
      Some (bufDo (CEraseLines (row p) count) t)
    else Some t
  else if code =? chr "P" then
    let count := Z.min (nthArgNonZero args 0 1) (getCols b - col p) in
    Some (bufDo (CEraseCells p count) t)
  else if code =? chr "S" then Some (bufDo (CScrollUpMargins (nthArgNonZero args 0 1)) t)
  else if code =? chr "T" then Some (bufDo (CScrollDownMargins (nthArgNonZero args 0 1)) t)
  else if code =? chr "X" then
    Some (bufDo (CSetCells p (nthArgNonZero args 0 1) (Cell_ascii SPACE (style (_cursor t)))) t)
  else if code =? chr "Z" then tabCursor BACKWARD (nthArgNonZero args 0 1) t
  else if code =? chr "`" then moveCursor (atCol p (nthArgNonZero args 0 1 - 1)) t
  else if code =? chr "c" then
    Some (write [ESC; chr "["; chr "?"; chr "6"; chr "c"] t)
  else if code =? chr "d" then moveCursorOriginMode (atRow p (nthArg args 0 1 - 1)) t
  else if code =? chr "g" then
    if nthArg args 0 0 =? 0 then Some (set_tabs (<[Z.to_nat (col p) := false]> (_tabs t)) t)
    else if nthArg args 0 0 =? 3 then Some (set_tabs (replicate (length (_tabs t)) false) t)
    else Some t
  else if code =? chr "h" then processModes priv true args t
  else if code =? chr "l" then processModes priv false args t
  else if code =? chr "m" then
    if isEmpty args then processAttributes [0] t else processAttributes args t
  else if code =? chr "n" then Some (deviceStatusReport args t)
  else if code =? chr "r" then
    if priv then Some t else setTopBottomMargins args t
  else if code =? chr "s" then
    Some (set_savedCursor (Cursor_setPos p (_savedCursor t)) t)
  else if code =? chr "u" then moveCursor (pos (_savedCursor t)) t
  else Some t.

(** The positions [(r, c)] of the two loops of DECALN, in their order. *)
Definition allPositions (rows cols : Z) : list Pos :=
  r ← seqZ 0 rows; c ← seqZ 0 cols; [mkPos r c].

Definition machineSpecial (special code : Z) (t : Terminal) : option Terminal :=
  if special =? chr "#" then
    if code =? chr "8" then
      let cell := Cell_ascii (chr "E") (style (_cursor t)) in
      Some (foldl (fun t p => bufDo (CSetCell p cell) t) t
              (allPositions (getRows (buffer t)) (getCols (buffer t))))
    else Some t
  else if special =? chr "(" then
    if code =? chr "0" then Some (set_cursor (Cursor_setG0 CS_SPECIAL (_cursor t)) t)
    else if code =? chr "A" then Some (set_cursor (Cursor_setG0 CS_UK (_cursor t)) t)
    else if code =? chr "B" then Some (set_cursor (Cursor_setG0 CS_US (_cursor t)) t)
    else Some t
  else if special =? chr ")" then
    if code =? chr "0" then Some (set_cursor (Cursor_setG1 CS_SPECIAL (_cursor t)) t)
    else if code =? chr "A" then Some (set_cursor (Cursor_setG1 CS_UK (_cursor t)) t)
    else if code =? chr "B" then Some (set_cursor (Cursor_setG1 CS_US (_cursor t)) t)
    else Some t
  else Some t.

(** [machineOsc]: [code] is [unstringify<int>(args[0])]. *)
Definition machineOsc (code : Z) (args : list (list Z)) (t : Terminal) : option Terminal :=
  if isEmpty args then Some t
  else if (code =? 0) || (code =? 1) || (code =? 2) then
    match args with
    | _ :: title :: _ => Some (observe (terminalSetTitle title) t)
    | _ => Some t
    end
  else Some t.

(** The calls [VtStateMachine] makes on its observer. *)
Inductive VtEvent :=
| Normal (s : list Z)
| Control (c : Z)
| Escape (c : Z)
| Csi (priv : bool) (args : list Z) (code : Z)
| Dcs (s : list Z)
| Osc (code : Z) (args : list (list Z))
| Special (special code : Z).

Definition dispatch (e : VtEvent) (t : Terminal) : option Terminal :=
  match e with
  | Normal s => machineNormal s t
  | Control c => machineControl c t
  | Escape c => machineEscape c t
  | Csi priv args code => machineCsi priv args code t
  | Dcs _ => Some t
  | Osc code args => machineOsc code args t
  | Special special code => machineSpecial special code t
  end.

(** *** Reading from the pty (terminal.cxx, 411-438 and 846-871) *)

(** [processChar]: the character goes through [_vtMachine], which calls the
    observer for the event the character completes, if it completes one. *)
Definition processChar (ev : option VtEvent) (t : Terminal) : option Terminal :=
  t ← (match ev with Some e => dispatch e t | None => Some t end);
  if Config._syncTty (_config t) then fixDamageAll TTY t else Some t.

(** [processRead] over the characters the UTF-8 machine accepts. *)
Fixpoint processRead (chars : list (option VtEvent)) (t : Terminal) : option Terminal :=
  match chars with
  | [] => Some t
  | ev :: chars' =>
      t ← processChar ev t;
      _ ← ASSERT (row (pos (_cursor t)) <? getRows (buffer t));
      _ ← ASSERT (col (pos (_cursor t)) <? getCols (buffer t));
      processRead chars' t
  end.

(** [read]: [chars] are the characters of the chunks read before the loop
    ends; [exited] is the exit code when [_tty.read] ends it by throwing
    [I_Tty::Exited]. *)
Definition read (chars : list (option VtEvent)) (exited : option Z) (t : Terminal)
  : option Terminal :=
  _ ← ASSERT (negb (_dispatch t));
  let t := set_dispatch true t in
  t ← processRead chars t;
  let t := match exited with Some code => observe (terminalChildExited code) t | None => t end in
  t ← (if negb (Config._syncTty (_config t)) then fixDamageAll TTY t else Some t);
  Some (set_dispatch false t).

(** *** Keys, buttons, wheel, paste (terminal.cxx, 178-409 and 463-545) *)

Definition redraw (begin_ end_ : Pos) (t : Terminal) : option Terminal :=
  fixDamage begin_ end_ EXPOSURE t.

(** [if (_buffer->scroll...()) fixDamage(Pos(0, 0), Pos(rows, cols), SCROLL);] *)
Definition scrollAndFix (c : BufCall) (t : Terminal) : option Terminal :=
  let '(t, changed) := bufCall c t in
  if changed then fixDamageAll SCROLL t else Some t.

Definition copySelection (clipboard : bool) (t : Terminal) : Terminal :=
  match getSelectedText (content (buffer t)) with
  | Some text => observe (terminalCopy text clipboard) t
  | None => t
  end.

Definition XKB_KEY_X : Z := 0x58.
Definition XKB_KEY_C : Z := 0x43.
Definition XKB_KEY_V : Z := 0x56.
Definition XKB_KEY_Home : Z := 0xff50.
Definition XKB_KEY_Up : Z := 0xff52.
Definition XKB_KEY_Down : Z := 0xff54.
Definition XKB_KEY_Page_Up : Z := 0xff55.
Definition XKB_KEY_Page_Down : Z := 0xff56.
Definition XKB_KEY_End : Z := 0xff57.
Definition XKB_KEY_F9 : Z := 0xffc6.

(** [handleKeyBinding]: the terminal after it and the [bool] it returns. *)
Definition handleKeyBinding (keySym modifiers : Z) (t : Terminal)
  : option (Terminal * bool) :=
  let shift := Modifier_get SHIFT modifiers in
  let control := Modifier_get CONTROL modifiers in
  if shift && control && (keySym =? XKB_KEY_X) then Some (copySelection false t, true)
  else if shift && control && (keySym =? XKB_KEY_C) then Some (copySelection true t, true)
  else if shift && control && (keySym =? XKB_KEY_V)
  then Some (observe (terminalPaste true) t, true)
  else if shift then
    if keySym =? XKB_KEY_Up then t ← scrollAndFix (CScrollUpHistory 1) t; Some (t, true)
    else if keySym =? XKB_KEY_Down then t ← scrollAndFix (CScrollDownHistory 1) t; Some (t, true)
    else if keySym =? XKB_KEY_Page_Up
    then t ← scrollAndFix (CScrollUpHistory (getRows (buffer t))) t; Some (t, true)
    else if keySym =? XKB_KEY_Page_Down
    then t ← scrollAndFix (CScrollDownHistory (getRows (buffer t))) t; Some (t, true)
    else if keySym =? XKB_KEY_Home then t ← scrollAndFix CScrollTopHistory t; Some (t, true)
    else if keySym =? XKB_KEY_End then t ← scrollAndFix CScrollBottomHistory t; Some (t, true)
    else Some (t, false)
  else if keySym =? XKB_KEY_F9 then Some (t, true)
  else Some (t, false).

(** [keyPress]: [potent] is [_keyMap.isPotent(keySym)] and [converted] the
    string [_keyMap.convert] produces, if it produces one. *)
Definition keyPress (keySym modifiers : Z) (potent : bool) (converted : option (list Z))
           (t : Terminal) : option Terminal :=
  '(t, handled) ← handleKeyBinding keySym modifiers t;
  if negb handled && potent then
    t ← (if Config._scrollOnTtyKeyPress (_config t)
         then scrollAndFix CScrollBottomHistory t else Some t);
    match converted with
    | Some str => Some (write str t)
    | None => Some t
    end
  else Some t.

(** The mouse report gathered in [ost] by [buttonPress], [buttonMotion] and
    [buttonRelease]: the SGR form ending in [final], the legacy form, or
    nothing ("Couldn't deliver it"). *)
Definition mouseReport (sgr : bool) (num : Z) (p : Pos) (final : Z) : list Z :=
  if sgr then
    [ESC; chr "["; chr "<"] ++ int_bytes num ++ [chr ";"] ++ int_bytes (col p + 1)
      ++ [chr ";"] ++ int_bytes (row p + 1) ++ [final]
  else if (row p <? 223) && (col p <? 223) then
    [ESC; chr "["; chr "M"; to_uint8 (32 + num); to_uint8 (32 + col p + 1);
     to_uint8 (32 + row p + 1)]
  else [].

(** [if (!str.empty()) write(str.data(), str.size());] *)
Definition writeReport (str : list Z) (t : Terminal) : Terminal :=
  if negb (isEmpty str) then write str t else t.

(** [num] of [buttonPress] (lines 211-216). *)
Definition pressNum (button : Button) (modifiers : Z) : Z :=
  let num := Button_int button in
  let num := if 3 <=? num then num + (64 - 3) else num in
  let num := if Modifier_get SHIFT modifiers then num + 4 else num in
  let num := if Modifier_get ALT modifiers then num + 8 else num in
  let num := if Modifier_get CONTROL modifiers then num + 16 else num in
  num.

Definition buttonPress (button : Button) (count : Z) (modifiers : Z) (within : bool)
           (p : Pos) (t : Terminal) : option Terminal :=
  _ ← ASSERT (negb (_pressed t));
  t ← (if mode MOUSE_BUTTON t then
         Some (writeReport
                 (mouseReport (mode MOUSE_SGR t) (pressNum button modifiers) p (chr "M")) t)
       else
         match button with
         | LEFT =>
             fixDamageAll SCROLL
               (bufDo (if count =? 1 then CMarkSelection p else CExpandSelection p) t)
         | MIDDLE => Some (observe (terminalPaste false) t)
         | RIGHT => fixDamageAll SCROLL (bufDo (CAdjustSelection p) t)
         end);
  Some (set_pointerPos p (set_button button (set_pressed true t))).

Definition buttonMotion (modifiers : Z) (within : bool) (p : Pos) (t : Terminal)
  : option Terminal :=
  _ ← ASSERT (_pressed t);
  t ← (if mode MOUSE_MOTION t then
         if within then
           let num := Button_int (_button t) + 32 in
           let num := if Modifier_get SHIFT modifiers then num + 1 else num in
           let num := if Modifier_get ALT modifiers then num + 2 else num in
           let num := if Modifier_get CONTROL modifiers then num + 4 else num in
           Some (writeReport (mouseReport (mode MOUSE_SGR t) num p (chr "M")) t)
         else Some t
       else if negb (mode MOUSE_BUTTON t) then
         match _button t with
         | LEFT => fixDamageAll SCROLL (bufDo (CDelimitSelection p) t)
         | _ => Some t
         end
       else Some t);
  Some (set_pointerPos p t).

Definition buttonRelease (broken : bool) (modifiers : Z) (t : Terminal) : option Terminal :=
  _ ← ASSERT (_pressed t);
  let t :=
    if mode MOUSE_BUTTON t then
      let num := if mode MOUSE_SGR t then Button_int (_button t) + 32 else 3 in
      let num := if Modifier_get SHIFT modifiers then num + 4 else num in
      let num := if Modifier_get ALT modifiers then num + 8 else num in
      let num := if Modifier_get CONTROL modifiers then num + 16 else num in
      writeReport (mouseReport (mode MOUSE_SGR t) num (_pointerPos t) (chr "m")) t
    else copySelection false t in
  Some (set_pressed false t).

Definition scrollWheel (dir : ScrollDir) (modifiers : Z) (t : Terminal) : option Terminal :=
  let n := Z.max 1 (getRows (buffer t) / 4) in
  match dir with
  | UP => scrollAndFix (CScrollUpHistory n) t
  | DOWN => scrollAndFix (CScrollDownHistory n) t
  end.

Definition paste (data : list Z) (t : Terminal) : option Terminal :=
  t ← scrollAndFix CScrollBottomHistory t;
  let t :=
    if mode BRACKETED_PASTE t
    then write [ESC; chr "["; chr "2"; chr "0"; chr "0"; chr "~"] t else t in
  let t := write data t in
  Some (if mode BRACKETED_PASTE t
        then write [ESC; chr "["; chr "2"; chr "0"; chr "1"; chr "~"] t else t).

Definition clearSelection (t : Terminal) : option Terminal :=
  fixDamageAll SCROLL (bufDo CClearSelection t).

(** *** The public operations *)

Inductive Op :=
| OpResize (rows cols : Z)
| OpRedraw (begin_ end_ : Pos)
| OpKeyPress (keySym modifiers : Z) (potent : bool) (converted : option (list Z))
| OpButtonPress (button : Button) (count modifiers : Z) (within : bool) (p : Pos)
| OpButtonMotion (modifiers : Z) (within : bool) (p : Pos)
| OpButtonRelease (broken : bool) (modifiers : Z)
| OpScrollWheel (dir : ScrollDir) (modifiers : Z)
| OpPaste (data : list Z)
| OpClearSelection
| OpRead (chars : list (option VtEvent)) (exited : option Z)
| OpFlush.

(** One public call; [rows] and [cols] of a resize arrive through
    [uint16_t] parameters. *)
Definition step (o : Op) (t : Terminal) : option Terminal :=
  match o with
  | OpResize rows cols => resize (to_uint16 rows) (to_uint16 cols) t
  | OpRedraw b e => redraw b e t
  | OpKeyPress k m potent converted => keyPress k m potent converted t
  | OpButtonPress b count m within p => buttonPress b count m within p t
  | OpButtonMotion m within p => buttonMotion m within p t
  | OpButtonRelease broken m => buttonRelease broken m t
  | OpScrollWheel d m => scrollWheel d m t
  | OpPaste data => paste data t
  | OpClearSelection => clearSelection t
  | OpRead chars exited => read chars exited t
  | OpFlush => flush t
  end.

Fixpoint steps (ops : list Op) (t : Terminal) : option Terminal :=
  match ops with
  | [] => Some t
  | o :: ops' => t ← step o t; steps ops' t
  end.

End Controller.

Arguments Terminal C : clear implicits.

End Terminal.

(** ** A content model: the grid of cells

    Modelled from the spec: the bodies of the [Buffer] calls terminal.cxx
    makes ([setCell], [insertCells], [addLine], ...) are not part of the
    sources at hand.  The grid follows sections 3 and 4.4 of the spec: every
    row has [cols] cells and a damage interval; a cleared cell is a blank;
    line operations act within the margins.  The grid keeps no history and no
    selection: the calls on them change nothing and return [false]. *)

Module Grid.

Record Line := mkLine { cells : list Cell; damage : Damage.Damage }.

Record Grid := mkGrid { lines : list Line; barDamage : bool }.

Definition blankCell : Cell := Cell_blank Style_normal.

Definition blankLine (cols : Z) : Line :=
  mkLine (replicate (Z.to_nat cols) blankCell) Damage.initial.

(** Modelled from the spec: a fresh [rows] x [cols] grid of blanks. *)
Definition blank (rows cols : Z) : Grid :=
  mkGrid (replicate (Z.to_nat rows) (blankLine cols)) false.

(** [Damage::damageAdd] on a row; an interval that is refused changes nothing. *)
Definition damageCols (b e : Z) (l : Line) : Line :=
  mkLine (cells l) (default (damage l) (Damage.damageAdd b e (damage l))).

Definition damageWhole (cols : Z) (l : Line) : Line :=
  mkLine (cells l) (Damage.mkDamage 0 cols).

Definition onLine (r : Z) (f : Line -> Line) (g : Grid) : Grid :=
  if r <? 0 then g else mkGrid (alter f (Z.to_nat r) (lines g)) (barDamage g).

(** Modelled from the spec: the cells [b, e) of a row become [c]. *)
Definition fillCols (b e : Z) (c : Cell) (l : Line) : Line :=
  let b := Z.max 0 b in
  let e := Z.min e (Z.of_nat (length (cells l))) in
  if b <? e then
    damageCols b e
      (mkLine (take (Z.to_nat b) (cells l) ++ replicate (Z.to_nat (e - b)) c
                 ++ drop (Z.to_nat e) (cells l)) (damage l))
  else l.

(** Modelled from the spec: [n] blanks enter at column [c]; the cells to
    their right shift and the last [n] leave the row. *)
Definition insertCols (c n : Z) (l : Line) : Line :=
  let len := length (cells l) in
  damageCols c (Z.of_nat len)
    (mkLine (take len (take (Z.to_nat c) (cells l) ++ replicate (Z.to_nat n) blankCell
                         ++ drop (Z.to_nat c) (cells l))) (damage l)).

(** Modelled from the spec: [n] cells leave at column [c]; the cells to their
    right shift and [n] blanks enter at the end of the row. *)
Definition eraseCols (c n : Z) (l : Line) : Line :=
  let len := length (cells l) in
  damageCols c (Z.of_nat len)
    (mkLine (take len (take (Z.to_nat c) (cells l) ++ drop (Z.to_nat (c + n)) (cells l)
                         ++ replicate (Z.to_nat n) blankCell)) (damage l)).

(** Modelled from the spec: the rows [b, e) are cleared. *)
Definition clearRows (b e cols : Z) (g : Grid) : Grid :=
  mkGrid (imap (fun i l => if (b <=? Z.of_nat i) && (Z.of_nat i <? e)
                           then damageWhole cols (blankLine cols) else l) (lines g))
         (barDamage g).

(** Modelled from the spec: [n] blank rows enter at row [r]; the rows below
    shift down and leave at the bottom margin. *)
Definition insertRows (r n : Z) (geo : Geometry) (g : Grid) : Grid :=
  let stop := Z.to_nat (gMarginEnd geo) in
  let region := take stop (drop (Z.to_nat r) (lines g)) in
  let region := take (stop - Z.to_nat r)
                  (replicate (Z.to_nat n) (blankLine (gCols geo)) ++ region) in
  mkGrid (map (damageWhole (gCols geo))
            (take (Z.to_nat r) (lines g) ++ region ++ drop stop (lines g)))
         (barDamage g).

(** Modelled from the spec: [n] rows leave at row [r]; the rows below shift
    up and blank rows enter at the bottom margin. *)
Definition eraseRows (r n : Z) (geo : Geometry) (g : Grid) : Grid :=
  let stop := Z.to_nat (gMarginEnd geo) in
  let region := drop (Z.to_nat r) (take stop (lines g)) in
  let region := take (stop - Z.to_nat r)
                  (drop (Z.to_nat n) region ++ replicate (Z.to_nat n) (blankLine (gCols geo))) in
  mkGrid (map (damageWhole (gCols geo))
            (take (Z.to_nat r) (lines g) ++ region ++ drop stop (lines g)))
         (barDamage g).

(** Modelled from the spec: what each call does to the grid. *)
Definition gridCall (c : BufCall) (geo : Geometry) (g : Grid) : Grid * bool :=
  match c with
  | CScrollBottomHistory | CScrollTopHistory | CScrollUpHistory _ | CScrollDownHistory _
  | CMarkSelection _ | CExpandSelection _ | CAdjustSelection _ | CDelimitSelection _
  | CClearSelection => (g, false)
  | CDamageCell p => (onLine (row p) (damageCols (col p) (col p + 1)) g, false)
  | CDamageAll => (mkGrid (map (damageWhole (gCols geo)) (lines g)) (barDamage g), false)
  | CResetDamage =>
      (mkGrid (map (fun l => mkLine (cells l) (Damage.reset (damage l))) (lines g)) false, false)
  | CSetCell p cell => (onLine (row p) (fillCols (col p) (col p + 1) cell) g, false)
  | CSetCells p n cell => (onLine (row p) (fillCols (col p) (col p + n) cell) g, false)
  | CInsertCells p n => (onLine (row p) (insertCols (col p) n) g, false)
  | CEraseCells p n => (onLine (row p) (eraseCols (col p) n) g, false)
  | CClearLine r => (clearRows r (r + 1) (gCols geo) g, false)
  | CClearLineLeft p => (onLine (row p) (fillCols 0 (col p) blankCell) g, false)
  | CClearLineRight p => (onLine (row p) (fillCols (col p) (gCols geo) blankCell) g, false)
  | CClearAbove r => (clearRows 0 r (gCols geo) g, false)
  | CClearBelow r => (clearRows r (gRows geo) (gCols geo) g, false)
  | CClear => (clearRows 0 (gRows geo) (gCols geo) g, false)
  | CInsertLines r n => (insertRows r n geo g, false)
  | CEraseLines r n => (eraseRows r n geo g, false)
  | CScrollUpMargins n => (eraseRows (gMarginBegin geo) n geo g, false)
  | CScrollDownMargins n => (insertRows (gMarginBegin geo) n geo g, false)
  | CAddLine => (eraseRows (gMarginBegin geo) 1 geo g, false)
  end.

Definition lineAt (g : Grid) (r : Z) : Line :=
  if r <? 0 then blankLine 0 else default (blankLine 0) (lines g !! Z.to_nat r).

Definition cellAt (g : Grid) (p : Pos) : Cell :=
  if col p <? 0 then blankCell
  else default blankCell (cells (lineAt g (row p)) !! Z.to_nat (col p)).

Definition damageAt (g : Grid) (r : Z) : Z * Z :=
  (Damage.dBegin (damage (lineAt g r)), Damage.dEnd (damage (lineAt g r))).

(** Modelled from the spec: the clipping resize ("active rows are truncated
    or padded with blanks"); the margins span the new screen and a cursor row
    that leaves the screen is brought back to its last row. *)
Definition gridResized (rows cols cursorRow : Z) (geo : Geometry) (g : Grid) : Resized Grid :=
  mkResized
    (mkGrid (map (fun l => damageWhole cols (mkLine (resize (Z.to_nat cols) blankCell (cells l))
                                               (damage l)))
               (resize (Z.to_nat rows) (blankLine cols) (lines g))) true)
    0 rows (Z.min 0 (rows - 1 - cursorRow)).

Lemma gridResized_margins rows cols cursorRow geo g :
  0 < rows ->
  0 <= rsMarginBegin (gridResized rows cols cursorRow geo g) /\
  rsMarginBegin (gridResized rows cols cursorRow geo g)
    < rsMarginEnd (gridResized rows cols cursorRow geo g) /\
  rsMarginEnd (gridResized rows cols cursorRow geo g) <= rows.
Proof. simpl. lia. Qed.

#[global] Instance content : BufferContent Grid := {|
  call := gridCall;
  getCell := cellAt;
  getDamage := damageAt;
  getBarDamage := barDamage;
  getScrollOffset := fun _ => 0%N;
  getTotal := fun g => Z.of_nat (length (lines g));
  getBar := fun _ => 0;
  getSelectedArea := fun _ => None;
  getSelectedText := fun _ => None;
  resized := gridResized;
  resized_margins := gridResized_margins
|}.

End Grid.

(** ** Buffer::write of common/buffer.hxx

    The records follow buffer.hxx ([ALine], [HLine], [Cursor], the fields of
    [Buffer]); the paragraphs the deduper holds are kept in [_tags]
    themselves. *)

(** [divideRoundUp] (support/math.hxx), as long as [a + b - 1] fits the type
    the operands are converted to; [Buffer::write] calls it with a number of
    cells and a number of columns. *)
Definition divideRoundUp (a b : Z) : Z := (a + b - 1) / b.


Module NewBuffer.

Record HLine := mkHLine { index : Z; seqnum : Z }.

Record ALine := mkALine { cells : list Cell; cont : bool; wrap : Z }.

(** [ALine(cols, style)] (buffer.hxx, 99-100). *)
Definition ALine_new (cols : Z) (s : Style) : ALine :=
  mkALine (replicate (Z.to_nat cols) (Cell_blank s)) false 0.

Record Cursor := mkCursor {
  pos : Pos;
  style : Style;
  wrapNext : bool;
  charSet : Terminal.CharSet
}.

Record Buffer := mkBuffer {
  _tags : list (list Cell);
  _lostTags : Z;
  _pending : list Cell;
  _history : list HLine;
  _active : list ALine;
  _damage : list Damage.Damage;
  _historyLimit : Z;
  _cols : Z;
  _marginBegin : Z;
  _marginEnd : Z;
  _cursor : Cursor
}.

Definition getRows (b : Buffer) : Z := Z.of_nat (length (_active b)).

(** Modelled from the spec: the constructor [Buffer(config, deduper,
    destroyer, rows, cols, historyLimit, charSubs)] is declared only; it
    gives [rows] blank lines of [cols] cells, no history, no damage, margins
    over the whole screen and the cursor [Cursor()]. *)
Definition new (rows cols historyLimit : Z) : Buffer :=
  mkBuffer [] 0 [] [] (replicate (Z.to_nat rows) (ALine_new cols Style_normal))
    (replicate (Z.to_nat rows) Damage.initial) historyLimit cols 0 rows
    (mkCursor Pos0 Style_normal false Terminal.G0).

Definition set_active (a : list ALine) (b : Buffer) : Buffer :=
  mkBuffer (_tags b) (_lostTags b) (_pending b) (_history b) a (_damage b)
    (_historyLimit b) (_cols b) (_marginBegin b) (_marginEnd b) (_cursor b).
Definition set_damage (d : list Damage.Damage) (b : Buffer) : Buffer :=
  mkBuffer (_tags b) (_lostTags b) (_pending b) (_history b) (_active b) d
    (_historyLimit b) (_cols b) (_marginBegin b) (_marginEnd b) (_cursor b).
Definition set_cursor (c : Cursor) (b : Buffer) : Buffer :=
  mkBuffer (_tags b) (_lostTags b) (_pending b) (_history b) (_active b) (_damage b)
    (_historyLimit b) (_cols b) (_marginBegin b) (_marginEnd b) c.
Definition set_store (tags : list (list Cell)) (lost : Z) (pending : list Cell)
           (history : list HLine) (b : Buffer) : Buffer :=
  mkBuffer tags lost pending history (_active b) (_damage b)
    (_historyLimit b) (_cols b) (_marginBegin b) (_marginEnd b) (_cursor b).

(** Modelled from the spec: [damageColumns(begin, end)] is declared only;
    it widens the damage of the cursor's row to cover the columns. *)
Definition damageColumns (begin_ end_ : Z) (b : Buffer) : Buffer :=
  set_damage
    (alter (fun d => default d (Damage.damageAdd begin_ end_ d))
       (Z.to_nat (row (pos (_cursor b)))) (_damage b)) b.

(** Modelled from the spec: [damageRows(begin, end)] is declared only;
    "scroll operations mark all rows damaged". *)
Definition damageRows (begin_ end_ : Z) (b : Buffer) : Buffer :=
  set_damage
    (imap (fun i d => if (begin_ <=? Z.of_nat i) && (Z.of_nat i <? end_)
                      then Damage.mkDamage 0 (_cols b) else d) (_damage b)) b.

(** Modelled from the spec: [marginsSet] is declared only; the margins are
    set when they are not the whole screen. *)
Definition marginsSet (b : Buffer) : bool :=
  negb ((_marginBegin b =? 0) && (_marginEnd b =? getRows b)).

(** Modelled from the spec: [enforceHistoryLimit] is declared only (section
    4.4.1, step 4): history rows leave at the front while there are more
    than the limit; the tags no row refers to any more are lost. *)
Definition enforceHistoryLimit (b : Buffer) : Buffer :=
  let excess := Z.to_nat (Z.of_nat (length (_history b)) - _historyLimit b) in
  let history := drop excess (_history b) in
  let lost :=
    match history with
    | h :: _ => index h
    | [] => _lostTags b + Z.of_nat (length (_tags b))
    end in
  set_store (drop (Z.to_nat (lost - _lostTags b)) (_tags b)) lost (_pending b) history b.

(** Modelled from the spec: [bump] is declared only (section 4.4.1, steps
    1-4): the top row leaves the screen into [_pending]; a row that does not
    continue completes the paragraph, which gets its tag and one history row
    for each segment of [cols] cells. *)
Definition bump (b : Buffer) : Buffer :=
  match _active b with
  | [] => b
  | top :: rest =>
      let pending := _pending b ++ take (Z.to_nat (wrap top)) (cells top) in
      let b := set_active (rest ++ [ALine_new (_cols b) Style_normal]) b in
      let b :=
        if cont top then set_store (_tags b) (_lostTags b) pending (_history b) b
        else
          let tag := _lostTags b + Z.of_nat (length (_tags b)) in
          let segments := Z.max 1 (divideRoundUp (Z.of_nat (length pending)) (_cols b)) in
          set_store (_tags b ++ [pending]) (_lostTags b) []
            (_history b ++ map (mkHLine tag) (seqZ 0 segments)) b in
      enforceHistoryLimit b
  end.

(** Modelled from the spec: [addLine] is declared only (sections 4.4.1 and
    4.4.4): with margins over the whole screen the top row scrolls into the
    history; a row leaving the top of a partial margin area is discarded. *)
Definition addLine (b : Buffer) : Buffer :=
  let b :=
    if marginsSet b then
      let stop := Z.to_nat (_marginEnd b) in
      let start := Z.to_nat (_marginBegin b) in
      set_active
        (take start (_active b)
           ++ drop (S start) (take stop (_active b)) ++ [ALine_new (_cols b) Style_normal]
           ++ drop stop (_active b)) b
    else bump b in
  damageRows 0 (getRows b) b.

(** Modelled from the spec: [insertCells(n)] is declared only (section
    4.4.4): the cells from the cursor column shift right by [n], blanks
    enter, the row keeps its [cols] cells. *)
Definition insertCells (n : Z) (b : Buffer) : Buffer :=
  let c := Z.to_nat (col (pos (_cursor b))) in
  let shift (l : ALine) :=
    mkALine (take (Z.to_nat (_cols b))
               (take c (cells l) ++ replicate (Z.to_nat n) (Cell_blank (style (_cursor b)))
                  ++ drop c (cells l)))
            (cont l) (Z.min (_cols b) (wrap l + n)) in
  damageColumns (col (pos (_cursor b))) (_cols b)
    (set_active (alter shift (Z.to_nat (row (pos (_cursor b)))) (_active b)) b).

(** Modelled from the spec: the body of [Buffer::write(seq, autoWrap,
    insert)] is not part of the sources at hand (buffer.hxx declares it).
    Section 4.4.4: it honours [wrap_next]; if set and AUTO_WRAP is on, the
    just-completed line is marked as continuing and, on the bottom margin
    row, the buffer scrolls, else the cursor moves to column 0 of the next
    row; in INSERT mode the cells shift right at the cursor column; the new
    cell is placed; at the last column [wrap_next] is set, else the cursor
    advances. *)
Definition write (s : list Z) (autoWrap insert : bool) (b : Buffer) : Buffer :=
  let b :=
    if wrapNext (_cursor b) && autoWrap then
      let r := row (pos (_cursor b)) in
      let b := set_active
                 (alter (fun l => mkALine (cells l) true (wrap l)) (Z.to_nat r) (_active b)) b in
      if r =? _marginEnd b - 1
      then set_cursor (mkCursor (mkPos r 0) (style (_cursor b)) false (charSet (_cursor b)))
             (addLine b)
      else set_cursor (mkCursor (mkPos (r + 1) 0) (style (_cursor b)) false
                         (charSet (_cursor b))) b
    else b in
  let b := if insert then insertCells 1 b else b in
  let p := pos (_cursor b) in
  let place (l : ALine) :=
    mkALine (<[Z.to_nat (col p) := Cell_utf8 s (style (_cursor b))]> (cells l))
            (cont l) (Z.max (wrap l) (col p + 1)) in
  let b := damageColumns (col p) (col p + 1)
             (set_active (alter place (Z.to_nat (row p)) (_active b)) b) in
  if col p =? _cols b - 1
  then set_cursor (mkCursor p (style (_cursor b)) true (charSet (_cursor b))) b
  else set_cursor (mkCursor (right p 1) (style (_cursor b)) (wrapNext (_cursor b))
                     (charSet (_cursor b))) b.

End NewBuffer.

(** ** Properties: definitions *)

Section TerminalProperties.

Context {C : Type} `{BufferContent C}.

Import Terminal.

(** A position lies inside a [rows] x [cols] grid. *)
Definition inGrid (p : Pos) (rows cols : Z) : Prop :=
  (0 <= row p /\ row p < rows) /\ (0 <= col p /\ col p < cols).

(** The cursor of the controller lies inside the current buffer. *)
Definition cursorInGrid (t : Terminal C) : Prop :=
  inGrid (pos (_cursor t)) (getRows (buffer t)) (getCols (buffer t)).

(** The size fits the [uint16_t] it is kept in, and the margins satisfy
    [0 <= begin < end <= rows]. *)
Definition geometryOk (g : Geometry) : Prop :=
  (0 < gRows g /\ gRows g < 65536) /\ (0 < gCols g /\ gCols g < 65536) /\
  0 <= gMarginBegin g /\ gMarginBegin g < gMarginEnd g /\ gMarginEnd g <= gRows g.

(** The invariant of the controller: both buffers have the same, well-formed
    size, and the cursor and the saved cursor lie inside it. *)
Definition Inv (t : Terminal C) : Prop :=
  geometryOk (geom (_priBuffer t)) /\ geometryOk (geom (_altBuffer t)) /\
  getRows (_priBuffer t) = getRows (_altBuffer t) /\
  getCols (_priBuffer t) = getCols (_altBuffer t) /\
  inGrid (pos (_cursor t)) (getRows (_priBuffer t)) (getCols (_priBuffer t)) /\
  inGrid (pos (_savedCursor t)) (getRows (_priBuffer t)) (getCols (_priBuffer t)).

(** The observer does not call [resize] while it handles
    [terminalResizeBuffer]. *)
Definition noReentry (t : Terminal C) : Prop :=
  forall rows cols, resizeOnRequest (env t) rows cols = None.

(** A run of [write] calls, in order. *)
Definition writes (ds : list (list Z)) (t : Terminal C) : Terminal C :=
  foldl (fun t d => write d t) t ds.

(** The drop-writes state as a pty error leaves it: the flag is set, the
    queue is empty, and a run of [write] calls made in that state leaves the
    controller, and with it the bytes the pty has taken, as it is. *)
Definition dropsWrites (t : Terminal C) : Prop :=
  _dumpWrites t = true /\ _writeBuffer t = [] /\ forall ds, writes ds t = t.

End TerminalProperties.

(** The 80 x 24 controller of the scenarios: default configuration, blank
    grids, a pty that answers with [script], an observer that accepts every
    frame and does not resize. *)
Definition scenarioEnv (script : list Terminal.TtyReply) : Terminal.Env :=
  Terminal.mkEnv script [] [] true (fun _ _ => None).

Definition scenario (script : list Terminal.TtyReply) : Terminal.Terminal Grid.Grid :=
  Terminal.new Config.default 24 80 (Grid.blank 24 80) (Grid.blank 24 80)
    (scenarioEnv script).

(** The observer calls made between two states of a run. *)
Definition newCalls {C} (before after : option (Terminal.Terminal C))
  : option (list Terminal.ObsCall) :=
  t1 ← before; t2 ← after;
  Some (drop (length (Terminal.obsLog (Terminal.env t1))) (Terminal.obsLog (Terminal.env t2))).

(** [n] times the printable character [c], as the VT machine delivers it. *)
Definition typed (n : nat) (c : Z) : list (option Terminal.VtEvent) :=
  replicate n (Some (Terminal.Normal [c])).

(** A session on the 80 x 24 controller: three characters, a cursor
    position beyond the screen, a tab, origin mode with margins, a resize to
    10 x 20, a restore of the saved cursor, a key, a button press and release,
    the wheel, a paste and a redraw. *)
Definition sampleSession : list Terminal.Op :=
  [ Terminal.OpRead
      (typed 3 (chr "A")
         ++ [Some (Terminal.Csi false [99; 99] (chr "H")); Some (Terminal.Control Terminal.HT);
             Some (Terminal.Escape (chr "7"));
             Some (Terminal.Csi false [5; 20] (chr "r"));
             Some (Terminal.Csi true [6] (chr "h"))]) None;
    Terminal.OpResize 10 20;
    Terminal.OpRead [Some (Terminal.Escape (chr "8")); Some (Terminal.Normal [chr "B"])] None;
    Terminal.OpKeyPress (chr "a") 0 true (Some [chr "a"]);
    Terminal.OpButtonPress Terminal.LEFT 1 0 true (mkPos 3 4);
    Terminal.OpButtonRelease false 0;
    Terminal.OpScrollWheel Terminal.UP 0;
    Terminal.OpPaste [chr "x"];
    Terminal.OpRedraw (mkPos 0 0) (mkPos 10 20) ].

(** ** Buffer::APos (common/buffer.hxx, lines 56-77) *)

Module APos.

(** A position that can refer to historical and active lines: [row >= 0]
    is a row of the active region, [row < 0] one of the history. *)
Record APos := mkAPos { row : Z; col : Z }.

(** [APos()] *)
Definition origin : APos := mkAPos 0 0.

(** [operator ==], [operator !=] and [operator <]. *)
Definition eqb (lhs rhs : APos) : bool :=
  (row lhs =? row rhs) && (col lhs =? col rhs).

Definition neqb (lhs rhs : APos) : bool := negb (eqb lhs rhs).

Definition ltb (lhs rhs : APos) : bool :=
  (row lhs <? row rhs) || ((row lhs =? row rhs) && (col lhs <? col rhs)).

End APos.

(** ** Buffer::ALine (common/buffer.hxx, lines 94-127)

    The methods of the active line, on the record [NewBuffer.ALine].
    [Cell::blank()] is the blank cell of the default style [Style()], taken
    to be [Style_normal]. *)

#[export] Instance Cell_eq_dec : EqDecision Cell.
Proof. solve_decision. Defined.

Module ALine.

(** [ALine(cells_, cont_, wrap_, cols)] *)
Definition make (cells_ : list Cell) (cont_ : bool) (wrap_ cols : Z)
  : option NewBuffer.ALine :=
  _ ← ASSERT (wrap_ <=? cols);
  Some (NewBuffer.mkALine (resize (Z.to_nat cols) (Cell_blank Style_normal) cells_)
          cont_ wrap_).

(** [std::fill(cells.begin(), cells.end(), Cell::blank(style))] *)
Definition clear (style : Style) (l : NewBuffer.ALine) : NewBuffer.ALine :=
  NewBuffer.mkALine ((fun _ => Cell_blank style) <$> NewBuffer.cells l) false 0.

Definition isBlank (l : NewBuffer.ALine) : bool :=
  forallb (fun c => bool_decide (c = Cell_blank Style_normal)) (NewBuffer.cells l).

(** [resize(cols)]: [cells.resize(cols, Cell::blank())] keeps the cells
    that fit and pads with blank ones. *)
Definition resize (cols : Z) (l : NewBuffer.ALine) : option NewBuffer.ALine :=
  _ ← ASSERT (0 <? cols);
  Some (NewBuffer.mkALine
          (resize (Z.to_nat cols) (Cell_blank Style_normal) (NewBuffer.cells l))
          false (Z.min (NewBuffer.wrap l) cols)).

End ALine.

(** ** Config::setColorScheme (common/config.cxx, lines 8-148 and 207-276) *)

Module ColorScheme.

Import String.
#[local] Open Scope string_scope.

Definition COLOURS_LINUX : list Config.Color :=
  [ Config.mkColor 0x00 0x00 0x00; Config.mkColor 0xA8 0x00 0x00; Config.mkColor 0x00 0xA8 0x00;
    Config.mkColor 0xA8 0x57 0x00; Config.mkColor 0x00 0x00 0xA8; Config.mkColor 0xA8 0x00 0xA8;
    Config.mkColor 0x00 0xA8 0xA8; Config.mkColor 0xA8 0xA8 0xA8; Config.mkColor 0x57 0x57 0x57;
    Config.mkColor 0xFF 0x57 0x57; Config.mkColor 0x57 0xFF 0x57; Config.mkColor 0xFF 0xFF 0x57;
    Config.mkColor 0x57 0x57 0xFF; Config.mkColor 0xFF 0x57 0xFF; Config.mkColor 0x57 0xFF 0xFF;
    Config.mkColor 0xFF 0xFF 0xFF ].

Definition COLOURS_RXVT : list Config.Color :=
  [ Config.mkColor 0x00 0x00 0x00; Config.mkColor 0xCD 0x00 0x00; Config.mkColor 0x00 0xCD 0x00;
    Config.mkColor 0xCD 0xCD 0x00; Config.mkColor 0x00 0x00 0xCD; Config.mkColor 0xCD 0x00 0xCD;
    Config.mkColor 0x00 0xCD 0xCD; Config.mkColor 0xFA 0xEB 0xD7; Config.mkColor 0x40 0x40 0x40;
    Config.mkColor 0xFF 0x00 0x00; Config.mkColor 0x00 0xFF 0x00; Config.mkColor 0xFF 0xFF 0x00;
    Config.mkColor 0x00 0x00 0xFF; Config.mkColor 0xFF 0x00 0xFF; Config.mkColor 0x00 0xFF 0xFF;
    Config.mkColor 0xFF 0xFF 0xFF ].

Definition COLOURS_TANGO : list Config.Color :=
  [ Config.mkColor 0x2E 0x34 0x36; Config.mkColor 0xCC 0x00 0x00; Config.mkColor 0x4E 0x9A 0x06;
    Config.mkColor 0xC4 0xA0 0x00; Config.mkColor 0x34 0x65 0xA4; Config.mkColor 0x75 0x50 0x7B;
    Config.mkColor 0x06 0x98 0x9A; Config.mkColor 0xD3 0xD7 0xCF; Config.mkColor 0x55 0x57 0x53;
    Config.mkColor 0xEF 0x29 0x29; Config.mkColor 0x8A 0xE2 0x34; Config.mkColor 0xFC 0xE9 0x4F;
    Config.mkColor 0x72 0x9F 0xCF; Config.mkColor 0xAD 0x7F 0xA8; Config.mkColor 0x34 0xE2 0xE2;
    Config.mkColor 0xEE 0xEE 0xEC ].

Definition COLOURS_XTERM : list Config.Color :=
  [ Config.mkColor 0x00 0x00 0x00; Config.mkColor 0xCD 0x00 0x00; Config.mkColor 0x00 0xCD 0x00;
    Config.mkColor 0xCD 0xCD 0x00; Config.mkColor 0x00 0x00 0xEE; Config.mkColor 0xCD 0x00 0xCD;
    Config.mkColor 0x00 0xCD 0xCD; Config.mkColor 0xE5 0xE5 0xE5; Config.mkColor 0x7F 0x7F 0x7F;
    Config.mkColor 0xFF 0x00 0x00; Config.mkColor 0x00 0xFF 0x00; Config.mkColor 0xFF 0xFF 0x00;
    Config.mkColor 0x5C 0x5C 0xFF; Config.mkColor 0xFF 0x00 0xFF; Config.mkColor 0x00 0xFF 0xFF;
    Config.mkColor 0xFF 0xFF 0xFF ].

Definition COLOURS_ZENBURN_DARK : list Config.Color :=
  [ Config.mkColor 0x00 0x00 0x00; Config.mkColor 0x9E 0x18 0x28; Config.mkColor 0xAE 0xCE 0x92;
    Config.mkColor 0x96 0x8A 0x38; Config.mkColor 0x41 0x41 0x71; Config.mkColor 0x96 0x3C 0x59;
    Config.mkColor 0x41 0x81 0x79; Config.mkColor 0xBE 0xBE 0xBE; Config.mkColor 0x66 0x66 0x66;
    Config.mkColor 0xCF 0x61 0x71; Config.mkColor 0xC5 0xF7 0x79; Config.mkColor 0xFF 0xF7 0x96;
    Config.mkColor 0x41 0x86 0xBE; Config.mkColor 0xCF 0x9E 0xBE; Config.mkColor 0x71 0xBE 0xBE;
    Config.mkColor 0xFF 0xFF 0xFF ].

Definition COLOURS_ZENBURN : list Config.Color :=
  [ Config.mkColor 0x3F 0x3F 0x3F; Config.mkColor 0x70 0x50 0x50; Config.mkColor 0x60 0xB4 0x8A;
    Config.mkColor 0xDF 0xAF 0x8F; Config.mkColor 0x50 0x60 0x70; Config.mkColor 0xDC 0x8C 0xC3;
    Config.mkColor 0x8C 0xD0 0xD3; Config.mkColor 0xDC 0xDC 0xCC; Config.mkColor 0x70 0x90 0x80;
    Config.mkColor 0xDC 0xA3 0xA3; Config.mkColor 0xC3 0xBF 0x9F; Config.mkColor 0xF0 0xDF 0xAF;
    Config.mkColor 0x94 0xBF 0xF3; Config.mkColor 0xEC 0x93 0xD3; Config.mkColor 0x93 0xE0 0xE3;
    Config.mkColor 0xFF 0xFF 0xFF ].

Definition COLOURS_SOLARIZED_LIGHT : list Config.Color :=
  [ Config.mkColor 0xEE 0xE8 0xD5; Config.mkColor 0xDC 0x32 0x2F; Config.mkColor 0x85 0x99 0x00;
    Config.mkColor 0xB5 0x89 0x00; Config.mkColor 0x26 0x8B 0xD2; Config.mkColor 0xD3 0x36 0x82;
    Config.mkColor 0x2A 0xA1 0x98; Config.mkColor 0x07 0x36 0x42; Config.mkColor 0xFD 0xF6 0xE3;
    Config.mkColor 0xCB 0x4B 0x16; Config.mkColor 0x93 0xA1 0xA1; Config.mkColor 0x83 0x94 0x96;
    Config.mkColor 0x65 0x7B 0x83; Config.mkColor 0x6C 0x71 0xC4; Config.mkColor 0x58 0x6E 0x75;
    Config.mkColor 0x00 0x2B 0x36 ].

(** The colours [setColorScheme] assigns; [systemColors] is the C array
    [Color systemColors[16]]. *)
Record Colors := mkColors {
  systemColors          : list Config.Color;
  fgColor               : Config.Color;
  bgColor               : Config.Color;
  customCursorFillColor : bool;
  cursorFillColor       : Config.Color;
  scrollbarFgColor      : Config.Color;
  scrollbarBgColor      : Config.Color;
  borderColor           : Config.Color
}.

(** [systemColors[i]] *)
Definition at_ (table : list Config.Color) (i : nat) : Config.Color :=
  nth i table (Config.mkColor 0 0 0).

(** The branches that take [fgColor] from entry 7 and [bgColor] from
    entry 0. *)
Definition plain (table : list Config.Color) (c : Colors) : Colors :=
  mkColors table (at_ table 7) (at_ table 0) false (cursorFillColor c)
    (scrollbarFgColor c) (scrollbarBgColor c) (borderColor c).

(** The two solarized branches. *)
Definition solarized (table : list Config.Color) (c : Colors) : Colors :=
  mkColors table (at_ table 12) (at_ table 8) true (at_ table 14)
    (scrollbarFgColor c) (scrollbarBgColor c) (borderColor c).

(** The chain of comparisons on [name]: the colours after the branch taken,
    and whether it was the [ERROR("No such color scheme: ...")] one. *)
Definition chooseScheme (name : string) (c : Colors) : Colors * bool :=
  if String.eqb name "linux" then (plain COLOURS_LINUX c, false)
  else if String.eqb name "rxvt" then (plain COLOURS_RXVT c, false)
  else if String.eqb name "tango" then (plain COLOURS_TANGO c, false)
  else if String.eqb name "xterm" then (plain COLOURS_XTERM c, false)
  else if String.eqb name "zenburn-dark" then (plain COLOURS_ZENBURN_DARK c, false)
  else if String.eqb name "zenburn" then (plain COLOURS_ZENBURN c, false)
  else if String.eqb name "solarized-dark"
  then (solarized Config.COLOURS_SOLARIZED_DARK c, false)
  else if String.eqb name "solarized-light" then (solarized COLOURS_SOLARIZED_LIGHT c, false)
  else (c, true).

(** [setColorScheme(name)]: the colours it leaves, and whether it logged the
    error. *)
Definition setColorScheme (name : string) (c : Colors) : Colors * bool :=
  let '(c, failed) := chooseScheme name c in
  (mkColors (systemColors c) (fgColor c) (bgColor c) (customCursorFillColor c)
     (cursorFillColor c) (Config.mkColor 0x7F 0x7F 0x7F) (bgColor c) (bgColor c),
   failed).

(** The names the chain of comparisons knows. *)
Definition schemes : list string :=
  [ "linux"; "rxvt"; "tango"; "xterm"; "zenburn-dark"; "zenburn"; "solarized-dark";
    "solarized-light" ].

End ColorScheme.

(** ** The geometry of the window (xcb/screen.cxx)

    [pos2XY] and [xy2Pos] (lines 673-727), [resizeToAccommodate] (1027-1051)
    and [sizeToRowsCols] (1053-1074).  The arithmetic is that of [int], with
    the conversions to [uint16_t] and [int16_t] the code writes. *)

Definition to_int16 (v : Z) : Z := (v + 32768) mod 65536 - 32768.

Module Screen.

(** What the four functions read: the two [Config] fields and the switch of
    the scrollbar, the cell size of [_fontSet], [_geometry.width] and
    [_geometry.height], and the size [_terminal] reports. *)
Record Screen := mkScreen {
  borderThickness  : Z;
  scrollbarVisible : bool;
  scrollbarWidth   : Z;
  fontWidth        : Z;      (* _fontSet->getWidth() *)
  fontHeight       : Z;      (* _fontSet->getHeight() *)
  width            : Z;      (* _geometry.width *)
  height           : Z;      (* _geometry.height *)
  getRows          : Z;      (* _terminal->getRows() *)
  getCols          : Z       (* _terminal->getCols() *)
}.

Inductive Hand := LEFT | RIGHT.

Definition pos2XY (s : Screen) (p : Pos) : option (Z * Z) :=
  _ ← ASSERT (row p <=? getRows s);
  _ ← ASSERT (col p <=? getCols s);
  Some (borderThickness s + col p * fontWidth s,
        borderThickness s + row p * fontHeight s).

(** The x part of [xy2Pos]: the column, the hand (the caller's, where the
    branch does not assign it) and [within]. *)
Definition x2Col (s : Screen) (x : Z) (hand : Hand) : option (Z * Hand * bool) :=
  let halfFontWidth := Z.quot (fontWidth s) 2 in
  if x <? borderThickness s then Some (0, hand, false)
  else if x <? borderThickness s + fontWidth s * getCols s then
    let xx := x - borderThickness s in
    let c := Z.quot xx (fontWidth s) in
    let hand := if halfFontWidth <? Z.rem xx (fontWidth s) then RIGHT else LEFT in
    _ ← ASSERT (c <=? getCols s);
    Some (c, hand, true)
  else Some (getCols s, hand, false).

(** The y part of [xy2Pos]. *)
Definition y2Row (s : Screen) (y : Z) (within : bool) : option (Z * bool) :=
  if y <? borderThickness s then Some (0, false)
  else if y <? borderThickness s + fontHeight s * getRows s then
    let yy := y - borderThickness s in
    let r := Z.quot yy (fontHeight s) in
    _ ← ASSERT (r <? getRows s);
    Some (r, within)
  else Some (getRows s - 1, false).

(** [xy2Pos(x, y, pos, hand)]: the [bool] it returns, [pos] and [hand]. *)
Definition xy2Pos (s : Screen) (x y : Z) (hand : Hand) : option (bool * Pos * Hand) :=
  '(c, hand, within) ← x2Col s x hand;
  '(r, within) ← y2Row s y within;
  Some (within, mkPos r c, hand).

Definition scrollbar_width (s : Screen) : Z :=
  if scrollbarVisible s then scrollbarWidth s else 0.

(** The [width] and [height] [resizeToAccommodate(rows, cols, sync)] asks
    the X server for; [None] when the window has that size already. *)
Definition resizeToAccommodate (rows cols : Z) (s : Screen) : option (Z * Z) :=
  let width_ := to_uint16 (2 * borderThickness s + cols * fontWidth s + scrollbar_width s) in
  let height_ := to_uint16 (2 * borderThickness s + rows * fontHeight s) in
  if negb (width s =? width_) || negb (height s =? height_)
  then Some (width_, height_) else None.

(** [_geometry = _deferredGeometry], for the size of a configure event. *)
Definition setGeometry (w h : Z) (s : Screen) : Screen :=
  mkScreen (borderThickness s) (scrollbarVisible s) (scrollbarWidth s) (fontWidth s)
    (fontHeight s) w h (getRows s) (getCols s).

(** [sizeToRowsCols(rows, cols)]: the two results, [None] when the ASSERT
    fires. *)
Definition sizeToRowsCols (s : Screen) : option (Z * Z) :=
  let base_width := 2 * borderThickness s + scrollbar_width s in
  let base_height := 2 * borderThickness s in
  let '(rows, cols) :=
    if (to_uint16 (base_width + fontWidth s) <=? width s) &&
       (to_uint16 (base_height + fontHeight s) <=? height s)
    then
      let w := to_int16 (width s - base_width) in
      let h := to_int16 (height s - base_height) in
      (to_int16 (Z.quot h (fontHeight s)), to_int16 (Z.quot w (fontWidth s)))
    else (1, 1) in
  _ ← ASSERT ((0 <? rows) && (0 <? cols));
  Some (rows, cols).

(** The window after the X server has granted the size
    [resizeToAccommodate] asked for, if it asked. *)
Definition accommodated (rows cols : Z) (s : Screen) : Screen :=
  match resizeToAccommodate rows cols s with
  | Some (w, h) => setGeometry w h s
  | None => s
  end.

End Screen.

(** ** Properties of the controller as a whole: definitions *)

(** Characters that print or are C0 controls: the events [machineNormal]
    and [machineControl] receive, and characters that complete no event. *)
Definition printing (ev : option Terminal.VtEvent) : Prop :=
  match ev with
  | Some (Terminal.Normal _) | Some (Terminal.Control _) | None => True
  | Some _ => False
  end.

(** The columns a run of observer calls paints on row [r], from column
    [from] on: every call is a [terminalDrawRun] on row [r] of at least one
    column that starts where the one before it ended; the result is the
    column the last one ends at. *)
Fixpoint tiles (r from : Z) (calls : list Terminal.ObsCall) : option Z :=
  match calls with
  | [] => Some from
  | Terminal.terminalDrawRun p _ _ count :: rest =>
      if (row p =? r) && (col p =? from) && (0 <? count)
      then tiles r (from + count) rest else None
  | _ :: _ => None
  end.

(** The bytes the [terminalDrawRun] calls hand over, without the NUL that
    ends each string. *)
Definition runBytes (calls : list Terminal.ObsCall) : list Z :=
  c ← calls;
  match c with
  | Terminal.terminalDrawRun _ _ str _ => take (length str - 1) str
  | _ => []
  end.

(** The bytes of the cells of row [r] from column [from] up to [to]. *)
Definition cellBytes {C} `{BufferContent C} (b : C) (r from to : Z) : list Z :=
  c ← seqZ from (to - from); Terminal.seqBytes (getCell b (mkPos r c)).

Section ControllerProperties.

Context {C : Type} `{BufferContent C}.

Import Terminal.

(** The pty stream: the flag, the bytes taken, the queue and the modes. *)
Definition streamIs (d : bool) (o q : list Z) (m : Z) (t : Terminal C) : Prop :=
  _dumpWrites t = d /\ ttyOut (env t) = o /\ _writeBuffer t = q /\ _modes t = m.

(** What the column loop has done when it is about to look at column [c]:
    the runs handed over so far tile the columns up to the start of the run
    being gathered, and their bytes with the bytes gathered are the bytes of
    the cells up to [c]. *)
Definition gathered (b : C) (r cb c : Z) (log : list ObsCall) (s : RunState) : Prop :=
  exists done,
    calls s = log ++ done
    /\ tiles r cb done = Some (if isEmpty (run s) then c else c_ s)
    /\ (isEmpty (run s) = false -> cb <= c_ s < c)
    /\ runBytes done ++ run s = cellBytes b r cb c.

(** [_tabs] has one entry for each column of the screen. *)
Definition tabsSpan (t : Terminal C) : Prop :=
  length (_tabs t) = Z.to_nat (getCols (_priBuffer t)).

(** The pty is closed for the controller: writes are dropped and the bytes
    the pty has taken are [o]. *)
Definition ptyClosed (o : list Z) (t : Terminal C) : Prop :=
  _dumpWrites t = true /\ ttyOut (env t) = o.

End ControllerProperties.

(** ** Theorems *)

(** *** Damage *)

Lemma damageAdd_defined d b e :
  b <= e -> is_Some (Damage.damageAdd b e d).
Proof.
  intros Hbe. unfold Damage.damageAdd, Damage.damageSet.
  destruct (Z.leb_spec b e); [|lia].
  destruct (b =? e); [eauto|]. destruct (_ =? _); eauto.
Qed.

(** C7: for a damage interval with [begin <= end] and an addition [b <= e],
    [damageAdd] succeeds and its result is again an interval with
    [begin <= end]; it contains every column of [b, e), it contains every
    column of the prior interval when that was not empty, and an empty
    addition ([b = e]) leaves the damage unchanged. *)
Theorem damageAdd_widens (d : Damage.Damage) (b e : Z) :
  Damage.dBegin d <= Damage.dEnd d ->
  b <= e ->
  exists d',
    Damage.damageAdd b e d = Some d' /\
    Damage.dBegin d' <= Damage.dEnd d' /\
    (forall x, b <= x < e -> Damage.covers d' x) /\
    (Damage.dBegin d < Damage.dEnd d -> forall x, Damage.covers d x -> Damage.covers d' x) /\
    (b = e -> d' = d).
Proof.
  intros Hd Hbe. unfold Damage.damageAdd, Damage.damageSet, Damage.covers.
  destruct (Z.leb_spec b e) as [_|]; [|lia].
  destruct (Z.eqb_spec b e) as [->|Hne].
  - exists d. repeat split; auto; lia.
  - destruct (Z.eqb_spec (Damage.dBegin d) (Damage.dEnd d)) as [Heq|Hd'].
    + eexists. split; [reflexivity|]. simpl. repeat split; try lia.
    + eexists. split; [reflexivity|]. simpl. repeat split; try lia.
Qed.

Lemma damageAdd_widens_witness :
  exists d',
    Damage.damageAdd 4 9 (Damage.mkDamage 2 5) = Some d' /\
    Damage.dBegin d' <= Damage.dEnd d' /\
    (forall x, 4 <= x < 9 -> Damage.covers d' x) /\
    (2 < 5 -> forall x, Damage.covers (Damage.mkDamage 2 5) x -> Damage.covers d' x) /\
    (4 = 9 -> d' = Damage.mkDamage 2 5).
Proof.
  apply (damageAdd_widens (Damage.mkDamage 2 5) 4 9); simpl; lia.
Defined.

(** *** Tab stops *)

Lemma Buffer_resetTabs_lookup tabs i :
  (i < length tabs)%nat ->
  Tabs.Buffer_resetTabs tabs !! i = Some (Z.of_nat i mod 8 =? 0).
Proof.
  intros Hi. unfold Tabs.Buffer_resetTabs. rewrite list_lookup_imap.
  destruct (lookup_lt_is_Some_2 tabs i Hi) as [x ->]. reflexivity.
Qed.

Lemma Terminal_resetTabs_lookup tabs i :
  (i < length tabs)%nat ->
  Tabs.Terminal_resetTabs tabs !! i = Some ((Z.of_nat i + 1) mod Tabs.TAB_SIZE =? 0).
Proof.
  intros Hi. unfold Tabs.Terminal_resetTabs. rewrite list_lookup_imap.
  destruct (lookup_lt_is_Some_2 tabs i Hi) as [x ->]. reflexivity.
Qed.

(** The two loops disagree on column 0 of every tab vector that has one. *)
Lemma resetTabs_disagree tabs :
  tabs <> [] -> Tabs.Buffer_resetTabs tabs <> Tabs.Terminal_resetTabs tabs.
Proof.
  intros Hne Heq. destruct tabs as [|x tabs]; [done|].
  apply (f_equal (fun l => l !! 0%nat)) in Heq.
  rewrite Buffer_resetTabs_lookup, Terminal_resetTabs_lookup in Heq by (simpl; lia).
  discriminate.
Qed.

(** C6: on the 80 columns of the default screen [Buffer::resetTabs] sets the
    stops 0, 8, 16, ... and the loop of [Terminal] sets 7, 15, 23, ...: the
    layouts differ, column 0 and column 7 each have a stop in one and not in
    the other. *)
Theorem resetTabs_layouts_differ :
  Tabs.Buffer_resetTabs (Tabs.fresh 80) <> Tabs.Terminal_resetTabs (Tabs.fresh 80) /\
  Tabs.Buffer_resetTabs (Tabs.fresh 80) !! 0%nat = Some true /\
  Tabs.Terminal_resetTabs (Tabs.fresh 80) !! 0%nat = Some false /\
  Tabs.Buffer_resetTabs (Tabs.fresh 80) !! 7%nat = Some false /\
  Tabs.Terminal_resetTabs (Tabs.fresh 80) !! 7%nat = Some true.
Proof.
  split; [apply resetTabs_disagree; discriminate|].
  repeat split; reflexivity.
Qed.

(** *** The system palette *)

(** Inside the palette the read gives a colour. *)
Lemma getSystemColor_below_16 c index :
  length (Config._systemColors c) = 16%nat ->
  0 <= index < 16 ->
  exists col, Config.getSystemColor c index = Config.Value col.
Proof.
  intros Hlen Hi. unfold Config.getSystemColor.
  destruct (Z.leb_spec index 16); [|lia].
  destruct (lookup_lt_is_Some_2 (Config._systemColors c) (Z.to_nat index)) as [x ->];
    [lia|eauto].
Qed.

(** The guard accepts 16 and the read leaves the palette. *)
Lemma getSystemColor_at_16 c :
  length (Config._systemColors c) = 16%nat ->
  Config.getSystemColor c 16 = Config.OutOfBounds.
Proof.
  intros Hlen. unfold Config.getSystemColor.
  destruct (Z.leb_spec 16 16); [|lia].
  rewrite (lookup_ge_None_2 (Config._systemColors c) (Z.to_nat 16)); [reflexivity|lia].
Qed.

(** C10: index 16 passes the guard [index <= 16] of [getSystemColor], and the
    read [_systemColors[16]] is outside the 16 entries of the palette. *)
Theorem getSystemColor_guard_admits_16 :
  length (Config._systemColors Config.default) = 16%nat /\
  Config.getSystemColor Config.default 16 = Config.OutOfBounds /\
  Config.getSystemColor Config.default 17 = Config.AssertFailed.
Proof. repeat split; reflexivity. Qed.

(** *** The scanning loop of Regex::matchAllOffsets *)

Section RegexLoop.

Variable pcre_exec : list Z -> Z -> Z -> Z -> Z * list Z.
Variable maxMatches : Z.

#[local] Abbreviation common := (Regex.common pcre_exec maxMatches).
#[local] Abbreviation body := (Regex.body pcre_exec maxMatches).
#[local] Abbreviation iterate := (Regex.iterate pcre_exec maxMatches).

(** A match that ends where the scan started, before the end of the text,
    brings the loop back to the same offset, pass after pass. *)
Lemma zero_width_match_repeats text size offset front rest :
  common text size offset = front :: rest ->
  Regex.last front = offset ->
  offset <> size ->
  forall n acc, exists acc',
    iterate n text size (Regex.Running offset acc) = Regex.Running offset acc'.
Proof.
  intros Hc Hlast Hne n. induction n as [|n IH]; intros acc; simpl; [eauto|].
  unfold Regex.body. rewrite Hc. cbv zeta. rewrite Hlast.
  destruct (Z.eqb_spec offset size); [done|]. apply IH.
Qed.

(** When every match ends beyond the offset it was looked for at, and within
    the text, the loop ends within [size - offset + 1] passes. *)
Lemma advancing_matches_terminate text size :
  (forall offset front rest,
      common text size offset = front :: rest -> offset < Regex.last front <= size) ->
  forall n offset acc,
    0 <= offset <= size -> (Z.to_nat (size - offset) < n)%nat ->
    exists r, iterate n text size (Regex.Running offset acc) = Regex.Finished r.
Proof.
  intros Hadv n. induction n as [|n IH]; intros offset acc Hoff Hn; [lia|].
  simpl. unfold Regex.body.
  destruct (common text size offset) as [|front rest] eqn:Hc.
  - destruct n; simpl; eauto.
  - cbv zeta. specialize (Hadv _ _ _ Hc).
    destruct (Z.eqb_spec (Regex.last front) size).
    + destruct n; simpl; eauto.
    + apply IH; lia.
Qed.

End RegexLoop.

(** C9: for the compiled pattern [x*] and the one-byte text "a" the loop of
    [matchAllOffsets] does not end: the match at offset 0 is empty, the
    offset stays 0 and is not the size 1, so no number of passes finishes. *)
Theorem matchAllOffsets_zero_width_never_ends :
  forall fuel : nat,
    Regex.matchAllOffsets (Regex.pcre_exec_star (chr "x")) 10 fuel [chr "a"] 1 = None.
Proof.
  intros fuel. unfold Regex.matchAllOffsets.
  destruct (zero_width_match_repeats (Regex.pcre_exec_star (chr "x")) 10 [chr "a"] 1 0
              (Regex.mkSubstr 0 0) [] eq_refl eq_refl ltac:(lia) fuel []) as [acc ->].
  reflexivity.
Qed.

(** *** The bytes handed to the pty *)

Section PtyStream.

Context {C : Type} `{BufferContent C}.

Import Terminal.

(** The write loop loses no byte and keeps the order: what the pty has taken
    and what remains are, together, what it had taken and the data. *)
Lemma ttyWriteLoop_conserves script out data s o rest :
  ttyWriteLoop script out data = Done s o rest -> o ++ rest = out ++ data.
Proof.
  revert out data. induction script as [|reply script IH]; intros out data.
  - destruct data; simpl; intros [= <- <- <-]; [rewrite app_nil_r|]; reflexivity.
  - destruct data as [|x data]; [simpl; intros [= <- <- <-]; rewrite app_nil_r; reflexivity|].
    cbn [ttyWriteLoop]. destruct reply as [n|]; [|discriminate].
    destruct (Z.to_nat (Z.min n (Z.of_nat (length (x :: data))))) as [|k] eqn:Hk.
    + intros [= <- <- <-]. reflexivity.
    + intros Hl. apply IH in Hl. rewrite Hl, <- app_assoc, take_drop. reflexivity.
Qed.

(** [write] on a pty that raises no error: the bytes the pty has taken and
    the queue, together, grow by the data. *)
Lemma write_conserves data (t : Terminal C) :
  _dumpWrites t = false ->
  _dumpWrites (write data t) = false ->
  ttyOut (env (write data t)) ++ _writeBuffer (write data t)
  = ttyOut (env t) ++ _writeBuffer t ++ data.
Proof.
  intros Hd. unfold write. rewrite Hd.
  destruct (_writeBuffer t) as [|x q] eqn:Hq.
  - destruct (ttyWriteLoop _ _ _) as [s o rest|s o] eqn:Hl; [|discriminate].
    intros _. simpl. eauto using ttyWriteLoop_conserves.
  - intros _. reflexivity.
Qed.

(** A pty whose coming answers hold no [I_Tty::Error] ends the write loop
    without the exception. *)
Lemma ttyWriteLoop_no_error script out data :
  Forall (fun reply => reply <> Error) script ->
  exists s o rest, ttyWriteLoop script out data = Done s o rest.
Proof.
  intros Hs. revert out data. induction Hs as [|reply script Hr Hs IH]; intros out data.
  - destruct data; simpl; eauto.
  - destruct data as [|x data]; [simpl; eauto|].
    cbn [ttyWriteLoop]. destruct reply as [n|]; [|congruence].
    destruct (Z.to_nat (Z.min n (Z.of_nat (length (x :: data))))) as [|k]; [eauto|].
    apply IH.
Qed.

Lemma write_no_error data (t : Terminal C) :
  _dumpWrites t = false ->
  Forall (fun reply => reply <> Error) (ttyScript (env t)) ->
  _dumpWrites (write data t) = false.
Proof.
  intros Hd Hs. unfold write. rewrite Hd.
  destruct (_writeBuffer t) as [|x q]; [|exact Hd].
  destruct (ttyWriteLoop_no_error _ (ttyOut (env t)) data Hs) as (s & o & rest & ->).
  exact Hd.
Qed.

End PtyStream.

(** *** Mouse reports *)

Section Mouse.

Context {C : Type} `{BufferContent C}.

Import Terminal.

Lemma pressNum_range button modifiers : 0 <= pressNum button modifiers <= 30.
Proof.
  unfold pressNum.
  destruct button; simpl; repeat (destruct (Modifier_get _ _)); lia.
Qed.

(** The legacy report is the six bytes [ESC [ M b x y] exactly when both
    1-indexed coordinates are at most 223, and empty otherwise. *)
Lemma mouseReport_legacy num p final :
  0 <= num <= 30 -> 0 <= row p -> 0 <= col p ->
  mouseReport false num p final =
    if (col p + 1 <=? 223) && (row p + 1 <=? 223)
    then [ESC; chr "["; chr "M"; 32 + num; 32 + (col p + 1); 32 + (row p + 1)]
    else [].
Proof.
  intros Hn Hr Hc. unfold mouseReport.
  destruct (Z.ltb_spec (row p) 223), (Z.ltb_spec (col p) 223),
    (Z.leb_spec (col p + 1) 223), (Z.leb_spec (row p + 1) 223); try lia; simpl; try reflexivity.
  unfold to_uint8.
  rewrite (Z.mod_small (32 + num)), (Z.mod_small (32 + col p + 1)),
    (Z.mod_small (32 + row p + 1)) by lia.
  rewrite !Z.add_assoc. reflexivity.
Qed.

(** C4: with MOUSE_BUTTON on and MOUSE_SGR off, on a controller that does
    not drop its writes and a pty that raises no error, a button press at
    [p] returns, and with [x = col + 1] and [y = row + 1]:
    when [x <= 223] and [y <= 223], the bytes the pty has taken followed by
    the bytes queued for it grow by exactly the six bytes [ESC [ M],
    [32 + b], [32 + x], [32 + y], where [b] is 0, 1 or 2 for the left,
    middle or right button, plus 4 with SHIFT, 8 with ALT and 16 with
    CONTROL;
    when [x] or [y] exceeds 223, neither the bytes the pty has taken nor the
    queue change: nothing is written. *)
Theorem buttonPress_legacy_report (t : Terminal C) (button : Button)
        (count modifiers : Z) (within : bool) (p : Pos) :
  mode MOUSE_BUTTON t = true ->
  mode MOUSE_SGR t = false ->
  _pressed t = false ->
  _dumpWrites t = false ->
  Forall (fun reply => reply <> Error) (ttyScript (env t)) ->
  0 <= row p < 65536 ->
  0 <= col p < 65536 ->
  let x := col p + 1 in
  let y := row p + 1 in
  let b :=
    match button with LEFT => 0 | MIDDLE => 1 | RIGHT => 2 end
    + (if Modifier_get SHIFT modifiers then 4 else 0)
    + (if Modifier_get ALT modifiers then 8 else 0)
    + (if Modifier_get CONTROL modifiers then 16 else 0) in
  exists t',
    buttonPress button count modifiers within p t = Some t' /\
    (x <= 223 /\ y <= 223 ->
     ttyOut (env t') ++ _writeBuffer t' =
       ttyOut (env t) ++ _writeBuffer t
         ++ [ESC; chr "["; chr "M"; 32 + b; 32 + x; 32 + y]) /\
    (~ (x <= 223 /\ y <= 223) ->
     ttyOut (env t') = ttyOut (env t) /\ _writeBuffer t' = _writeBuffer t).
Proof.
  intros Hmb Hsgr Hpr Hd Hscript Hrow Hcol x y b.
  assert (Hnum : pressNum button modifiers = b).
  { unfold pressNum, b.
    destruct button, (Modifier_get SHIFT modifiers), (Modifier_get ALT modifiers),
      (Modifier_get CONTROL modifiers); reflexivity. }
  assert (Hrange : 0 <= b <= 30) by (rewrite <- Hnum; apply pressNum_range).
  unfold buttonPress. rewrite Hpr, Hmb, Hsgr.
  cbn [negb ASSERT mbind option_bind].
  rewrite Hnum, (mouseReport_legacy b p (chr "M") Hrange) by lia.
  eexists. split; [reflexivity|]. fold x y.
  destruct (Z.leb_spec x 223), (Z.leb_spec y 223); cbn [andb];
    (split; [intros Hxy|intros Hxy]); try lia; try (split; reflexivity).
  cbn [writeReport isEmpty negb]. simpl.
  apply (write_conserves _ t Hd). apply write_no_error; assumption.
Qed.

End Mouse.

(** The right button with SHIFT and CONTROL at row 4, column 9 of a pty that
    takes what it is offered, and the left button at column 223. *)
Lemma buttonPress_legacy_report_witness :
  let t := Terminal.setMode MOUSE_BUTTON true (scenario [Terminal.Wrote 6]) in
  (exists t',
     Terminal.buttonPress Terminal.RIGHT 1 5 true (mkPos 4 9) t = Some t' /\
     Terminal.ttyOut (Terminal.env t') ++ Terminal._writeBuffer t' =
       [27; 91; 77; 32 + 22; 32 + 10; 32 + 5]) /\
  (exists t',
     Terminal.buttonPress Terminal.LEFT 1 0 true (mkPos 4 223) t = Some t' /\
     Terminal.ttyOut (Terminal.env t') = [] /\ Terminal._writeBuffer t' = []).
Proof.
  intros t. split.
  - destruct (buttonPress_legacy_report t Terminal.RIGHT 1 5 true (mkPos 4 9))
      as (t' & Ht & Hle & _);
      [reflexivity | reflexivity | reflexivity | reflexivity
      | repeat constructor; discriminate | simpl; lia | simpl; lia |].
    exists t'. split; [exact Ht|]. apply Hle. simpl. lia.
  - destruct (buttonPress_legacy_report t Terminal.LEFT 1 0 true (mkPos 4 223))
      as (t' & Ht & _ & Hgt);
      [reflexivity | reflexivity | reflexivity | reflexivity
      | repeat constructor; discriminate | simpl; lia | simpl; lia |].
    exists t'. split; [exact Ht|]. apply Hgt. simpl. lia.
Defined.

(** *** The outbound queue *)

Section DropWrites.

Context {C : Type} `{BufferContent C}.

Import Terminal.

Lemma write_when_dumping (t : Terminal C) data :
  _dumpWrites t = true -> write data t = t.
Proof. intros Hd. unfold write. rewrite Hd. reflexivity. Qed.

Lemma writes_when_dumping (t : Terminal C) ds :
  _dumpWrites t = true -> writes ds t = t.
Proof.
  intros Hd. unfold writes. induction ds as [|d ds IH]; simpl; [reflexivity|].
  rewrite write_when_dumping by assumption. exact IH.
Qed.

Lemma dropsWrites_intro (t : Terminal C) :
  _dumpWrites t = true -> _writeBuffer t = [] -> dropsWrites t.
Proof. intros Hd Hq. repeat split; auto using writes_when_dumping. Qed.

(** A pty error in the write loop of [write]: the call leaves the
    drop-writes state, and the pty keeps what it had taken before it
    failed. *)
Lemma write_error_drops (t : Terminal C) data s o :
  _dumpWrites t = false ->
  _writeBuffer t = [] ->
  ttyWriteLoop (ttyScript (env t)) (ttyOut (env t)) data = Failed s o ->
  dropsWrites (write data t) /\ ttyOut (env (write data t)) = o.
Proof.
  intros Hd Hq Hf. unfold write. rewrite Hd, Hq, Hf.
  split; [apply dropsWrites_intro|]; reflexivity.
Qed.

(** A pty error in the write loop of [flush], called as its assertions ask:
    the call returns and leaves the drop-writes state. *)
Lemma flush_error_drops_writes (t : Terminal C) s o :
  _dispatch t = false ->
  _dumpWrites t = false ->
  _writeBuffer t <> [] ->
  ttyWriteLoop (ttyScript (env t)) (ttyOut (env t)) (_writeBuffer t) = Failed s o ->
  exists t', flush t = Some t' /\ dropsWrites t' /\ ttyOut (env t') = o.
Proof.
  intros Hdi Hd Hq Hf. unfold flush, needsFlush. rewrite Hdi, Hd, Hf.
  destruct (_writeBuffer t) as [|x q]; [congruence|].
  cbn [negb ASSERT mbind option_bind]. eexists. split; [reflexivity|].
  split; [apply dropsWrites_intro|]; reflexivity.
Qed.

End DropWrites.

(** C8: a pty error during [write] or [flush] sets [_dumpWrites] and clears
    the queue, but the state it leaves does not keep the queue empty: the
    answer to [CSI 5 n] is put into [_writeBuffer] whether or not
    [_dumpWrites] is set.  In the first run the pty fails on the answer to
    [CSI c] (a [write]) and then delivers [CSI 5 n]; in the second it fails
    under [flush] with "hi" queued and then delivers [CSI 5 n].  In both, the
    [write] of a later paste leaves the four bytes [ESC [ 0 n] in the queue
    and nothing reaches the pty, [needsFlush] holds, and [flush] stops at
    [ASSERT(!_dumpWrites)]. *)
Theorem status_report_refills_the_dropped_queue :
  let report := [Terminal.ESC; chr "["; chr "0"; chr "n"] in
  let status := Terminal.OpRead [Some (Terminal.Csi false [5] (chr "n"))] None in
  let a1 :=
    Terminal.step (Terminal.OpRead [Some (Terminal.Csi false [] (chr "c"))] None)
      (scenario [Terminal.Error; Terminal.Wrote 100]) in
  let a2 := a1 ≫= Terminal.step status in
  let a3 := a2 ≫= Terminal.step (Terminal.OpPaste [chr "x"]) in
  let b0 :=
    Terminal.step (Terminal.OpPaste [chr "h"; chr "i"])
      (scenario [Terminal.Wrote 0; Terminal.Error; Terminal.Wrote 100]) in
  let b1 := b0 ≫= Terminal.step Terminal.OpFlush in
  let b2 := b1 ≫= Terminal.step status in
  let b3 := b2 ≫= Terminal.step (Terminal.OpPaste [chr "x"]) in
  (Terminal._dumpWrites <$> a1 = Some true /\
   Terminal._writeBuffer <$> a1 = Some [] /\
   Terminal._dumpWrites <$> a3 = Some true /\
   Terminal._writeBuffer <$> a3 = Some report /\
   Terminal.ttyOut <$> (Terminal.env <$> a3) = Some [] /\
   Terminal.needsFlush <$> a3 = Some true /\
   a3 ≫= Terminal.step Terminal.OpFlush = None) /\
  (Terminal._writeBuffer <$> b0 = Some [chr "h"; chr "i"] /\
   Terminal._dumpWrites <$> b1 = Some true /\
   Terminal._writeBuffer <$> b1 = Some [] /\
   Terminal._dumpWrites <$> b3 = Some true /\
   Terminal._writeBuffer <$> b3 = Some report /\
   Terminal.ttyOut <$> (Terminal.env <$> b3) = Some [] /\
   Terminal.needsFlush <$> b3 = Some true /\
   b3 ≫= Terminal.step Terminal.OpFlush = None).
Proof. vm_compute. repeat split; reflexivity. Qed.

(** C3: with one byte "x" queued (the pty would block), the answers to
    [CSI 5 n] and then [CSI 6 n] are put at the front of [_writeBuffer]: the
    queue reads [ESC [ 1 ; 1 R], [ESC [ 0 n], "x", the later answer before
    the earlier one and both before the byte queued first; [flush] then
    hands the bytes to the pty in that order. *)
Theorem status_reports_jump_the_queue :
  let t1 :=
    Terminal.steps
      [Terminal.OpPaste [chr "x"];
       Terminal.OpRead [Some (Terminal.Csi false [5] (chr "n"));
                        Some (Terminal.Csi false [6] (chr "n"))] None]
      (scenario [Terminal.Wrote 0; Terminal.Wrote 100]) in
  let t2 := t1 ≫= Terminal.step Terminal.OpFlush in
  Terminal._writeBuffer <$> t1 =
    Some ([Terminal.ESC; chr "["; chr "1"; chr ";"; chr "1"; chr "R"]
            ++ [Terminal.ESC; chr "["; chr "0"; chr "n"] ++ [chr "x"]) /\
  Terminal.ttyOut <$> (Terminal.env <$> t2) =
    Some ([Terminal.ESC; chr "["; chr "1"; chr ";"; chr "1"; chr "R"]
            ++ [Terminal.ESC; chr "["; chr "0"; chr "n"] ++ [chr "x"]).
Proof. vm_compute. split; reflexivity. Qed.

(** The sibling path: the answer to [CSI c] goes through [write] and is put
    behind what is queued. *)
Example device_attributes_keep_the_order :
  Terminal._writeBuffer <$>
    Terminal.steps
      [Terminal.OpPaste [chr "x"];
       Terminal.OpRead [Some (Terminal.Csi false [] (chr "c"))] None]
      (scenario [Terminal.Wrote 0])
  = Some ([chr "x"] ++ [Terminal.ESC; chr "["; chr "?"; chr "6"; chr "c"]).
Proof. vm_compute. reflexivity. Qed.

(** *** Draw runs *)

(** C5: in REVERSE screen mode the cells "A" and "B" of row 0 have equal
    styles, and a redraw of the columns [0, 2) of that row makes two
    [terminalDrawRun] calls of one cell each: the two adjacent cells are
    split. *)
Theorem reverse_mode_splits_equal_styles :
  let t1 :=
    Terminal.steps
      [Terminal.OpRead [Some (Terminal.Csi true [5] (chr "h"));
                        Some (Terminal.Normal [chr "A"]);
                        Some (Terminal.Normal [chr "B"])] None]
      (scenario []) in
  let t2 := t1 ≫= Terminal.step (Terminal.OpRedraw (mkPos 0 0) (mkPos 1 2)) in
  Terminal.mode REVERSE <$> t1 = Some true /\
  (fun t => cell_style (getCell (content (Terminal.buffer t)) (mkPos 0 0))) <$> t1
    = (fun t => cell_style (getCell (content (Terminal.buffer t)) (mkPos 0 1))) <$> t1 /\
  newCalls t1 t2 =
    Some [Terminal.terminalFixDamageBegin false;
       Terminal.terminalDrawRun (mkPos 0 0) (mkStyle 0 StockBg StockFg) [chr "A"; 0] 1;
       Terminal.terminalDrawRun (mkPos 0 1) (mkStyle 0 StockBg StockFg) [chr "B"; 0] 1;
       Terminal.terminalDrawCursor (mkPos 0 2) Style_normal [SPACE; 0] false;
       Terminal.terminalDrawScrollbar 24 0 24;
       Terminal.terminalFixDamageEnd false (mkPos 0 0) (mkPos 1 3) true].
Proof. vm_compute. repeat split; reflexivity. Qed.

(** With REVERSE off the same two cells go out in one run. *)
Example normal_mode_batches_equal_styles :
  let t1 :=
    Terminal.steps
      [Terminal.OpRead [Some (Terminal.Normal [chr "A"]);
                        Some (Terminal.Normal [chr "B"])] None]
      (scenario []) in
  let t2 := t1 ≫= Terminal.step (Terminal.OpRedraw (mkPos 0 0) (mkPos 1 2)) in
  newCalls t1 t2 =
    Some [Terminal.terminalFixDamageBegin false;
       Terminal.terminalDrawRun (mkPos 0 0) Style_normal [chr "A"; chr "B"; 0] 2;
       Terminal.terminalDrawCursor (mkPos 0 2) Style_normal [SPACE; 0] false;
       Terminal.terminalDrawScrollbar 24 0 24;
       Terminal.terminalFixDamageEnd false (mkPos 0 0) (mkPos 1 3) true].
Proof. vm_compute. reflexivity. Qed.

(** *** Auto-wrap *)

(** C2: on the 80 x 24 screen with AUTO_WRAP set, 80 times "A" leave the
    cursor on (0, 79) with [wrapNext] set; the "B" that follows first moves
    the cursor to column 0 of row 1 and is placed there: row 0 holds "A" in
    its 80 cells, cell (1, 0) holds "B", the cursor is at (1, 1).  This holds
    of [Terminal::machineNormal] on the grid and of [Buffer::write], which
    also marks row 0 as continuing on the next row. *)
Theorem auto_wrap_scenario :
  (let t80 := Terminal.step (Terminal.OpRead (typed 80 (chr "A")) None) (scenario []) in
   let t81 := t80 ≫= Terminal.step (Terminal.OpRead (typed 1 (chr "B")) None) in
   Terminal.mode AUTO_WRAP (scenario []) = true /\
   (Terminal.pos ∘ Terminal._cursor) <$> t80 = Some (mkPos 0 79) /\
   (Terminal.wrapNext ∘ Terminal._cursor) <$> t80 = Some true /\
   (fun t => getCell (content (Terminal.buffer t)) <$> (mkPos 0 <$> seqZ 0 80)) <$> t81
     = Some (replicate 80 (Cell_utf8 [chr "A"] Style_normal)) /\
   (fun t => getCell (content (Terminal.buffer t)) (mkPos 1 0)) <$> t81
     = Some (Cell_utf8 [chr "B"] Style_normal) /\
   (Terminal.pos ∘ Terminal._cursor) <$> t81 = Some (mkPos 1 1) /\
   (Terminal.wrapNext ∘ Terminal._cursor) <$> t81 = Some false) /\
  (let b80 := foldl (fun b c => NewBuffer.write [c] true false b) (NewBuffer.new 24 80 0)
                (replicate 80 (chr "A")) in
   let b81 := NewBuffer.write [chr "B"] true false b80 in
   NewBuffer.pos (NewBuffer._cursor b80) = mkPos 0 79 /\
   NewBuffer.wrapNext (NewBuffer._cursor b80) = true /\
   NewBuffer.cells <$> NewBuffer._active b81 !! 0%nat
     = Some (replicate 80 (Cell_utf8 [chr "A"] Style_normal)) /\
   NewBuffer.cont <$> NewBuffer._active b81 !! 0%nat = Some true /\
   (NewBuffer._active b81 !! 1%nat) ≫= (fun l => NewBuffer.cells l !! 0%nat)
     = Some (Cell_utf8 [chr "B"] Style_normal) /\
   NewBuffer.pos (NewBuffer._cursor b81) = mkPos 1 1 /\
   NewBuffer.wrapNext (NewBuffer._cursor b81) = false).
Proof. vm_compute. repeat split; reflexivity. Qed.

(** *** Cursor containment *)

Section Containment.

Context {C : Type} `{BufferContent C}.

Import Terminal.

(** Case analysis along the computations that ended in [Some]. *)
Ltac along :=
  repeat match goal with
    | H : Some _ = Some _ |- _ => injection H as H
    | H : None = Some _ |- _ => discriminate H
    | H : (?m ≫= _) = Some _ |- _ =>
        let E := fresh "E" in
        destruct m eqn:E; [cbn [mbind option_bind] in H|discriminate H]
    | H : (if ?b then _ else _) = Some _ |- _ =>
        let E := fresh "E" in destruct b eqn:E
    | H : match ?x with _ => _ end = Some _ |- _ =>
        let E := fresh "E" in destruct x eqn:E
    end.

Lemma clamp_range v lo hi : lo <= hi -> lo <= clamp v lo hi <= hi.
Proof.
  intros Hle. unfold clamp.
  destruct (Z.ltb_spec v lo); [lia|]. destruct (Z.ltb_spec hi v); lia.
Qed.

Lemma to_uint16_small v : 0 <= v < 65536 -> to_uint16 v = v.
Proof. intros Hv. unfold to_uint16. apply Z.mod_small. lia. Qed.

Lemma to_uint16_range v : 0 <= to_uint16 v < 65536.
Proof. unfold to_uint16. apply Z.mod_pos_bound. lia. Qed.

Lemma ASSERT_Some b u : ASSERT b = Some u -> b = true.
Proof. destruct b; [reflexivity|discriminate]. Qed.

Lemma Inv_cursorInGrid (t : Terminal C) : Inv t -> cursorInGrid t.
Proof.
  intros (Hp & Ha & Hr & Hc & Hcur & _). unfold cursorInGrid, buffer.
  destruct (_bufferIsAlt t); [rewrite <- Hr, <- Hc|]; exact Hcur.
Qed.

Lemma Buffer_call_geom c (b b' : Buffer C) r :
  Buffer_call c b = (b', r) -> geom b' = geom b.
Proof.
  unfold Buffer_call. destruct (call c (geom b) (content b)).
  intros [= <- _]. reflexivity.
Qed.

Lemma bufCall_Inv c (t t' : Terminal C) r :
  bufCall c t = (t', r) -> Inv t -> Inv t'.
Proof.
  unfold bufCall, buffer, set_buffer.
  destruct (Buffer_call c _) as [b r'] eqn:Hb. intros [= <- _].
  apply Buffer_call_geom in Hb. unfold Inv, getRows, getCols.
  destruct (_bufferIsAlt t); simpl; rewrite Hb; auto.
Qed.

Lemma bufDo_Inv c (t : Terminal C) : Inv t -> Inv (bufDo c t).
Proof.
  unfold bufDo. destruct (bufCall c t) eqn:Hb. simpl. eauto using bufCall_Inv.
Qed.


Lemma Inv_frame (t t' : Terminal C) :
  geom (_priBuffer t') = geom (_priBuffer t) ->
  geom (_altBuffer t') = geom (_altBuffer t) ->
  pos (_cursor t') = pos (_cursor t) ->
  pos (_savedCursor t') = pos (_savedCursor t) ->
  Inv t -> Inv t'.
Proof.
  unfold Inv, getRows, getCols. intros -> -> -> ->. auto.
Qed.

Lemma Inv_set_cursor c (t : Terminal C) :
  inGrid (pos c) (getRows (_priBuffer t)) (getCols (_priBuffer t)) ->
  Inv t -> Inv (set_cursor c t).
Proof. unfold Inv. simpl. tauto. Qed.

Lemma Inv_set_savedCursor c (t : Terminal C) :
  inGrid (pos c) (getRows (_priBuffer t)) (getCols (_priBuffer t)) ->
  Inv t -> Inv (set_savedCursor c t).
Proof. unfold Inv. simpl. tauto. Qed.

Lemma Inv_cursor (t : Terminal C) :
  Inv t -> inGrid (pos (_cursor t)) (getRows (_priBuffer t)) (getCols (_priBuffer t)).
Proof. unfold Inv. tauto. Qed.

Lemma Inv_savedCursor (t : Terminal C) :
  Inv t -> inGrid (pos (_savedCursor t)) (getRows (_priBuffer t)) (getCols (_priBuffer t)).
Proof. unfold Inv. tauto. Qed.

Lemma Inv_origin (t : Terminal C) :
  Inv t -> inGrid Pos0 (getRows (_priBuffer t)) (getCols (_priBuffer t)).
Proof. unfold Inv, geometryOk, inGrid, getRows, getCols. simpl. lia. Qed.

Lemma write_Inv data (t : Terminal C) : Inv t -> Inv (write data t).
Proof.
  intros Hi. unfold write. destruct (_dumpWrites t); [assumption|].
  destruct (_writeBuffer t); [destruct (ttyWriteLoop _ _ _)|]; exact Hi.
Qed.

Lemma observe_Inv c (t : Terminal C) : Inv t -> Inv (observe c t).
Proof. intros Hi. exact Hi. Qed.

Lemma damageCursor_Inv (t t' : Terminal C) :
  damageCursor t = Some t' -> Inv t -> Inv t'.
Proof.
  unfold damageCursor. intros Hd Hi. along. subst. auto using bufDo_Inv.
Qed.

(** The geometry of the current buffer is one of the two of the invariant. *)
Lemma Inv_buffer (t : Terminal C) :
  Inv t ->
  geometryOk (geom (buffer t)) /\
  getRows (buffer t) = getRows (_priBuffer t) /\
  getCols (buffer t) = getCols (_priBuffer t).
Proof.
  intros (Hp & Ha & Hr & Hc & _). unfold buffer.
  destruct (_bufferIsAlt t); auto.
Qed.

Lemma moveCursor_Inv p (t t' : Terminal C) :
  moveCursor p t = Some t' -> Inv t -> Inv t'.
Proof.
  unfold moveCursor. intros Hm Hi.
  destruct (damageCursor t) as [t1|] eqn:Hd; [|discriminate].
  cbn [mbind option_bind] in Hm. injection Hm as <-.
  apply damageCursor_Inv in Hd; [|assumption].
  destruct (Inv_buffer t1 Hd) as ((Hrows & Hcols & Hmb & Hme & Hmr) & Hr & Hc).
  apply Inv_set_cursor; [|assumption].
  unfold inGrid. cbn [pos Cursor_setWrapNext Cursor_setPos row col].
  rewrite <- Hr, <- Hc. unfold getRows, getCols, getMarginBegin, getMarginEnd in *.
  assert (Hcc := clamp_range (col p) 0 (gCols (geom (buffer t1)) - 1)).
  destruct (originMode (_cursor t1)).
  - assert (Hrr := clamp_range (row p) (gMarginBegin (geom (buffer t1)))
                     (gMarginEnd (geom (buffer t1)) - 1)).
    rewrite !to_uint16_small by lia. lia.
  - assert (Hrr := clamp_range (row p) 0 (gRows (geom (buffer t1)) - 1)).
    rewrite !to_uint16_small by lia. lia.
Qed.


Lemma Inv_same_cursor_pos c (t : Terminal C) :
  pos c = pos (_cursor t) -> Inv t -> Inv (set_cursor c t).
Proof. intros Hp Hi. apply Inv_set_cursor; [rewrite Hp|]; auto using Inv_cursor. Qed.

Lemma Inv_set_tabs v (t : Terminal C) : Inv t -> Inv (set_tabs v t).
Proof. intros Hi. exact Hi. Qed.
Lemma Inv_set_modes v (t : Terminal C) : Inv t -> Inv (set_modes v t).
Proof. intros Hi. exact Hi. Qed.
Lemma Inv_setMode m v (t : Terminal C) : Inv t -> Inv (setMode m v t).
Proof. intros Hi. exact Hi. Qed.
Lemma Inv_set_dispatch v (t : Terminal C) : Inv t -> Inv (set_dispatch v t).
Proof. intros Hi. exact Hi. Qed.
Lemma Inv_set_damage v (t : Terminal C) : Inv t -> Inv (set_damage v t).
Proof. intros Hi. exact Hi. Qed.
Lemma Inv_set_pressed v (t : Terminal C) : Inv t -> Inv (set_pressed v t).
Proof. intros Hi. exact Hi. Qed.
Lemma Inv_set_button v (t : Terminal C) : Inv t -> Inv (set_button v t).
Proof. intros Hi. exact Hi. Qed.
Lemma Inv_set_pointerPos v (t : Terminal C) : Inv t -> Inv (set_pointerPos v t).
Proof. intros Hi. exact Hi. Qed.
Lemma Inv_set_writeBuffer v (t : Terminal C) : Inv t -> Inv (set_writeBuffer v t).
Proof. intros Hi. exact Hi. Qed.
Lemma Inv_set_dumpWrites v (t : Terminal C) : Inv t -> Inv (set_dumpWrites v t).
Proof. intros Hi. exact Hi. Qed.
Lemma Inv_set_env v (t : Terminal C) : Inv t -> Inv (set_env v t).
Proof. intros Hi. exact Hi. Qed.
Lemma Inv_set_bufferIsAlt v (t : Terminal C) : Inv t -> Inv (set_bufferIsAlt v t).
Proof. intros Hi. exact Hi. Qed.

Create HintDb inv.
#[local] Hint Resolve bufDo_Inv bufCall_Inv write_Inv observe_Inv damageCursor_Inv
  moveCursor_Inv Inv_set_tabs Inv_set_modes Inv_setMode Inv_set_dispatch Inv_set_damage
  Inv_set_pressed Inv_set_button Inv_set_pointerPos Inv_set_writeBuffer
  Inv_set_dumpWrites Inv_set_env Inv_set_bufferIsAlt Inv_cursor Inv_savedCursor
  Inv_origin Inv_set_savedCursor Inv_set_cursor : inv.
#[local] Hint Extern 1 (Inv (set_cursor _ _)) =>
  apply Inv_same_cursor_pos; [reflexivity|] : inv.

Lemma Inv_if (b : bool) (t1 t2 : Terminal C) :
  Inv t1 -> Inv t2 -> Inv (if b then t1 else t2).
Proof. destruct b; auto. Qed.

#[local] Hint Resolve Inv_if : inv.

Ltac preserved H := cbv zeta in H; along; subst; eauto 10 with inv.

Lemma moveCursorOriginMode_Inv p (t t' : Terminal C) :
  moveCursorOriginMode p t = Some t' -> Inv t -> Inv t'.
Proof. unfold moveCursorOriginMode. eauto with inv. Qed.

Lemma tabCursor_Inv dir count (t t' : Terminal C) :
  tabCursor dir count t = Some t' -> Inv t -> Inv t'.
Proof. unfold tabCursor. eauto with inv. Qed.

Lemma addLineOrDown_Inv (t t' : Terminal C) :
  addLineOrDown t = Some t' -> Inv t -> Inv t'.
Proof. unfold addLineOrDown. intros Ha Hi. preserved Ha. Qed.

#[local] Hint Resolve moveCursorOriginMode_Inv tabCursor_Inv addLineOrDown_Inv : inv.

Lemma machineNormal_Inv s (t t' : Terminal C) :
  machineNormal s t = Some t' -> Inv t -> Inv t'.
Proof. unfold machineNormal. intros Hm Hi. preserved Hm. Qed.

Lemma machineControl_Inv c (t t' : Terminal C) :
  machineControl c t = Some t' -> Inv t -> Inv t'.
Proof. unfold machineControl. intros Hm Hi. preserved Hm. Qed.

Lemma resetAll_Inv (t : Terminal C) : Inv t -> Inv (resetAll t).
Proof.
  intros Hi. unfold resetAll. cbv zeta. apply observe_Inv.
  assert (Hc : Inv (bufDo CClear t)) by auto with inv.
  apply Inv_set_savedCursor; [exact (Inv_origin _ Hc)|].
  apply Inv_set_cursor; [exact (Inv_origin _ Hc)|]. exact Hc.
Qed.

#[local] Hint Resolve resetAll_Inv : inv.

Lemma machineEscape_Inv c (t t' : Terminal C) :
  machineEscape c t = Some t' -> Inv t -> Inv t'.
Proof. unfold machineEscape. intros Hm Hi. preserved Hm. Qed.

Lemma processAttributes_Inv args (t t' : Terminal C) :
  processAttributes args t = Some t' -> Inv t -> Inv t'.
Proof. unfold processAttributes. intros Hm Hi. preserved Hm. Qed.


#[local] Hint Resolve machineNormal_Inv machineControl_Inv machineEscape_Inv
  processAttributes_Inv : inv.

(** [resize] establishes the invariant by itself: the size arrives through
    [uint16_t] parameters, the margins are those the buffers report, and the
    assertions of [resize] bound the two cursors. *)
Lemma resize_Inv rows cols (t t' : Terminal C) :
  rows < 65536 -> cols < 65536 ->
  resize rows cols t = Some t' -> Inv t'.
Proof.
  intros Hrows Hcols Hr. unfold resize, Buffer_resize in Hr.
  destruct (ASSERT ((0 <? rows) && (0 <? cols))) eqn:Hpos; [|discriminate Hr].
  cbn [mbind option_bind] in Hr.
  apply ASSERT_Some, andb_prop in Hpos. destruct Hpos as [Hr0 Hc0].
  apply Z.ltb_lt in Hr0, Hc0.
  pose proof (fun cr g c => resized_margins rows cols cr g c Hr0) as Hm.
  assert (Hcm : 0 <= to_uint16 (cols - 1)) by apply to_uint16_range.
  destruct (_bufferIsAlt t); cbv beta iota zeta in Hr; along; subst;
    repeat match goal with
      | E : ASSERT _ = Some _ |- _ => apply ASSERT_Some, Z.ltb_lt in E
      end;
    unfold Inv, geometryOk, inGrid, getRows, getCols;
    cbn [_priBuffer _altBuffer _cursor _savedCursor set_tabs set_savedCursor set_cursor
         set_altBuffer set_priBuffer geom gRows gCols gMarginBegin gMarginEnd
         pos Cursor_setPos row col].
  all: repeat split;
    first [ lia | apply Hm | apply to_uint16_range | apply clamp_range; assumption
          | idtac ].
  all: try (apply clamp_range; apply clamp_range; assumption).
  all: match goal with
       | |- 0 <= (if ?b then _ else _) => destruct b; apply to_uint16_range
       | |- 0 <= clamp _ _ _ => apply clamp_range; assumption
       end.
Qed.


Lemma requestResize_Inv rows cols (t t' : Terminal C) :
  requestResize rows cols t = Some t' -> Inv t -> Inv t'.
Proof.
  unfold requestResize. intros Hr Hi. cbv zeta in Hr. along; subst; auto with inv.
  eapply resize_Inv; [| |eassumption]; apply to_uint16_range.
Qed.

Lemma saveOrRestoreCursor_Inv set (t t' : Terminal C) :
  saveOrRestoreCursor set t = Some t' -> Inv t -> Inv t'.
Proof. unfold saveOrRestoreCursor. intros Hs Hi. preserved Hs. Qed.

#[local] Hint Resolve requestResize_Inv saveOrRestoreCursor_Inv : inv.

Lemma alternateScreen_Inv a set (t t' : Terminal C) :
  alternateScreen a set t = Some t' -> Inv t -> Inv t'.
Proof. unfold alternateScreen. intros Hs Hi. preserved Hs. Qed.

#[local] Hint Resolve alternateScreen_Inv : inv.

Lemma Inv_set_originMode o (t : Terminal C) :
  Inv t -> Inv (set_cursor (Cursor_setOriginMode o (_cursor t)) t).
Proof. intros Hi. apply Inv_same_cursor_pos; [reflexivity|assumption]. Qed.

Lemma processMode_Inv priv set a (t t' : Terminal C) :
  processMode priv set a t = Some t' -> Inv t -> Inv t'.
Proof. unfold processMode. intros Hs Hi. preserved Hs. Qed.

Lemma processModes_Inv priv set args (t t' : Terminal C) :
  processModes priv set args t = Some t' -> Inv t -> Inv t'.
Proof.
  revert t. induction args as [|a args IH]; simpl; intros t Hs Hi.
  - injection Hs as <-. assumption.
  - along. eauto using processMode_Inv.
Qed.

Lemma deviceStatusReport_Inv args (t : Terminal C) :
  Inv t -> Inv (deviceStatusReport args t).
Proof.
  intros Hi. unfold deviceStatusReport.
  destruct (isEmpty args); [assumption|].
  destruct (_ =? 5); [assumption|]. destruct (_ =? 6); assumption.
Qed.

(** Margins within the screen keep the invariant. *)
Lemma Inv_set_margins b e (t : Terminal C) :
  0 <= b -> b < e -> e <= getRows (buffer t) ->
  Inv t -> Inv (set_buffer (setMargins b e (buffer t)) t).
Proof.
  intros Hb Hbe He (Hp & Ha & Hr & Hc & Hcur & Hsav).
  unfold set_buffer, buffer, Inv, geometryOk, inGrid, setMargins, getRows, getCols in *.
  destruct (_bufferIsAlt t); simpl; lia.
Qed.

Lemma Inv_reset_margins (t : Terminal C) :
  Inv t -> Inv (set_buffer (resetMargins (buffer t)) t).
Proof.
  intros (Hp & Ha & Hr & Hc & Hcur & Hsav).
  unfold set_buffer, buffer, Inv, geometryOk, inGrid, resetMargins, getRows, getCols in *.
  destruct (_bufferIsAlt t); simpl; lia.
Qed.

(** The margins [CSI r] chooses keep the invariant. *)
Lemma Inv_chosen_margins args (t : Terminal C) :
  Inv t ->
  let top := clamp (nthArgNonZero args 0 1 - 1) 0 (getRows (buffer t) - 1) in
  let bottom :=
    clamp (nthArgNonZero args 1 (row (pos (_cursor t)) + 1) - 1) 0 (getRows (buffer t) - 1) in
  Inv (if top <? bottom then set_buffer (setMargins top (bottom + 1) (buffer t)) t
       else set_buffer (resetMargins (buffer t)) t).
Proof.
  intros Hi top bottom.
  destruct (Inv_buffer t Hi) as ((Hrows & _) & _).
  pose proof (clamp_range (nthArgNonZero args 0 1 - 1) 0 (getRows (buffer t) - 1)).
  pose proof (clamp_range (nthArgNonZero args 1 (row (pos (_cursor t)) + 1) - 1) 0
                (getRows (buffer t) - 1)).
  destruct (Z.ltb_spec top bottom).
  - apply Inv_set_margins; unfold getRows in *; try assumption; lia.
  - apply Inv_reset_margins; assumption.
Qed.

Lemma setTopBottomMargins_Inv args (t t' : Terminal C) :
  setTopBottomMargins args t = Some t' -> Inv t -> Inv t'.
Proof.
  unfold setTopBottomMargins. intros Hs Hi.
  destruct (isEmpty args).
  - eauto using moveCursorOriginMode_Inv, Inv_reset_margins.
  - cbv zeta in Hs. eapply moveCursorOriginMode_Inv; [eassumption|].
    apply (Inv_chosen_margins args t Hi).
Qed.

#[local] Hint Resolve processModes_Inv deviceStatusReport_Inv setTopBottomMargins_Inv : inv.

Lemma Inv_save_pos (t : Terminal C) :
  Inv t -> Inv (set_savedCursor (Cursor_setPos (pos (_cursor t)) (_savedCursor t)) t).
Proof. intros Hi. apply Inv_set_savedCursor; [apply Inv_cursor|]; assumption. Qed.

#[local] Hint Resolve Inv_save_pos : inv.

Lemma machineCsi_Inv priv args code (t t' : Terminal C) :
  machineCsi priv args code t = Some t' -> Inv t -> Inv t'.
Proof. unfold machineCsi. intros Hs Hi. preserved Hs. Qed.


Lemma foldl_Inv {A} (f : Terminal C -> A -> Terminal C) (l : list A) (t : Terminal C) :
  (forall t a, Inv t -> Inv (f t a)) -> Inv t -> Inv (foldl f t l).
Proof. intros Hf. revert t. induction l; simpl; auto. Qed.

Lemma machineSpecial_Inv special code (t t' : Terminal C) :
  machineSpecial special code t = Some t' -> Inv t -> Inv t'.
Proof.
  unfold machineSpecial. intros Hs Hi. cbv zeta in Hs. along; subst; eauto with inv.
  apply foldl_Inv; auto with inv.
Qed.

Lemma machineOsc_Inv code args (t t' : Terminal C) :
  machineOsc code args t = Some t' -> Inv t -> Inv t'.
Proof. unfold machineOsc. intros Hs Hi. preserved Hs. Qed.

Lemma dispatch_Inv e (t t' : Terminal C) :
  dispatch e t = Some t' -> Inv t -> Inv t'.
Proof.
  destruct e; simpl; intros Hd Hi;
    eauto using machineNormal_Inv, machineControl_Inv, machineEscape_Inv, machineCsi_Inv,
      machineOsc_Inv, machineSpecial_Inv.
  injection Hd as <-. assumption.
Qed.

Lemma draw_Inv b e d (t t' : Terminal C) :
  draw b e d t = Some t' -> Inv t -> Inv t'.
Proof.
  unfold draw. intros Hd Hi. cbv zeta in Hd. along; subst.
  all: apply Inv_set_damage, foldl_Inv; auto with inv.
Qed.

#[local] Hint Resolve draw_Inv dispatch_Inv : inv.

Lemma fixDamage_Inv b e d (t t' : Terminal C) :
  fixDamage b e d t = Some t' -> Inv t -> Inv t'.
Proof.
  unfold fixDamage. intros Hd Hi.
  destruct (Damager_eqb d TTY && Config._scrollOnTtyOutput (_config t)).
  - destruct (bufCall CScrollBottomHistory t) as [t0 scrolled] eqn:Hb.
    apply bufCall_Inv in Hb; [|assumption]. preserved Hd.
  - preserved Hd.
Qed.

Lemma fixDamageAll_Inv d (t t' : Terminal C) :
  fixDamageAll d t = Some t' -> Inv t -> Inv t'.
Proof. unfold fixDamageAll. eauto using fixDamage_Inv. Qed.

#[local] Hint Resolve fixDamage_Inv fixDamageAll_Inv : inv.

Lemma processChar_Inv ev (t t' : Terminal C) :
  processChar ev t = Some t' -> Inv t -> Inv t'.
Proof. unfold processChar. intros Hd Hi. preserved Hd. Qed.

Lemma processRead_Inv chars (t t' : Terminal C) :
  processRead chars t = Some t' -> Inv t -> Inv t'.
Proof.
  revert t. induction chars as [|ev chars IH]; simpl; intros t Hs Hi.
  - injection Hs as <-. assumption.
  - along. eauto using processChar_Inv.
Qed.

#[local] Hint Resolve processRead_Inv : inv.

Lemma read_Inv chars exited (t t' : Terminal C) :
  read chars exited t = Some t' -> Inv t -> Inv t'.
Proof. unfold read. intros Hd Hi. destruct exited; preserved Hd. Qed.

Lemma scrollAndFix_Inv c (t t' : Terminal C) :
  scrollAndFix c t = Some t' -> Inv t -> Inv t'.
Proof. unfold scrollAndFix. intros Hd Hi. preserved Hd. Qed.

Lemma copySelection_Inv clipboard (t : Terminal C) : Inv t -> Inv (copySelection clipboard t).
Proof. intros Hi. unfold copySelection. destruct (getSelectedText _); auto with inv. Qed.

#[local] Hint Resolve scrollAndFix_Inv copySelection_Inv : inv.

Lemma handleKeyBinding_Inv k m (t t' : Terminal C) r :
  handleKeyBinding k m t = Some (t', r) -> Inv t -> Inv t'.
Proof. unfold handleKeyBinding. intros Hd Hi. preserved Hd. Qed.

#[local] Hint Resolve handleKeyBinding_Inv : inv.

Lemma keyPress_Inv k m potent converted (t t' : Terminal C) :
  keyPress k m potent converted t = Some t' -> Inv t -> Inv t'.
Proof. unfold keyPress. intros Hd Hi. preserved Hd. Qed.

Lemma writeReport_Inv str (t : Terminal C) : Inv t -> Inv (writeReport str t).
Proof. intros Hi. unfold writeReport. destruct (negb _); auto with inv. Qed.

#[local] Hint Resolve writeReport_Inv : inv.

Lemma buttonPress_Inv b count m within p (t t' : Terminal C) :
  buttonPress b count m within p t = Some t' -> Inv t -> Inv t'.
Proof. unfold buttonPress. intros Hd Hi. preserved Hd. Qed.

Lemma buttonMotion_Inv m within p (t t' : Terminal C) :
  buttonMotion m within p t = Some t' -> Inv t -> Inv t'.
Proof. unfold buttonMotion. intros Hd Hi. preserved Hd. Qed.

Lemma buttonRelease_Inv broken m (t t' : Terminal C) :
  buttonRelease broken m t = Some t' -> Inv t -> Inv t'.
Proof. unfold buttonRelease. intros Hd Hi. preserved Hd. Qed.

Lemma scrollWheel_Inv d m (t t' : Terminal C) :
  scrollWheel d m t = Some t' -> Inv t -> Inv t'.
Proof. unfold scrollWheel. intros Hd Hi. preserved Hd. Qed.

Lemma paste_Inv data (t t' : Terminal C) :
  paste data t = Some t' -> Inv t -> Inv t'.
Proof.
  unfold paste. intros Hd Hi. cbv zeta in Hd. along; subst.
  repeat first [apply write_Inv | apply Inv_if]; eauto with inv.
Qed.

Lemma clearSelection_Inv (t t' : Terminal C) :
  clearSelection t = Some t' -> Inv t -> Inv t'.
Proof. unfold clearSelection. eauto with inv. Qed.

Lemma flush_Inv (t t' : Terminal C) :
  flush t = Some t' -> Inv t -> Inv t'.
Proof. unfold flush. intros Hd Hi. preserved Hd. Qed.

(** Every public operation that returns keeps the invariant. *)
Lemma step_Inv o (t t' : Terminal C) :
  step o t = Some t' -> Inv t -> Inv t'.
Proof.
  destruct o; simpl; intros Hs Hi;
    eauto using keyPress_Inv, buttonPress_Inv, buttonMotion_Inv, buttonRelease_Inv,
      scrollWheel_Inv, paste_Inv, clearSelection_Inv, read_Inv, flush_Inv, fixDamage_Inv.
  eapply resize_Inv; [| |eassumption]; apply to_uint16_range.
Qed.

Lemma steps_Inv ops (t t' : Terminal C) :
  steps ops t = Some t' -> Inv t -> Inv t'.
Proof.
  revert t. induction ops as [|o ops IH]; simpl; intros t Hs Hi.
  - injection Hs as <-. assumption.
  - along. eauto using step_Inv.
Qed.

(** The constructor establishes the invariant. *)
Lemma new_Inv config rows cols (pri alt : C) e :
  0 < rows < 65536 -> 0 < cols < 65536 -> Inv (new config rows cols pri alt e).
Proof.
  intros Hr Hc. unfold Inv, new, geometryOk, inGrid, getRows, getCols. simpl. lia.
Qed.

(** C1: after every public operation of the controller (pty input, key,
    button and wheel events, paste, redraw, flush, resize), from the
    constructor on, the cursor of the current buffer satisfies
    [0 <= row < rows] and [0 <= col < cols]. *)
Theorem cursor_containment config (rows cols : Z) (pri alt : C) (e : Env)
        (ops : list Op) (t : Terminal C) :
  0 < rows < 65536 ->
  0 < cols < 65536 ->
  steps ops (new config rows cols pri alt e) = Some t ->
  cursorInGrid t.
Proof.
  intros Hr Hc Hs. apply Inv_cursorInGrid.
  eapply steps_Inv; [eassumption|]. apply new_Inv; assumption.
Qed.

(** *** No assertion fires while events are dispatched *)

Lemma cursor_asserts (t : Terminal C) :
  Inv t ->
  ASSERT (row (pos (_cursor t)) <? getRows (buffer t)) = Some tt /\
  ASSERT (col (pos (_cursor t)) <? getCols (buffer t)) = Some tt.
Proof.
  intros Hi. destruct (Inv_cursorInGrid t Hi) as ((_ & Hr) & (_ & Hc)).
  apply Z.ltb_lt in Hr, Hc. rewrite Hr, Hc. split; reflexivity.
Qed.

Create HintDb total.

(** Steps along a computation that must end in [Some]. *)
Ltac total :=
  repeat match goal with
    | |- is_Some (Some _) => eexists; reflexivity
    | Hi : Inv ?t |- context [ASSERT (row (pos (_cursor ?t)) <? getRows (buffer ?t))] =>
        rewrite (proj1 (cursor_asserts t Hi)); cbn [mbind option_bind]
    | Hi : Inv ?t |- context [ASSERT (col (pos (_cursor ?t)) <? getCols (buffer ?t))] =>
        rewrite (proj2 (cursor_asserts t Hi)); cbn [mbind option_bind]
    | |- is_Some (Some ?x ≫= _) =>
        let t1 := fresh "t" in
        let E := fresh "E" in
        remember x as t1 eqn:E;
        assert (Inv t1) by (subst t1; eauto 10 with inv);
        clear E; cbn [mbind option_bind]
    | |- is_Some ((if ?b then _ else _) ≫= _) => destruct b eqn:?
    | |- is_Some ((?m ≫= _) ≫= _) =>
        let t1 := fresh "t" in
        let E := fresh "E" in
        destruct m as [t1|] eqn:E;
        [ assert (Inv t1) by eauto 10 with inv; cbn [mbind option_bind]
        | exfalso; apply (@is_Some_None (Terminal C)); rewrite <- E; eauto 10 with total inv ]
    | |- is_Some (?m ≫= _) =>
        let t1 := fresh "t" in
        let E := fresh "E" in
        destruct m as [t1|] eqn:E;
        [ assert (Inv t1) by eauto 10 with inv; cbn [mbind option_bind]
        | exfalso; apply (@is_Some_None (Terminal C)); rewrite <- E; eauto 10 with total inv ]
    | |- is_Some (if ?b then _ else _) => destruct b eqn:?
    | |- is_Some (match ?x with _ => _ end) => destruct x eqn:?
    end; eauto 10 with total inv.

Lemma damageCursor_total (t : Terminal C) : Inv t -> is_Some (damageCursor t).
Proof. intros Hi. unfold damageCursor. total. Qed.

#[local] Hint Resolve damageCursor_total : total.

Lemma moveCursor_total p (t : Terminal C) : Inv t -> is_Some (moveCursor p t).
Proof. intros Hi. unfold moveCursor. total. Qed.

#[local] Hint Resolve moveCursor_total : total.

Lemma moveCursorOriginMode_total p (t : Terminal C) :
  Inv t -> is_Some (moveCursorOriginMode p t).
Proof. intros Hi. unfold moveCursorOriginMode. auto with total. Qed.

Lemma tabCursor_total d n (t : Terminal C) : Inv t -> is_Some (tabCursor d n t).
Proof. intros Hi. unfold tabCursor. auto with total. Qed.

Lemma addLineOrDown_total (t : Terminal C) : Inv t -> is_Some (addLineOrDown t).
Proof. intros Hi. unfold addLineOrDown. total. Qed.

#[local] Hint Resolve moveCursorOriginMode_total tabCursor_total addLineOrDown_total : total.

Lemma machineNormal_total s (t : Terminal C) : Inv t -> is_Some (machineNormal s t).
Proof.
  intros Hi. unfold machineNormal. cbv zeta. total.
Qed.

Lemma machineControl_total c (t : Terminal C) : Inv t -> is_Some (machineControl c t).
Proof. intros Hi. unfold machineControl. total. Qed.

Lemma machineEscape_total c (t : Terminal C) : Inv t -> is_Some (machineEscape c t).
Proof. intros Hi. unfold machineEscape. total. Qed.



(** The observer's answer to a resize request is fixed: every operation
    leaves [resizeOnRequest] as it is. *)
Lemma bufCall_quiet c (t t' : Terminal C) r :
  bufCall c t = (t', r) -> noReentry t -> noReentry t'.
Proof.
  unfold bufCall, set_buffer. destruct (Buffer_call c _) as [b r'].
  intros [= <- _]. destruct (_bufferIsAlt t); auto.
Qed.

Lemma bufDo_quiet c (t : Terminal C) : noReentry t -> noReentry (bufDo c t).
Proof. unfold bufDo. destruct (bufCall c t) eqn:Hb. simpl. eauto using bufCall_quiet. Qed.

Lemma write_quiet data (t : Terminal C) : noReentry t -> noReentry (write data t).
Proof.
  intros Hi. unfold write. destruct (_dumpWrites t); [assumption|].
  destruct (_writeBuffer t); [destruct (ttyWriteLoop _ _ _)|]; exact Hi.
Qed.

Lemma observe_quiet c (t : Terminal C) : noReentry t -> noReentry (observe c t).
Proof. intros Hi. exact Hi. Qed.
Lemma quiet_set_cursor v (t : Terminal C) : noReentry t -> noReentry (set_cursor v t).
Proof. intros Hi. exact Hi. Qed.
Lemma quiet_set_savedCursor v (t : Terminal C) : noReentry t -> noReentry (set_savedCursor v t).
Proof. intros Hi. exact Hi. Qed.
Lemma quiet_set_tabs v (t : Terminal C) : noReentry t -> noReentry (set_tabs v t).
Proof. intros Hi. exact Hi. Qed.
Lemma quiet_set_modes v (t : Terminal C) : noReentry t -> noReentry (set_modes v t).
Proof. intros Hi. exact Hi. Qed.
Lemma quiet_setMode m v (t : Terminal C) : noReentry t -> noReentry (setMode m v t).
Proof. intros Hi. exact Hi. Qed.
Lemma quiet_set_dispatch v (t : Terminal C) : noReentry t -> noReentry (set_dispatch v t).
Proof. intros Hi. exact Hi. Qed.
Lemma quiet_set_damage v (t : Terminal C) : noReentry t -> noReentry (set_damage v t).
Proof. intros Hi. exact Hi. Qed.
Lemma quiet_set_writeBuffer v (t : Terminal C) : noReentry t -> noReentry (set_writeBuffer v t).
Proof. intros Hi. exact Hi. Qed.
Lemma quiet_set_bufferIsAlt v (t : Terminal C) : noReentry t -> noReentry (set_bufferIsAlt v t).
Proof. intros Hi. exact Hi. Qed.
Lemma quiet_set_buffer v (t : Terminal C) : noReentry t -> noReentry (set_buffer v t).
Proof. intros Hi. unfold set_buffer. destruct (_bufferIsAlt t); exact Hi. Qed.
Lemma quiet_if (b : bool) (t1 t2 : Terminal C) :
  noReentry t1 -> noReentry t2 -> noReentry (if b then t1 else t2).
Proof. destruct b; auto. Qed.
Lemma foldl_quiet {A} (f : Terminal C -> A -> Terminal C) (l : list A) (t : Terminal C) :
  (forall t a, noReentry t -> noReentry (f t a)) -> noReentry t -> noReentry (foldl f t l).
Proof. intros Hf. revert t. induction l; simpl; auto. Qed.

Create HintDb quiet.
#[local] Hint Resolve bufCall_quiet bufDo_quiet write_quiet observe_quiet quiet_set_cursor
  quiet_set_savedCursor quiet_set_tabs quiet_set_modes quiet_setMode quiet_set_dispatch
  quiet_set_damage quiet_set_writeBuffer quiet_set_bufferIsAlt quiet_set_buffer
  quiet_if : quiet.

Ltac quiet H := cbv zeta in H; along; subst; eauto 10 with quiet.

Lemma damageCursor_quiet (t t' : Terminal C) :
  damageCursor t = Some t' -> noReentry t -> noReentry t'.
Proof. unfold damageCursor. intros Hd Hi. quiet Hd. Qed.
#[local] Hint Resolve damageCursor_quiet : quiet.

Lemma moveCursor_quiet p (t t' : Terminal C) :
  moveCursor p t = Some t' -> noReentry t -> noReentry t'.
Proof. unfold moveCursor. intros Hd Hi. quiet Hd. Qed.
#[local] Hint Resolve moveCursor_quiet : quiet.

Lemma moveCursorOriginMode_quiet p (t t' : Terminal C) :
  moveCursorOriginMode p t = Some t' -> noReentry t -> noReentry t'.
Proof. unfold moveCursorOriginMode. eauto with quiet. Qed.

Lemma tabCursor_quiet dir count (t t' : Terminal C) :
  tabCursor dir count t = Some t' -> noReentry t -> noReentry t'.
Proof. unfold tabCursor. eauto with quiet. Qed.

Lemma addLineOrDown_quiet (t t' : Terminal C) :
  addLineOrDown t = Some t' -> noReentry t -> noReentry t'.
Proof. unfold addLineOrDown. intros Hd Hi. quiet Hd. Qed.
#[local] Hint Resolve moveCursorOriginMode_quiet tabCursor_quiet addLineOrDown_quiet : quiet.

Lemma machineNormal_quiet s (t t' : Terminal C) :
  machineNormal s t = Some t' -> noReentry t -> noReentry t'.
Proof. unfold machineNormal. intros Hd Hi. quiet Hd. Qed.

Lemma machineControl_quiet c (t t' : Terminal C) :
  machineControl c t = Some t' -> noReentry t -> noReentry t'.
Proof. unfold machineControl. intros Hd Hi. quiet Hd. Qed.

Lemma resetAll_quiet (t : Terminal C) : noReentry t -> noReentry (resetAll t).
Proof. intros Hi. unfold resetAll. cbv zeta. auto 10 with quiet. Qed.
#[local] Hint Resolve resetAll_quiet : quiet.

Lemma machineEscape_quiet c (t t' : Terminal C) :
  machineEscape c t = Some t' -> noReentry t -> noReentry t'.
Proof. unfold machineEscape. intros Hd Hi. quiet Hd. Qed.

Lemma processAttributes_quiet args (t t' : Terminal C) :
  processAttributes args t = Some t' -> noReentry t -> noReentry t'.
Proof. unfold processAttributes. intros Hd Hi. quiet Hd. Qed.

Lemma resize_quiet rows cols (t t' : Terminal C) :
  resize rows cols t = Some t' -> noReentry t -> noReentry t'.
Proof.
  unfold resize, Buffer_resize. intros Hd Hi.
  destruct (_bufferIsAlt t); cbv beta iota zeta in Hd; along; subst; exact Hi.
Qed.

Lemma requestResize_quiet rows cols (t t' : Terminal C) :
  requestResize rows cols t = Some t' -> noReentry t -> noReentry t'.
Proof. unfold requestResize. intros Hd Hi. cbv zeta in Hd. along; subst; eauto using resize_quiet. Qed.

Lemma saveOrRestoreCursor_quiet set (t t' : Terminal C) :
  saveOrRestoreCursor set t = Some t' -> noReentry t -> noReentry t'.
Proof. unfold saveOrRestoreCursor. intros Hd Hi. quiet Hd. Qed.
#[local] Hint Resolve requestResize_quiet saveOrRestoreCursor_quiet : quiet.

Lemma alternateScreen_quiet a set (t t' : Terminal C) :
  alternateScreen a set t = Some t' -> noReentry t -> noReentry t'.
Proof. unfold alternateScreen. intros Hd Hi. quiet Hd. Qed.
#[local] Hint Resolve alternateScreen_quiet : quiet.

Lemma processMode_quiet priv set a (t t' : Terminal C) :
  processMode priv set a t = Some t' -> noReentry t -> noReentry t'.
Proof. unfold processMode. intros Hd Hi. quiet Hd. Qed.

Lemma processModes_quiet priv set args (t t' : Terminal C) :
  processModes priv set args t = Some t' -> noReentry t -> noReentry t'.
Proof.
  revert t. induction args as [|a args IH]; simpl; intros t Hs Hi.
  - injection Hs as <-. assumption.
  - along. eauto using processMode_quiet.
Qed.

Lemma deviceStatusReport_quiet args (t : Terminal C) :
  noReentry t -> noReentry (deviceStatusReport args t).
Proof.
  intros Hi. unfold deviceStatusReport.
  destruct (isEmpty args); [assumption|].
  destruct (_ =? 5); [assumption|]. destruct (_ =? 6); assumption.
Qed.

Lemma setTopBottomMargins_quiet args (t t' : Terminal C) :
  setTopBottomMargins args t = Some t' -> noReentry t -> noReentry t'.
Proof. unfold setTopBottomMargins. intros Hd Hi. quiet Hd. Qed.
#[local] Hint Resolve processModes_quiet deviceStatusReport_quiet setTopBottomMargins_quiet
  machineNormal_quiet machineControl_quiet machineEscape_quiet processAttributes_quiet : quiet.

Lemma machineCsi_quiet priv args code (t t' : Terminal C) :
  machineCsi priv args code t = Some t' -> noReentry t -> noReentry t'.
Proof. unfold machineCsi. intros Hd Hi. quiet Hd. Qed.

Lemma machineSpecial_quiet special code (t t' : Terminal C) :
  machineSpecial special code t = Some t' -> noReentry t -> noReentry t'.
Proof.
  unfold machineSpecial. intros Hs Hi. cbv zeta in Hs. along; subst; eauto with quiet.
  apply foldl_quiet; auto with quiet.
Qed.

Lemma machineOsc_quiet code args (t t' : Terminal C) :
  machineOsc code args t = Some t' -> noReentry t -> noReentry t'.
Proof. unfold machineOsc. intros Hd Hi. quiet Hd. Qed.

Lemma dispatch_quiet e (t t' : Terminal C) :
  dispatch e t = Some t' -> noReentry t -> noReentry t'.
Proof.
  destruct e; simpl; intros Hd Hi;
    eauto using machineNormal_quiet, machineControl_quiet, machineEscape_quiet,
      machineCsi_quiet, machineOsc_quiet, machineSpecial_quiet.
  injection Hd as <-. assumption.
Qed.

Lemma draw_quiet b e d (t t' : Terminal C) :
  draw b e d t = Some t' -> noReentry t -> noReentry t'.
Proof.
  unfold draw. intros Hd Hi. cbv zeta in Hd. along; subst.
  all: apply quiet_set_damage, foldl_quiet; auto with quiet.
Qed.
#[local] Hint Resolve draw_quiet dispatch_quiet : quiet.

Lemma fixDamage_quiet b e d (t t' : Terminal C) :
  fixDamage b e d t = Some t' -> noReentry t -> noReentry t'.
Proof.
  unfold fixDamage. intros Hd Hi.
  destruct (Damager_eqb d TTY && Config._scrollOnTtyOutput (_config t)).
  - destruct (bufCall CScrollBottomHistory t) as [t0 scrolled] eqn:Hb.
    apply bufCall_quiet in Hb; [|assumption]. quiet Hd.
  - quiet Hd.
Qed.

Lemma fixDamageAll_quiet d (t t' : Terminal C) :
  fixDamageAll d t = Some t' -> noReentry t -> noReentry t'.
Proof. unfold fixDamageAll. eauto using fixDamage_quiet. Qed.
#[local] Hint Resolve fixDamage_quiet fixDamageAll_quiet : quiet.

Lemma processChar_quiet ev (t t' : Terminal C) :
  processChar ev t = Some t' -> noReentry t -> noReentry t'.
Proof. unfold processChar. intros Hd Hi. quiet Hd. Qed.


Lemma processAttributes_total args (t : Terminal C) :
  args <> [] -> is_Some (processAttributes args t).
Proof. intros Hne. unfold processAttributes. destruct args; [done|]. simpl. eauto. Qed.

Lemma requestResize_total rows cols (t : Terminal C) :
  noReentry t -> is_Some (requestResize rows cols t).
Proof.
  intros Hq. unfold requestResize. cbv zeta.
  rewrite (observe_quiet (terminalResizeBuffer rows cols) t Hq rows cols). eauto.
Qed.

Lemma saveOrRestoreCursor_total set (t : Terminal C) :
  Inv t -> is_Some (saveOrRestoreCursor set t).
Proof. intros Hi. unfold saveOrRestoreCursor. total. Qed.

#[local] Hint Resolve requestResize_total saveOrRestoreCursor_total : total.

Lemma alternateScreen_total a set (t : Terminal C) :
  Inv t -> is_Some (alternateScreen a set t).
Proof. intros Hi. unfold alternateScreen. cbv zeta. total. Qed.

#[local] Hint Resolve alternateScreen_total : total.

Lemma processMode_total priv set a (t : Terminal C) :
  Inv t -> noReentry t -> is_Some (processMode priv set a t).
Proof. intros Hi Hq. unfold processMode. total. Qed.

Lemma processModes_total priv set args (t : Terminal C) :
  Inv t -> noReentry t -> is_Some (processModes priv set args t).
Proof.
  revert t. induction args as [|a args IH]; simpl; intros t Hi Hq; [eauto|].
  destruct (processMode_total priv set a t Hi Hq) as [t1 E]. rewrite E. simpl.
  eauto using processMode_Inv, processMode_quiet.
Qed.

Lemma setTopBottomMargins_total args (t : Terminal C) :
  Inv t -> is_Some (setTopBottomMargins args t).
Proof.
  intros Hi. unfold setTopBottomMargins.
  destruct (isEmpty args); [eauto using moveCursorOriginMode_total, Inv_reset_margins|].
  cbv zeta. apply moveCursorOriginMode_total, (Inv_chosen_margins args t Hi).
Qed.

#[local] Hint Resolve processModes_total setTopBottomMargins_total : total.

Lemma machineCsi_total priv args code (t : Terminal C) :
  Inv t -> noReentry t -> is_Some (machineCsi priv args code t).
Proof.
  intros Hi Hq. unfold machineCsi. cbv zeta. total.
  all: apply processAttributes_total; [discriminate || (intros ->; discriminate)].
Qed.

Lemma machineSpecial_total special code (t : Terminal C) : is_Some (machineSpecial special code t).
Proof. unfold machineSpecial. cbv zeta. total. Qed.

Lemma machineOsc_total code args (t : Terminal C) : is_Some (machineOsc code args t).
Proof. unfold machineOsc. total. Qed.

(** No assertion fires in the handler of a VT event. *)
Lemma dispatch_total e (t : Terminal C) :
  Inv t -> noReentry t -> is_Some (dispatch e t).
Proof.
  intros Hi Hq. destruct e; simpl;
    eauto using machineNormal_total, machineControl_total, machineEscape_total,
      machineCsi_total, machineSpecial_total, machineOsc_total.
Qed.


Lemma drawCursor_total (t : Terminal C) acc : Inv t -> is_Some (drawCursor t acc).
Proof.
  intros Hi. unfold drawCursor. destruct acc as [dmg log]. cbv zeta.
  destruct (Inv_cursorInGrid t Hi) as ((Hr0 & Hr) & (Hc0 & Hc)).
  destruct (Inv_buffer t Hi) as ((Hrows & _) & _).
  destruct (mode SHOW_CURSOR t); [|simpl; eauto].
  destruct (Z.ltb_spec (Z.of_N (getScrollOffset (content (buffer t))) + row (pos (_cursor t)))
              (getRows (buffer t))) as [Hlt|]; [|simpl; eauto].
  cbn [andb row col].
  rewrite (to_uint16_small (row (pos (_cursor t)) + Z.of_N (getScrollOffset (content (buffer t)))))
    by (unfold getRows in *; lia).
  replace (_ <? getRows (buffer t)) with true by (symmetry; apply Z.ltb_lt; lia).
  replace (_ <? getCols (buffer t)) with true by (symmetry; apply Z.ltb_lt; lia).
  cbn [ASSERT mbind option_bind].
  repeat match goal with |- context [if ?b then _ else _] => destruct b end; eauto.
Qed.

Lemma draw_total b e d (t : Terminal C) : Inv t -> is_Some (draw b e d t).
Proof.
  intros Hi. unfold draw. cbv zeta.
  destruct (drawCursor_total t
              (drawRows (Z.to_nat (to_uint16 (row e - row b))) b e d (mode REVERSE t)
                 (content (buffer t)) (to_uint16 (row b)) (mkRegion Pos0 Pos0, [])) Hi)
    as [[dmg log] E].
  rewrite E. cbn [mbind option_bind]. eauto.
Qed.

(** Damage fixing for pty output or a scroll never fails; for an exposure
    it needs an observer that accepts the frame. *)
Lemma fixDamage_total b e d (t : Terminal C) :
  Inv t -> d <> EXPOSURE \/ fixDamageBeginOk (env t) = true -> is_Some (fixDamage b e d t).
Proof.
  intros Hi Hd. unfold fixDamage.
  assert (Hstep : forall (t0 : Terminal C) d0,
             Inv t0 -> d0 <> EXPOSURE \/ fixDamageBeginOk (env t0) = true ->
             is_Some
               (let internal := negb (Damager_eqb d0 EXPOSURE) in
                let t1 := observe (terminalFixDamageBegin internal) t0 in
                if fixDamageBeginOk (env t1) then
                  t2 ← draw b e d0 t1;
                  let t3 := observe (terminalFixDamageEnd internal (rBegin (_damage t2))
                                       (rEnd (_damage t2)) (scrollbarDue d0 t2)) t2 in
                  Some (if Damager_eqb d0 TTY then bufDo CResetDamage t3 else t3)
                else _ ← ASSERT (negb (Damager_eqb d0 EXPOSURE)); Some t1)).
  { intros t0 d0 Hi0 Hd0. cbv zeta.
    destruct (fixDamageBeginOk (env (observe _ t0))) eqn:Hok.
    - destruct (draw_total b e d0 (observe (terminalFixDamageBegin
                  (negb (Damager_eqb d0 EXPOSURE))) t0) (observe_Inv _ _ Hi0)) as [t2 E].
      rewrite E. simpl. eauto.
    - destruct Hd0 as [Hne|Hok']; [|simpl in Hok; congruence].
      destruct d0; try done; simpl; eauto. }
  destruct (Damager_eqb d TTY && Config._scrollOnTtyOutput (_config t)) eqn:Hc.
  - destruct (bufCall CScrollBottomHistory t) as [t0 scrolled] eqn:Hb.
    apply Hstep; [eauto with inv|].
    left. destruct scrolled; [discriminate|].
    destruct d; discriminate.
  - apply Hstep; assumption.
Qed.

Lemma processChar_total ev (t : Terminal C) :
  Inv t -> noReentry t -> is_Some (processChar ev t).
Proof.
  intros Hi Hq. unfold processChar.
  assert (Hd : is_Some (match ev with Some e => dispatch e t | None => Some t end))
    by (destruct ev; eauto using dispatch_total).
  destruct Hd as [t1 E]. rewrite E. cbn [mbind option_bind].
  assert (Inv t1) by (destruct ev; [eauto with inv|congruence]).
  destruct (Config._syncTty _); [|eauto].
  apply fixDamage_total; [assumption|left; discriminate].
Qed.

Lemma processRead_total chars (t : Terminal C) :
  Inv t -> noReentry t -> is_Some (processRead chars t).
Proof.
  revert t. induction chars as [|ev chars IH]; simpl; intros t Hi Hq; [eauto|].
  destruct (processChar_total ev t Hi Hq) as [t1 E]. rewrite E. cbn [mbind option_bind].
  assert (Hi1 : Inv t1) by eauto using processChar_Inv.
  rewrite (proj1 (cursor_asserts t1 Hi1)), (proj2 (cursor_asserts t1 Hi1)).
  cbn [mbind option_bind]. eauto using processChar_quiet.
Qed.

(** [read] runs to its end: no assertion fires, whatever the pty delivers,
    as long as the observer does not resize on its own. *)
Lemma read_total chars exited (t : Terminal C) :
  Inv t -> noReentry t -> _dispatch t = false -> is_Some (read chars exited t).
Proof.
  intros Hi Hq Hd. unfold read. rewrite Hd. cbn [negb ASSERT mbind option_bind].
  destruct (processRead_total chars (set_dispatch true t) Hi Hq) as [t1 E].
  rewrite E. cbn [mbind option_bind].
  assert (Hi1 : Inv t1) by eauto with inv.
  assert (Hi2 : Inv (match exited with
                     | Some code => observe (terminalChildExited code) t1
                     | None => t1
                     end)) by (destruct exited; auto with inv).
  destruct (negb _); [|simpl; eauto].
  destruct (fixDamage_total Pos0
              (mkPos (getRows (buffer (match exited with
                                       | Some code => observe (terminalChildExited code) t1
                                       | None => t1
                                       end)))
                     (getCols (buffer (match exited with
                                       | Some code => observe (terminalChildExited code) t1
                                       | None => t1
                                       end))))
              TTY _ Hi2) as [t2 E2]; [left; discriminate|].
  unfold fixDamageAll. rewrite E2. simpl. eauto.
Qed.


(** [resize] runs to its end when the adjustment each buffer returns brings
    the row it was given into the new screen. *)
Lemma resize_total rows cols (t : Terminal C) :
  Inv t -> 0 < rows < 65536 -> 0 < cols < 65536 ->
  (forall cursorRow g c,
      0 <= cursorRow -> 0 <= cursorRow + rsAdjust (resized rows cols cursorRow g c) < rows) ->
  is_Some (resize rows cols t).
Proof.
  intros Hi Hrows Hcols Hadj. unfold resize, Buffer_resize.
  destruct (Inv_cursor t Hi) as ((Hr0 & _) & (Hc0 & _)).
  destruct (Inv_savedCursor t Hi) as ((Hs0 & _) & _).
  replace ((0 <? rows) && (0 <? cols)) with true
    by (symmetry; apply andb_true_intro; split; apply Z.ltb_lt; lia).
  cbn [ASSERT mbind option_bind].
  assert (Hw : forall (b : bool) (c : Cursor),
             pos (if b then Cursor_setWrapNext false c else c) = pos c)
    by (intros [] c; reflexivity).
  assert (Hcl : forall v, 0 <= v -> clamp v 0 (to_uint16 (cols - 1)) < cols).
  { intros v Hv. rewrite to_uint16_small by lia.
    pose proof (clamp_range v 0 (cols - 1)). lia. }
  assert (Hcl0 : forall v, 0 <= clamp v 0 (to_uint16 (cols - 1))).
  { intros v. rewrite to_uint16_small by lia. pose proof (clamp_range v 0 (cols - 1)). lia. }
  assert (Hu : forall cr g c,
             0 <= cr ->
             to_uint16 (cr + rsAdjust (resized rows cols cr g c))
               = cr + rsAdjust (resized rows cols cr g c)).
  { intros cr g c Hcr. apply to_uint16_small. specialize (Hadj cr g c Hcr). lia. }
  destruct (_bufferIsAlt t); cbv beta iota zeta; rewrite !Hw, !Hu by assumption.
  all: repeat match goal with
         | |- context [ASSERT (?a <? ?b)] =>
             replace (a <? b) with true; [cbn [ASSERT mbind option_bind]|]
         end; eauto.
  all: symmetry; apply Z.ltb_lt.
  all: try (apply Hcl; first [assumption | apply Hcl0]).
  all: try (apply Hadj; assumption).
  all: match goal with
       | |- (if ?b then _ else _) < _ => destruct b eqn:Hb
       end;
       [rewrite to_uint16_small by lia; lia | apply Hadj; assumption].
Qed.

End Containment.

Lemma cursor_containment_witness :
  match Terminal.steps sampleSession (scenario []) with
  | Some t => cursorInGrid t
  | None => False
  end.
Proof.
  destruct (Terminal.steps sampleSession (scenario [])) as [t|] eqn:E.
  - apply (cursor_containment Config.default 24 80 (Grid.blank 24 80) (Grid.blank 24 80)
             (scenarioEnv []) sampleSession t); [lia | lia | exact E].
  - vm_compute in E. discriminate E.
Defined.

(** *** The two ways a response reaches the queue *)

Section QueueOrder.

Context {C : Type} `{BufferContent C}.

Import Terminal.

(** [write] puts the bytes behind what is queued. *)
Lemma write_appends data (t : Terminal C) :
  _dumpWrites t = false -> _writeBuffer t <> [] ->
  _writeBuffer (write data t) = _writeBuffer t ++ data.
Proof.
  intros Hd Hq. unfold write. rewrite Hd. destruct (_writeBuffer t); [done|reflexivity].
Qed.

(** The answer to [CSI 5 n] is put in front of what is queued. *)
Lemma status_report_prepends (t : Terminal C) :
  _writeBuffer (deviceStatusReport [5] t)
    = [ESC; chr "["; chr "0"; chr "n"] ++ _writeBuffer t.
Proof. reflexivity. Qed.

(** So is the answer to [CSI 6 n]. *)
Lemma cursor_report_prepends (t : Terminal C) :
  let r := row (pos (_cursor t)) in
  let r := if originMode (_cursor t) then to_uint16 (r - getMarginBegin (buffer t)) else r in
  _writeBuffer (deviceStatusReport [6] t)
    = [ESC; chr "["] ++ int_bytes (r + 1) ++ [chr ";"]
        ++ int_bytes (col (pos (_cursor t)) + 1) ++ [chr "R"] ++ _writeBuffer t.
Proof. reflexivity. Qed.

End QueueOrder.

(** *** Runs in the column loop of draw *)

Section Runs.

Import Terminal.

Lemma seqBytes_not_empty cell : seqBytes cell <> [].
Proof.
  unfold seqBytes, leadLength.
  destruct (cell_seq cell) as [|? [|? [|? [|? ?]]]];
    repeat (destruct (_ <? _)); discriminate.
Qed.

Lemma isEmpty_seqBytes cell : isEmpty (seqBytes cell) = false.
Proof. pose proof (seqBytes_not_empty cell). destruct (seqBytes cell); [done|reflexivity]. Qed.

(** With REVERSE off, a cell whose style is that of the cell before it joins
    its run: no run is flushed between the two. *)
Lemma normal_mode_joins_equal_styles r c c1 c2 s :
  cell_style c1 = cell_style c2 ->
  drawCell false r (c + 1) c2 (drawCell false r c c1 s) =
    let s1 := drawCell false r c c1 s in
    mkRunState (run s1 ++ seqBytes c2) (c_ s1) (runStyle s1) (calls s1).
Proof.
  intros Hst. cbv zeta.
  assert (Hs1 : isEmpty (run (drawCell false r c c1 s)) = false
                /\ runStyle (drawCell false r c c1 s) = cell_style c1).
  { unfold drawCell.
    destruct (isEmpty (run s) || negb (bool_decide (runStyle s = cell_style c1))) eqn:E; simpl.
    - split; [apply isEmpty_seqBytes|reflexivity].
    - apply orb_false_elim in E as [E1 E2]. apply negb_false_iff, bool_decide_eq_true in E2.
      split; [|assumption]. destruct (run s); [discriminate|reflexivity]. }
  destruct Hs1 as [Hne Hstyle].
  unfold drawCell at 1. rewrite Hne, Hstyle, Hst.
  rewrite bool_decide_eq_true_2 by reflexivity. reflexivity.
Qed.

(** With REVERSE on, a cell whose style is that of the cell before it, with
    different foreground and background, ends the run of that cell: a run of
    one cell is handed to [terminalDrawRun] between the two. *)
Lemma reverse_mode_ends_run_at_equal_styles r c c1 c2 s :
  cell_style c1 = cell_style c2 ->
  fg (cell_style c1) <> bg (cell_style c1) ->
  isEmpty (run s) = true ->
  calls (drawCell true r (c + 1) c2 (drawCell true r c c1 s)) =
    calls s ++ [terminalDrawRun (mkPos r c) (Style_swap (cell_style c1))
                  (seqBytes c1 ++ [0]) (c + 1 - c)].
Proof.
  intros Hst Hne Hrun.
  assert (Hs1 : drawCell true r c c1 s
                = mkRunState (seqBytes c1) c (Style_swap (cell_style c1)) (calls s)).
  { unfold drawCell, flushRun. rewrite Hrun. reflexivity. }
  rewrite Hs1. unfold drawCell, flushRun. cbn [run runStyle c_ calls].
  rewrite isEmpty_seqBytes, <- Hst.
  rewrite bool_decide_eq_false_2; [reflexivity|].
  intros Heq. apply Hne. destruct (cell_style c1). unfold Style_swap in Heq.
  simpl in *. congruence.
Qed.

End Runs.

(** *** The tab stops of the controller in use *)

(** A tab from column 0 stops at column 7, the first stop the loop of
    [Terminal] sets; [Buffer::resetTabs] has the next stop at column 8. *)
Example tab_from_column_0 :
  (Terminal.pos ∘ Terminal._cursor) <$>
    Terminal.step (Terminal.OpRead [Some (Terminal.Control Terminal.HT)] None) (scenario [])
  = Some (mkPos 0 7).
Proof. vm_compute. reflexivity. Qed.

(** ** Further properties of the code *)

(** *** Damage of a line: accumulation *)

Ltac by_cases :=
  repeat (match goal with
          | |- context [?a <=? ?b] => destruct (Z.leb_spec a b)
          | |- context [?a <? ?b] => destruct (Z.ltb_spec a b)
          | |- context [?a =? ?b] => destruct (Z.eqb_spec a b)
          end; cbn -[Z.min Z.max Z.add Z.sub Z.mul Z.quot Z.rem Z.div Z.modulo]).

(** X1: the order in which two intervals are added to the damage of a line
    does not matter, an ASSERT that fires included. *)
Theorem damageAdd_order_independent d b1 e1 b2 e2 :
  Damage.damageAdd b1 e1 d ≫= Damage.damageAdd b2 e2
  = Damage.damageAdd b2 e2 d ≫= Damage.damageAdd b1 e1.
Proof.
  destruct d as [b e]. unfold Damage.damageAdd, Damage.damageSet.
  cbn [Damage.dBegin Damage.dEnd].
  by_cases; try reflexivity; try lia; f_equal; f_equal; lia.
Qed.

(** X2: adding an interval a second time changes nothing. *)
Theorem damageAdd_idempotent d d' b e :
  Damage.damageAdd b e d = Some d' -> Damage.damageAdd b e d' = Some d'.
Proof.
  destruct d as [b0 e0]. unfold Damage.damageAdd, Damage.damageSet.
  cbn [Damage.dBegin Damage.dEnd].
  destruct (Z.leb_spec b e); [|discriminate].
  destruct (Z.eqb_spec b e); [intros [= <-]; reflexivity|].
  destruct (Z.eqb_spec b0 e0); intros [= <-]; cbn [Damage.dBegin Damage.dEnd].
  - destruct (Z.eqb_spec b e); [lia|]. f_equal. f_equal; lia.
  - destruct (Z.eqb_spec (Z.min b0 b) (Z.max e0 e)); [lia|]. f_equal. f_equal; lia.
Qed.

Lemma damageAdd_idempotent_witness :
  Damage.damageAdd 3 9 (Damage.mkDamage 5 7) = Some (Damage.mkDamage 3 9)
  /\ Damage.damageAdd 3 9 (Damage.mkDamage 3 9) = Some (Damage.mkDamage 3 9).
Proof.
  split; [reflexivity|].
  apply (damageAdd_idempotent (Damage.mkDamage 5 7) (Damage.mkDamage 3 9) 3 9). reflexivity.
Defined.

(** *** The order of absolute positions *)

(** X3: [operator <] of [APos] is a strict total order, rows first, and
    [operator ==] is equality of the two fields. *)
Theorem APos_ltb_strict_total_order :
  (forall a, APos.ltb a a = false)
  /\ (forall a b c, APos.ltb a b = true -> APos.ltb b c = true -> APos.ltb a c = true)
  /\ (forall a b, APos.ltb a b = false -> APos.ltb b a = false -> APos.eqb a b = true)
  /\ (forall a b, APos.eqb a b = true <-> a = b)
  /\ (forall a b, APos.neqb a b = true <-> a <> b).
Proof.
  assert (Heq : forall a b, APos.eqb a b = true <-> a = b).
  { intros [r1 c1] [r2 c2]. unfold APos.eqb. cbn [APos.row APos.col].
    rewrite andb_true_iff, !Z.eqb_eq. split; [intros [-> ->]; reflexivity|].
    intros [= -> ->]. auto. }
  repeat split.
  - intros [r c]. unfold APos.ltb. cbn. by_cases; try reflexivity; lia.
  - intros [r1 c1] [r2 c2] [r3 c3]. unfold APos.ltb. cbn [APos.row APos.col].
    by_cases; try reflexivity; try discriminate; lia.
  - intros [r1 c1] [r2 c2]. unfold APos.ltb, APos.eqb. cbn [APos.row APos.col].
    by_cases; try reflexivity; try discriminate; lia.
  - apply Heq.
  - apply Heq.
  - unfold APos.neqb. intros Hn Hab. apply Heq in Hab. rewrite Hab in Hn. discriminate.
  - unfold APos.neqb. intros Hn. destruct (APos.eqb a b) eqn:E; [|reflexivity].
    apply Heq in E. contradiction.
Qed.

(** *** Active lines *)

(** X4: [ALine::resize(cols)] leaves a line of exactly [cols] cells that does
    not continue, with a wrap index within the line; the cells that fit are
    kept and the cells added are blank. *)
Theorem ALine_resize_shape cols l l' :
  ALine.resize cols l = Some l' ->
  length (NewBuffer.cells l') = Z.to_nat cols
  /\ NewBuffer.cont l' = false
  /\ NewBuffer.wrap l' <= cols
  /\ NewBuffer.wrap l' <= NewBuffer.wrap l
  /\ forall i : nat,
      (i < Z.to_nat cols)%nat ->
      NewBuffer.cells l' !! i
      = Some (default (Cell_blank Style_normal) (NewBuffer.cells l !! i)).
Proof.
  unfold ALine.resize. destruct (Z.ltb_spec 0 cols); [|discriminate].
  intros [= <-]. cbn [NewBuffer.cells NewBuffer.cont NewBuffer.wrap].
  rewrite length_resize. repeat split; try lia.
  intros i Hi. destruct (NewBuffer.cells l !! i) as [c|] eqn:E.
  - rewrite lookup_resize by (apply lookup_lt_Some in E; lia). rewrite E. reflexivity.
  - apply lookup_ge_None in E. rewrite lookup_resize_new by lia. reflexivity.
Qed.

Lemma ALine_resize_shape_witness :
  let l := NewBuffer.mkALine [Cell_ascii 65 Style_normal; Cell_ascii 66 Style_normal] true 2 in
  exists l', ALine.resize 3 l = Some l' /\ length (NewBuffer.cells l') = 3%nat.
Proof.
  eexists. split; [reflexivity|].
  apply (ALine_resize_shape 3
           (NewBuffer.mkALine [Cell_ascii 65 Style_normal; Cell_ascii 66 Style_normal] true 2)).
  reflexivity.
Defined.

(** X5: after [ALine::clear(style)] the line is blank, as [isBlank] sees it,
    exactly when it has no cells or [style] is the default one; a line
    built by [ALine(cols)] is blank, and [resize] keeps a blank line
    blank. *)
Theorem ALine_blank :
  (forall style l,
      ALine.isBlank (ALine.clear style l) = true
      <-> NewBuffer.cells l = [] \/ style = Style_normal)
  /\ (forall cols, ALine.isBlank (NewBuffer.ALine_new cols Style_normal) = true)
  /\ (forall cols l l',
        ALine.isBlank l = true -> ALine.resize cols l = Some l' -> ALine.isBlank l' = true).
Proof.
  unfold ALine.isBlank. repeat split.
  - intros Hb. unfold ALine.clear in Hb. cbn [NewBuffer.cells] in Hb.
    destruct (NewBuffer.cells l) as [|c cs]; [left; reflexivity|right].
    cbn in Hb. apply andb_true_iff in Hb as [Hb _]. apply bool_decide_eq_true in Hb.
    unfold Cell_blank, Cell_ascii in Hb. congruence.
  - intros [Hnil | ->]; unfold ALine.clear; cbn [NewBuffer.cells].
    + rewrite Hnil. reflexivity.
    + apply forallb_forall. intros c Hc. apply bool_decide_eq_true.
      apply in_map_iff in Hc as (? & <- & _). reflexivity.
  - intros cols. unfold NewBuffer.ALine_new. cbn [NewBuffer.cells].
    apply forallb_forall. intros c Hc. apply bool_decide_eq_true.
    apply list_elem_of_In, elem_of_replicate in Hc as [-> _]. reflexivity.
  - intros cols l l' Hb. unfold ALine.resize.
    destruct (0 <? cols); [|discriminate]. intros [= <-]. cbn [NewBuffer.cells].
    rewrite forallb_forall in Hb. apply forallb_forall. intros c Hc.
    apply list_elem_of_In, list_elem_of_lookup in Hc as [i Hi].
    destruct (decide (i < length (NewBuffer.cells l))%nat) as [Hlt|Hge].
    + assert (i < Z.to_nat cols)%nat
        by (apply lookup_lt_Some in Hi; rewrite length_resize in Hi; exact Hi).
      rewrite lookup_resize in Hi by lia.
      apply Hb, list_elem_of_In, list_elem_of_lookup. eauto.
    + assert (i < Z.to_nat cols)%nat
        by (apply lookup_lt_Some in Hi; rewrite length_resize in Hi; exact Hi).
      rewrite lookup_resize_new in Hi by lia. injection Hi as <-.
      apply bool_decide_eq_true. reflexivity.
Qed.

(** *** Rounding up *)



(** *** matchAllOffsets on matches that advance *)

(** X7: when every match found before the end of the text ends beyond the
    offset it was looked for at, and within the text, [matchAllOffsets]
    returns after at most [size] passes, and every entry of its result
    holds at least the whole match. *)
Theorem matchAllOffsets_returns_when_matches_advance pcre_exec maxMatches text size :
  0 < size ->
  (forall offset front rest,
      0 <= offset < size ->
      Regex.common pcre_exec maxMatches text size offset = front :: rest ->
      offset < Regex.last front <= size) ->
  exists all,
    Regex.matchAllOffsets pcre_exec maxMatches (Z.to_nat size) text size = Some all
    /\ Forall (fun offsets => offsets <> []) all.
Proof.
  intros Hsize Hadv. unfold Regex.matchAllOffsets.
  assert (Hloop : forall n offset acc,
             0 <= offset < size -> (Z.to_nat (size - offset) <= n)%nat ->
             Forall (fun offsets => offsets <> []) acc ->
             exists r,
               Regex.iterate pcre_exec maxMatches n text size (Regex.Running offset acc)
               = Regex.Finished r
               /\ Forall (fun offsets => offsets <> []) r).
  { induction n as [|n IH]; intros offset acc Hoff Hn Hacc; [lia|].
    simpl. unfold Regex.body.
    destruct (Regex.common pcre_exec maxMatches text size offset) as [|front rest] eqn:Hc.
    - exists acc. split; [destruct n; reflexivity|assumption].
    - cbv zeta. specialize (Hadv _ _ _ Hoff Hc).
      assert (Hacc' : Forall (fun offsets => offsets <> []) (acc ++ [front :: rest])).
      { apply Forall_app. split; [assumption|]. constructor; [discriminate|constructor]. }
      destruct (Z.eqb_spec (Regex.last front) size).
      + eexists. split; [destruct n; reflexivity|assumption].
      + apply IH; [lia|lia|assumption]. }
  destruct (Hloop (Z.to_nat size) 0 []) as (r & -> & Hr);
    [lia|rewrite Z.sub_0_r; lia|constructor|eauto].
Qed.

Lemma matchAllOffsets_returns_when_matches_advance_witness :
  exists all,
    Regex.matchAllOffsets (Regex.pcre_exec_star (chr "x")) 10 (Z.to_nat 2)
      [chr "x"; chr "x"] 2 = Some all
    /\ Forall (fun offsets => offsets <> []) all.
Proof.
  apply (matchAllOffsets_returns_when_matches_advance
           (Regex.pcre_exec_star (chr "x")) 10 [chr "x"; chr "x"] 2); [lia|].
  intros offset front rest Hoff Hc.
  assert (Hcases : offset = 0 \/ offset = 1) by lia.
  destruct Hcases as [-> | ->]; vm_compute in Hc; injection Hc as <- _; simpl; lia.
Defined.

(** *** Colour schemes *)

Section Schemes.

Import String ColorScheme.
#[local] Open Scope string_scope.

(** X8: a name the chain of comparisons knows installs a palette of 16
    colours without logging an error, and the colours it leaves depend on
    the colours before only through the cursor fill colour, which the
    schemes other than the solarized ones leave as it is. *)
Theorem setColorScheme_known name c :
  In name schemes ->
  snd (setColorScheme name c) = false
  /\ List.length (systemColors (fst (setColorScheme name c))) = 16%nat
  /\ borderColor (fst (setColorScheme name c)) = bgColor (fst (setColorScheme name c))
  /\ forall c2,
      cursorFillColor c2 = cursorFillColor c ->
      setColorScheme name c2 = setColorScheme name c.
Proof.
  intros Hin. unfold schemes in Hin. simpl in Hin.
  destruct Hin as [<-|[<-|[<-|[<-|[<-|[<-|[<-|[<-|[]]]]]]]]];
    (split; [reflexivity|split; [reflexivity|split; [reflexivity|]]];
     intros c2 Hc2; unfold setColorScheme, chooseScheme; simpl;
     unfold plain, solarized; rewrite ?Hc2; reflexivity).
Qed.

Lemma setColorScheme_known_witness :
  let c := fst (setColorScheme "solarized-dark"
                  (mkColors [] (Config.mkColor 0 0 0) (Config.mkColor 0 0 0) false
                     (Config.mkColor 0 0 0) (Config.mkColor 0 0 0) (Config.mkColor 0 0 0)
                     (Config.mkColor 0 0 0))) in
  snd (setColorScheme "tango" c) = false
  /\ List.length (systemColors (fst (setColorScheme "tango" c))) = 16%nat.
Proof.
  cbv zeta.
  destruct (setColorScheme_known "tango"
              (fst (setColorScheme "solarized-dark"
                      (mkColors [] (Config.mkColor 0 0 0) (Config.mkColor 0 0 0) false
                         (Config.mkColor 0 0 0) (Config.mkColor 0 0 0) (Config.mkColor 0 0 0)
                         (Config.mkColor 0 0 0)))))
    as (H1 & H2 & _).
  - simpl. auto.
  - split; assumption.
Defined.

(** X9: a name the chain does not know logs the error and leaves the
    palette, the foreground, the background and the cursor fill as they
    are; the scrollbar and the border are still set from the background. *)
Theorem setColorScheme_unknown name c :
  ~ In name schemes ->
  let '(c', failed) := setColorScheme name c in
  failed = true
  /\ systemColors c' = systemColors c
  /\ fgColor c' = fgColor c /\ bgColor c' = bgColor c
  /\ customCursorFillColor c' = customCursorFillColor c
  /\ cursorFillColor c' = cursorFillColor c
  /\ scrollbarBgColor c' = bgColor c /\ borderColor c' = bgColor c.
Proof.
  intros Hnot. unfold setColorScheme, chooseScheme.
  repeat match goal with
         | |- context [String.eqb name ?s] =>
             destruct (String.eqb_spec name s) as [->|_];
             [exfalso; apply Hnot; simpl; tauto|]
         end.
  repeat split.
Qed.

Lemma setColorScheme_unknown_witness :
  snd (setColorScheme "gruvbox"
         (fst (setColorScheme "linux"
                 (mkColors [] (Config.mkColor 0 0 0) (Config.mkColor 0 0 0) false
                    (Config.mkColor 0 0 0) (Config.mkColor 0 0 0) (Config.mkColor 0 0 0)
                    (Config.mkColor 0 0 0))))) = true.
Proof.
  pose proof (setColorScheme_unknown "gruvbox"
                (fst (setColorScheme "linux"
                        (mkColors [] (Config.mkColor 0 0 0) (Config.mkColor 0 0 0) false
                           (Config.mkColor 0 0 0) (Config.mkColor 0 0 0)
                           (Config.mkColor 0 0 0) (Config.mkColor 0 0 0))))) as Hu.
  destruct (setColorScheme "gruvbox" _) as [c' failed].
  apply Hu. simpl. intros H. repeat (destruct H as [H|H]; [discriminate H|]). exact H.
Defined.

End Schemes.

(** *** Pixels and cells *)

Section ScreenGeometry.

Import Screen.

Lemma quot_cell a b : 0 <= a -> 0 < b -> b * Z.quot a b <= a < b * Z.quot a b + b.
Proof.
  intros Ha Hb. rewrite Z.quot_div_nonneg by lia.
  pose proof (Z.div_mod a b ltac:(lia)). pose proof (Z.mod_pos_bound a b Hb). lia.
Qed.

Lemma quot_of_cell b c d : 0 < b -> 0 <= c -> 0 <= d < b -> Z.quot (c * b + d) b = c.
Proof.
  intros Hb Hc Hd. rewrite Z.quot_div_nonneg by nia.
  symmetry. apply (Z.div_unique_pos _ _ c d); lia.
Qed.

Lemma rem_of_cell b c d : 0 < b -> 0 <= c -> 0 <= d < b -> Z.rem (c * b + d) b = d.
Proof.
  intros Hb Hc Hd. rewrite Z.rem_mod_nonneg by nia.
  symmetry. apply (Z.mod_unique_pos _ _ c d); lia.
Qed.

Lemma to_int16_small v : -32768 <= v < 32768 -> to_int16 v = v.
Proof. intros Hv. unfold to_int16. rewrite Z.mod_small by lia. lia. Qed.

(** X10: when [xy2Pos] answers that the pixel is within the grid, the
    position is a cell of the grid and the pixel lies in the rectangle
    [pos2XY] gives that cell. *)
Theorem xy2Pos_within_cell s x y hand p hand' :
  0 < fontWidth s -> 0 < fontHeight s ->
  xy2Pos s x y hand = Some (true, p, hand') ->
  (0 <= row p < getRows s /\ 0 <= col p < getCols s)
  /\ exists x0 y0,
      pos2XY s p = Some (x0, y0)
      /\ x0 <= x < x0 + fontWidth s /\ y0 <= y < y0 + fontHeight s.
Proof.
  intros Hw Hh. unfold xy2Pos, x2Col, y2Row. cbv zeta.
  destruct (Z.ltb_spec x (borderThickness s)) as [|Hx0];
    cbn [mbind option_bind].
  { repeat (destruct (_ <? _); cbn [ASSERT mbind option_bind]); intros [=]. }
  destruct (Z.ltb_spec x (borderThickness s + fontWidth s * getCols s)) as [Hx1|];
    cbn [mbind option_bind];
    [|repeat (destruct (_ <? _); cbn [ASSERT mbind option_bind]); intros [=]].
  destruct (Z.leb_spec (Z.quot (x - borderThickness s) (fontWidth s)) (getCols s));
    cbn [ASSERT mbind option_bind]; [|intros [=]].
  destruct (Z.ltb_spec y (borderThickness s)) as [|Hy0];
    cbn [mbind option_bind]; [intros [=]|].
  destruct (Z.ltb_spec y (borderThickness s + fontHeight s * getRows s)) as [Hy1|];
    cbn [mbind option_bind]; [|intros [=]].
  destruct (Z.ltb_spec (Z.quot (y - borderThickness s) (fontHeight s)) (getRows s));
    cbn [ASSERT mbind option_bind]; [|intros [=]].
  intros [= <- <-]. cbn [row col].
  pose proof (quot_cell (x - borderThickness s) (fontWidth s) ltac:(lia) Hw) as Hqx.
  pose proof (quot_cell (y - borderThickness s) (fontHeight s) ltac:(lia) Hh) as Hqy.
  assert (0 <= Z.quot (x - borderThickness s) (fontWidth s) < getCols s) by nia.
  assert (0 <= Z.quot (y - borderThickness s) (fontHeight s)) by nia.
  split; [lia|].
  unfold pos2XY. cbn [row col].
  destruct (Z.leb_spec (Z.quot (y - borderThickness s) (fontHeight s)) (getRows s)); [|lia].
  destruct (Z.leb_spec (Z.quot (x - borderThickness s) (fontWidth s)) (getCols s)); [|lia].
  cbn [ASSERT mbind option_bind]. eexists _, _. split; [reflexivity|]. lia.
Qed.

Lemma xy2Pos_within_cell_witness :
  let s := mkScreen 1 true 8 7 15 570 362 24 80 in
  xy2Pos s 30 40 LEFT = Some (true, mkPos 2 4, LEFT)
  /\ (0 <= 2 < 24 /\ 0 <= 4 < 80).
Proof.
  cbv zeta. split; [reflexivity|].
  apply (xy2Pos_within_cell (mkScreen 1 true 8 7 15 570 362 24 80) 30 40 LEFT
           (mkPos 2 4) LEFT); [simpl; lia|simpl; lia|reflexivity].
Defined.

(** X11: every pixel of the rectangle [pos2XY] gives a cell of the grid is
    taken back to that cell by [xy2Pos], within the grid; the hand is the
    right one beyond half the cell width. *)
Theorem pos2XY_xy2Pos s p :
  0 < fontWidth s -> 0 < fontHeight s ->
  0 <= row p < getRows s -> 0 <= col p < getCols s ->
  exists x y,
    pos2XY s p = Some (x, y)
    /\ forall dx dy hand,
        0 <= dx < fontWidth s -> 0 <= dy < fontHeight s ->
        xy2Pos s (x + dx) (y + dy) hand
        = Some (true, p,
                if Z.quot (fontWidth s) 2 <? dx then RIGHT else LEFT).
Proof.
  intros Hw Hh Hr Hc. destruct p as [r c]. cbn [row col] in *.
  unfold pos2XY. cbn [row col].
  destruct (Z.leb_spec r (getRows s)); [|lia].
  destruct (Z.leb_spec c (getCols s)); [|lia].
  cbn [ASSERT mbind option_bind]. eexists _, _. split; [reflexivity|].
  intros dx dy hand Hdx Hdy. unfold xy2Pos, x2Col, y2Row. cbv zeta.
  destruct (Z.ltb_spec (borderThickness s + c * fontWidth s + dx) (borderThickness s));
    [nia|].
  destruct (Z.ltb_spec (borderThickness s + c * fontWidth s + dx)
              (borderThickness s + fontWidth s * getCols s)); [|nia].
  replace (borderThickness s + c * fontWidth s + dx - borderThickness s)
    with (c * fontWidth s + dx) by lia.
  rewrite quot_of_cell, rem_of_cell by lia.
  destruct (Z.leb_spec c (getCols s)); [|lia].
  cbn [ASSERT mbind option_bind].
  destruct (Z.ltb_spec (borderThickness s + r * fontHeight s + dy) (borderThickness s));
    [nia|].
  destruct (Z.ltb_spec (borderThickness s + r * fontHeight s + dy)
              (borderThickness s + fontHeight s * getRows s)); [|nia].
  replace (borderThickness s + r * fontHeight s + dy - borderThickness s)
    with (r * fontHeight s + dy) by lia.
  rewrite quot_of_cell by lia.
  destruct (Z.ltb_spec r (getRows s)); [|lia].
  reflexivity.
Qed.

Lemma pos2XY_xy2Pos_witness :
  let s := mkScreen 1 true 8 7 15 570 362 24 80 in
  exists x y,
    pos2XY s (mkPos 2 4) = Some (x, y)
    /\ forall dx dy hand,
        0 <= dx < 7 -> 0 <= dy < 15 ->
        xy2Pos s (x + dx) (y + dy) hand
        = Some (true, mkPos 2 4, if Z.quot 7 2 <? dx then RIGHT else LEFT).
Proof.
  apply (pos2XY_xy2Pos (mkScreen 1 true 8 7 15 570 362 24 80) (mkPos 2 4)); simpl; lia.
Defined.

(** X12: [xy2Pos] runs to its end for every pixel, none of its ASSERTs
    fires, and the position it gives has its row in the grid and its column
    in the grid or one beyond the last. *)
Theorem xy2Pos_clamps s x y hand :
  0 < fontWidth s -> 0 < fontHeight s -> 0 < getRows s -> 0 <= getCols s ->
  exists within p hand',
    xy2Pos s x y hand = Some (within, p, hand')
    /\ 0 <= row p < getRows s /\ 0 <= col p <= getCols s.
Proof.
  intros Hw Hh Hr Hc. unfold xy2Pos, x2Col, y2Row. cbv zeta.
  assert (Hy : exists r within',
             forall within,
               (if y <? borderThickness s then Some (0, false)
                else if y <? borderThickness s + fontHeight s * getRows s
                     then _ ← ASSERT
                                (Z.quot (y - borderThickness s) (fontHeight s) <? getRows s);
                          Some (Z.quot (y - borderThickness s) (fontHeight s), within)
                     else Some (getRows s - 1, false))
               = Some (r, within' within) /\ 0 <= r < getRows s).
  { destruct (Z.ltb_spec y (borderThickness s)) as [|Hy0].
    { exists 0, (fun _ => false). intros _. split; [reflexivity|lia]. }
    destruct (Z.ltb_spec y (borderThickness s + fontHeight s * getRows s)) as [Hy1|].
    - pose proof (quot_cell (y - borderThickness s) (fontHeight s) ltac:(lia) Hh).
      exists (Z.quot (y - borderThickness s) (fontHeight s)), (fun w => w). intros w.
      destruct (Z.ltb_spec (Z.quot (y - borderThickness s) (fontHeight s)) (getRows s));
        [|nia].
      split; [reflexivity|nia].
    - exists (getRows s - 1), (fun _ => false). intros _. split; [reflexivity|lia]. }
  destruct Hy as (r & within' & Hy).
  destruct (Z.ltb_spec x (borderThickness s)) as [|Hx0]; cbn [mbind option_bind].
  { destruct (Hy false) as [-> ?]. cbn [mbind option_bind].
    eexists _, _, _. split; [reflexivity|]. cbn [row col]. lia. }
  destruct (Z.ltb_spec x (borderThickness s + fontWidth s * getCols s)) as [Hx1|];
    cbn [mbind option_bind].
  - pose proof (quot_cell (x - borderThickness s) (fontWidth s) ltac:(lia) Hw).
    destruct (Z.leb_spec (Z.quot (x - borderThickness s) (fontWidth s)) (getCols s));
      [|nia].
    cbn [ASSERT mbind option_bind]. destruct (Hy true) as [-> ?].
    cbn [mbind option_bind]. eexists _, _, _. split; [reflexivity|]. cbn [row col]. nia.
  - destruct (Hy false) as [-> ?]. cbn [mbind option_bind].
    eexists _, _, _. split; [reflexivity|]. cbn [row col]. lia.
Qed.

Lemma xy2Pos_clamps_witness :
  exists within p hand',
    xy2Pos (mkScreen 1 true 8 7 15 570 362 24 80) 9999 (-5) LEFT = Some (within, p, hand')
    /\ 0 <= row p < 24 /\ 0 <= col p <= 80.
Proof.
  apply (xy2Pos_clamps (mkScreen 1 true 8 7 15 570 362 24 80) 9999 (-5) LEFT); simpl; lia.
Defined.

(** X13: a window sized by [resizeToAccommodate(rows, cols)] is measured
    back as [rows] x [cols] by [sizeToRowsCols], as long as its width and
    height stay below 32768 pixels. *)
Theorem sizeToRowsCols_of_accommodated rows cols s :
  0 < fontWidth s -> 0 < fontHeight s ->
  0 <= borderThickness s -> 0 <= scrollbarWidth s ->
  0 < rows -> 0 < cols ->
  2 * borderThickness s + cols * fontWidth s + scrollbar_width s < 32768 ->
  2 * borderThickness s + rows * fontHeight s < 32768 ->
  sizeToRowsCols (accommodated rows cols s) = Some (rows, cols).
Proof.
  intros Hw Hh Hb Hsw Hrows Hcols Hx Hy.
  assert (Hsw' : 0 <= scrollbar_width s)
    by (unfold scrollbar_width; destruct (scrollbarVisible s); lia).
  assert (Hgeo : width (accommodated rows cols s)
                 = 2 * borderThickness s + cols * fontWidth s + scrollbar_width s
                 /\ height (accommodated rows cols s)
                    = 2 * borderThickness s + rows * fontHeight s
                 /\ borderThickness (accommodated rows cols s) = borderThickness s
                 /\ scrollbar_width (accommodated rows cols s) = scrollbar_width s
                 /\ fontWidth (accommodated rows cols s) = fontWidth s
                 /\ fontHeight (accommodated rows cols s) = fontHeight s).
  { unfold accommodated, resizeToAccommodate. cbv zeta.
    rewrite !to_uint16_small by nia.
    destruct (Z.eqb_spec (width s)
                (2 * borderThickness s + cols * fontWidth s + scrollbar_width s));
      destruct (Z.eqb_spec (height s) (2 * borderThickness s + rows * fontHeight s));
      cbn [negb orb]; repeat split; try reflexivity; assumption. }
  destruct Hgeo as (Hgw & Hgh & Hgb & Hgs & Hgfw & Hgfh).
  unfold sizeToRowsCols. cbv zeta. rewrite Hgw, Hgh, Hgb, Hgs, Hgfw, Hgfh.
  rewrite !to_uint16_small by nia.
  destruct (Z.leb_spec (2 * borderThickness s + scrollbar_width s + fontWidth s)
              (2 * borderThickness s + cols * fontWidth s + scrollbar_width s)); [|nia].
  destruct (Z.leb_spec (2 * borderThickness s + fontHeight s)
              (2 * borderThickness s + rows * fontHeight s)); [|nia].
  cbn [andb].
  replace (2 * borderThickness s + cols * fontWidth s + scrollbar_width s
           - (2 * borderThickness s + scrollbar_width s)) with (cols * fontWidth s + 0) by lia.
  replace (2 * borderThickness s + rows * fontHeight s - 2 * borderThickness s)
    with (rows * fontHeight s + 0) by lia.
  rewrite !(to_int16_small (_ * _ + 0)) by nia.
  rewrite !quot_of_cell by lia. rewrite !to_int16_small by nia.
  destruct (Z.ltb_spec 0 rows); [|lia]. destruct (Z.ltb_spec 0 cols); [|lia].
  reflexivity.
Qed.

Lemma sizeToRowsCols_of_accommodated_witness :
  sizeToRowsCols (accommodated 24 80 (mkScreen 1 true 8 7 15 0 0 1 1)) = Some (24, 80).
Proof.
  apply (sizeToRowsCols_of_accommodated 24 80 (mkScreen 1 true 8 7 15 0 0 1 1));
    unfold scrollbar_width; simpl; lia.
Defined.

(** X14: for a window whose width and height, less the border and the
    scrollbar, stay below 32768 pixels, the ASSERT of [sizeToRowsCols] holds:
    it gives at least one row and one column, and when the window holds a
    cell, the number of whole cells that fit. *)
Theorem sizeToRowsCols_positive s :
  0 < fontWidth s -> 0 < fontHeight s ->
  0 <= borderThickness s -> 0 <= scrollbarWidth s ->
  2 * borderThickness s + scrollbar_width s + fontWidth s < 65536 ->
  2 * borderThickness s + fontHeight s < 65536 ->
  width s - (2 * borderThickness s + scrollbar_width s) < 32768 ->
  height s - 2 * borderThickness s < 32768 ->
  exists rows cols,
    sizeToRowsCols s = Some (rows, cols) /\ 0 < rows /\ 0 < cols
    /\ (2 * borderThickness s + scrollbar_width s + fontWidth s <= width s ->
        2 * borderThickness s + fontHeight s <= height s ->
        cols * fontWidth s <= width s - (2 * borderThickness s + scrollbar_width s)
          < (cols + 1) * fontWidth s
        /\ rows * fontHeight s <= height s - 2 * borderThickness s
             < (rows + 1) * fontHeight s).
Proof.
  intros Hw Hh Hb Hsw Hbw Hbh Hx Hy.
  assert (Hsw' : 0 <= scrollbar_width s)
    by (unfold scrollbar_width; destruct (scrollbarVisible s); lia).
  unfold sizeToRowsCols. cbv zeta. rewrite !to_uint16_small by lia.
  destruct (Z.leb_spec (2 * borderThickness s + scrollbar_width s + fontWidth s) (width s));
    destruct (Z.leb_spec (2 * borderThickness s + fontHeight s) (height s));
    cbn [andb].
  2-4: cbn [ASSERT Z.ltb andb mbind option_bind]; eexists _, _;
       (split; [reflexivity|]); (split; [lia|]); (split; [lia|]); lia.
  rewrite !(to_int16_small (_ - _)) by lia.
  pose proof (quot_cell (width s - (2 * borderThickness s + scrollbar_width s))
                (fontWidth s) ltac:(lia) Hw) as Hqx.
  pose proof (quot_cell (height s - 2 * borderThickness s) (fontHeight s)
                ltac:(lia) Hh) as Hqy.
  rewrite !to_int16_small by nia.
  destruct (Z.ltb_spec 0 (Z.quot (height s - 2 * borderThickness s) (fontHeight s)));
    [|nia].
  destruct (Z.ltb_spec 0 (Z.quot (width s - (2 * borderThickness s + scrollbar_width s))
                            (fontWidth s))); [|nia].
  cbn [andb ASSERT mbind option_bind]. eexists _, _. split; [reflexivity|].
  split; [assumption|]. split; [assumption|]. intros _ _. nia.
Qed.

Lemma sizeToRowsCols_positive_witness :
  exists rows cols,
    sizeToRowsCols (mkScreen 1 true 8 7 15 573 370 24 80) = Some (rows, cols)
    /\ 0 < rows /\ 0 < cols.
Proof.
  destruct (sizeToRowsCols_positive (mkScreen 1 true 8 7 15 573 370 24 80))
    as (rows & cols & Hs & Hr & Hc & _); unfold scrollbar_width; simpl; try lia.
  exists rows, cols. auto.
Defined.

End ScreenGeometry.

(** *** What an operation leaves alone *)

(** A buffer call leaves the controller's own fields and the geometry of
    both buffers as they are. *)
Lemma bufCall_fields {C} `{BufferContent C} c (t t' : Terminal.Terminal C) r :
  Terminal.bufCall c t = (t', r) ->
  Terminal._cursor t' = Terminal._cursor t
  /\ Terminal._savedCursor t' = Terminal._savedCursor t
  /\ Terminal._tabs t' = Terminal._tabs t
  /\ Terminal._modes t' = Terminal._modes t
  /\ Terminal._dumpWrites t' = Terminal._dumpWrites t
  /\ Terminal._writeBuffer t' = Terminal._writeBuffer t
  /\ Terminal.env t' = Terminal.env t
  /\ Terminal._bufferIsAlt t' = Terminal._bufferIsAlt t
  /\ geom (Terminal._priBuffer t') = geom (Terminal._priBuffer t)
  /\ geom (Terminal._altBuffer t') = geom (Terminal._altBuffer t).
Proof.
  unfold Terminal.bufCall, Terminal.buffer, Terminal.set_buffer.
  destruct (Buffer_call c _) as [b r'] eqn:Hb. apply Buffer_call_geom in Hb.
  intros [= <- _]. destruct (Terminal._bufferIsAlt t) eqn:Ha; simpl; rewrite ?Ha; auto 12.
Qed.

Section Frame.

Context {C : Type} `{BufferContent C}.

Import Terminal.

(** A property of the controller that the steps named below keep; every
    operation is made of these steps. *)
Variable P : Terminal C -> Prop.

Hypothesis P_bufCall : forall c t t' r, bufCall c t = (t', r) -> P t -> P t'.
Hypothesis P_observe : forall c t, P t -> P (observe c t).
Hypothesis P_damage : forall v t, P t -> P (set_damage v t).
Hypothesis P_cursor : forall v t, P t -> P (set_cursor v t).
Hypothesis P_savedCursor : forall v t, P t -> P (set_savedCursor v t).
Hypothesis P_modes : forall v t, P t -> P (set_modes v t).
Hypothesis P_dispatch : forall v t, P t -> P (set_dispatch v t).
Hypothesis P_bufferIsAlt : forall v t, P t -> P (set_bufferIsAlt v t).
Hypothesis P_pressed : forall v t, P t -> P (set_pressed v t).
Hypothesis P_button : forall v t, P t -> P (set_button v t).
Hypothesis P_pointerPos : forall v t, P t -> P (set_pointerPos v t).
Hypothesis P_write : forall data t, P t -> P (write data t).
Hypothesis P_report : forall args t, P t -> P (deviceStatusReport args t).
Hypothesis P_flush : forall t t', flush t = Some t' -> P t -> P t'.
Hypothesis P_resize : forall rows cols t t', resize rows cols t = Some t' -> P t -> P t'.
Hypothesis P_tabs_set : forall i v t, P t -> P (set_tabs (<[i:=v]> (_tabs t)) t).
Hypothesis P_tabs_clear :
  forall t, P t -> P (set_tabs (replicate (length (_tabs t)) false) t).
Hypothesis P_tabs_reset : forall t, P t -> P (set_tabs (Tabs.Terminal_resetTabs (_tabs t)) t).
Hypothesis P_margins : forall b e t, P t -> P (set_buffer (setMargins b e (buffer t)) t).

Ltac along :=
  repeat match goal with
    | H : Some _ = Some _ |- _ => injection H as H
    | H : None = Some _ |- _ => discriminate H
    | H : (?m ≫= _) = Some _ |- _ =>
        let E := fresh "E" in
        destruct m eqn:E; [cbn [mbind option_bind] in H|discriminate H]
    | H : (if ?b then _ else _) = Some _ |- _ =>
        let E := fresh "E" in destruct b eqn:E
    | H : match ?x with _ => _ end = Some _ |- _ =>
        let E := fresh "E" in destruct x eqn:E
    end.

Lemma bufDo_frame c (t : Terminal C) : P t -> P (bufDo c t).
Proof. unfold bufDo. destruct (bufCall c t) eqn:Hb. simpl. eauto. Qed.

Lemma frame_if (b : bool) (t1 t2 : Terminal C) : P t1 -> P t2 -> P (if b then t1 else t2).
Proof. destruct b; auto. Qed.

Lemma foldl_frame {A} (f : Terminal C -> A -> Terminal C) (l : list A) (t : Terminal C) :
  (forall t a, P t -> P (f t a)) -> P t -> P (foldl f t l).
Proof. intros Hf. revert t. induction l; simpl; auto. Qed.

Lemma setMode_frame m v (t : Terminal C) : P t -> P (setMode m v t).
Proof. unfold setMode. auto. Qed.

Create HintDb frame.
#[local] Hint Resolve bufDo_frame frame_if setMode_frame P_bufCall P_observe P_damage
  P_cursor P_savedCursor P_modes P_dispatch P_bufferIsAlt P_pressed P_button P_pointerPos
  P_write P_report P_flush P_resize P_tabs_set P_tabs_clear P_tabs_reset P_margins : frame.

Ltac frame H := cbv zeta in H; along; subst; eauto 10 with frame.

Lemma damageCursor_frame (t t' : Terminal C) : damageCursor t = Some t' -> P t -> P t'.
Proof. unfold damageCursor. intros Hd Hp. frame Hd. Qed.
#[local] Hint Resolve damageCursor_frame : frame.

Lemma moveCursor_frame p (t t' : Terminal C) : moveCursor p t = Some t' -> P t -> P t'.
Proof. unfold moveCursor. intros Hd Hp. frame Hd. Qed.
#[local] Hint Resolve moveCursor_frame : frame.

Lemma moveCursorOriginMode_frame p (t t' : Terminal C) :
  moveCursorOriginMode p t = Some t' -> P t -> P t'.
Proof. unfold moveCursorOriginMode. eauto with frame. Qed.

Lemma tabCursor_frame dir count (t t' : Terminal C) :
  tabCursor dir count t = Some t' -> P t -> P t'.
Proof. unfold tabCursor. eauto with frame. Qed.

Lemma addLineOrDown_frame (t t' : Terminal C) : addLineOrDown t = Some t' -> P t -> P t'.
Proof. unfold addLineOrDown. intros Hd Hp. frame Hd. Qed.
#[local] Hint Resolve moveCursorOriginMode_frame tabCursor_frame addLineOrDown_frame : frame.

Lemma machineNormal_frame s (t t' : Terminal C) : machineNormal s t = Some t' -> P t -> P t'.
Proof. unfold machineNormal. intros Hd Hp. frame Hd. Qed.

Lemma machineControl_frame c (t t' : Terminal C) :
  machineControl c t = Some t' -> P t -> P t'.
Proof. unfold machineControl. intros Hd Hp. frame Hd. Qed.

Lemma resetAll_frame (t : Terminal C) : P t -> P (resetAll t).
Proof. intros Hp. unfold resetAll. cbv zeta. auto 10 with frame. Qed.
#[local] Hint Resolve resetAll_frame : frame.

Lemma machineEscape_frame c (t t' : Terminal C) :
  machineEscape c t = Some t' -> P t -> P t'.
Proof. unfold machineEscape. intros Hd Hp. frame Hd. Qed.

Lemma processAttributes_frame args (t t' : Terminal C) :
  processAttributes args t = Some t' -> P t -> P t'.
Proof. unfold processAttributes. intros Hd Hp. frame Hd. Qed.

Lemma requestResize_frame rows cols (t t' : Terminal C) :
  requestResize rows cols t = Some t' -> P t -> P t'.
Proof. unfold requestResize. intros Hd Hp. frame Hd. Qed.

Lemma saveOrRestoreCursor_frame set (t t' : Terminal C) :
  saveOrRestoreCursor set t = Some t' -> P t -> P t'.
Proof. unfold saveOrRestoreCursor. intros Hd Hp. frame Hd. Qed.
#[local] Hint Resolve requestResize_frame saveOrRestoreCursor_frame : frame.

Lemma alternateScreen_frame a set (t t' : Terminal C) :
  alternateScreen a set t = Some t' -> P t -> P t'.
Proof. unfold alternateScreen. intros Hd Hp. frame Hd. Qed.
#[local] Hint Resolve alternateScreen_frame : frame.

Lemma processMode_frame priv set a (t t' : Terminal C) :
  processMode priv set a t = Some t' -> P t -> P t'.
Proof. unfold processMode. intros Hd Hp. frame Hd. Qed.

Lemma processModes_frame priv set args (t t' : Terminal C) :
  processModes priv set args t = Some t' -> P t -> P t'.
Proof.
  revert t. induction args as [|a args IH]; simpl; intros t Hs Hp.
  - injection Hs as <-. assumption.
  - along. eauto using processMode_frame.
Qed.

Lemma setTopBottomMargins_frame args (t t' : Terminal C) :
  setTopBottomMargins args t = Some t' -> P t -> P t'.
Proof. unfold setTopBottomMargins. intros Hd Hp. frame Hd. Qed.
#[local] Hint Resolve processModes_frame setTopBottomMargins_frame machineNormal_frame
  machineControl_frame machineEscape_frame processAttributes_frame : frame.

Lemma machineCsi_frame priv args code (t t' : Terminal C) :
  machineCsi priv args code t = Some t' -> P t -> P t'.
Proof. unfold machineCsi. intros Hd Hp. frame Hd. Qed.

Lemma machineSpecial_frame special code (t t' : Terminal C) :
  machineSpecial special code t = Some t' -> P t -> P t'.
Proof.
  unfold machineSpecial. intros Hs Hp. cbv zeta in Hs. along; subst; eauto with frame.
  apply foldl_frame; auto with frame.
Qed.

Lemma machineOsc_frame code args (t t' : Terminal C) :
  machineOsc code args t = Some t' -> P t -> P t'.
Proof. unfold machineOsc. intros Hd Hp. frame Hd. Qed.

Lemma dispatch_frame e (t t' : Terminal C) : dispatch e t = Some t' -> P t -> P t'.
Proof.
  destruct e; simpl; intros Hd Hp;
    eauto using machineNormal_frame, machineControl_frame, machineEscape_frame,
      machineCsi_frame, machineOsc_frame, machineSpecial_frame.
  injection Hd as <-. assumption.
Qed.

Lemma draw_frame b e d (t t' : Terminal C) : draw b e d t = Some t' -> P t -> P t'.
Proof.
  unfold draw. intros Hd Hp. cbv zeta in Hd. along; subst.
  all: apply P_damage, foldl_frame; auto with frame.
Qed.
#[local] Hint Resolve draw_frame dispatch_frame : frame.

Lemma fixDamage_frame b e d (t t' : Terminal C) : fixDamage b e d t = Some t' -> P t -> P t'.
Proof.
  unfold fixDamage. intros Hd Hp.
  destruct (Damager_eqb d TTY && Config._scrollOnTtyOutput (_config t)).
  - destruct (bufCall CScrollBottomHistory t) as [t0 scrolled] eqn:Hb.
    apply P_bufCall in Hb; [|assumption]. frame Hd.
  - frame Hd.
Qed.

Lemma fixDamageAll_frame d (t t' : Terminal C) : fixDamageAll d t = Some t' -> P t -> P t'.
Proof. unfold fixDamageAll. eauto using fixDamage_frame. Qed.
#[local] Hint Resolve fixDamage_frame fixDamageAll_frame : frame.

Lemma processChar_frame ev (t t' : Terminal C) : processChar ev t = Some t' -> P t -> P t'.
Proof. unfold processChar. intros Hd Hp. frame Hd. Qed.

Lemma processRead_frame chars (t t' : Terminal C) :
  processRead chars t = Some t' -> P t -> P t'.
Proof.
  revert t. induction chars as [|ev chars IH]; simpl; intros t Hs Hp.
  - injection Hs as <-. assumption.
  - along. eauto using processChar_frame.
Qed.
#[local] Hint Resolve processRead_frame : frame.

Lemma read_frame chars exited (t t' : Terminal C) :
  read chars exited t = Some t' -> P t -> P t'.
Proof. unfold read. intros Hd Hp. destruct exited; frame Hd. Qed.

Lemma scrollAndFix_frame c (t t' : Terminal C) : scrollAndFix c t = Some t' -> P t -> P t'.
Proof.
  unfold scrollAndFix. intros Hd Hp. destruct (bufCall c t) as [t0 changed] eqn:Hb.
  apply P_bufCall in Hb; [|assumption]. frame Hd.
Qed.

Lemma copySelection_frame clipboard (t : Terminal C) : P t -> P (copySelection clipboard t).
Proof. intros Hp. unfold copySelection. destruct (getSelectedText _); auto with frame. Qed.
#[local] Hint Resolve scrollAndFix_frame copySelection_frame : frame.

Lemma handleKeyBinding_frame k m (t t' : Terminal C) handled :
  handleKeyBinding k m t = Some (t', handled) -> P t -> P t'.
Proof. unfold handleKeyBinding. intros Hd Hp. frame Hd. Qed.
#[local] Hint Resolve handleKeyBinding_frame : frame.

Lemma keyPress_frame k m potent converted (t t' : Terminal C) :
  keyPress k m potent converted t = Some t' -> P t -> P t'.
Proof. unfold keyPress. intros Hd Hp. frame Hd. Qed.

Lemma writeReport_frame str (t : Terminal C) : P t -> P (writeReport str t).
Proof. intros Hp. unfold writeReport. destruct (negb _); auto with frame. Qed.
#[local] Hint Resolve writeReport_frame : frame.

Lemma buttonPress_frame b count m within p (t t' : Terminal C) :
  buttonPress b count m within p t = Some t' -> P t -> P t'.
Proof. unfold buttonPress. intros Hd Hp. frame Hd. Qed.

Lemma buttonMotion_frame m within p (t t' : Terminal C) :
  buttonMotion m within p t = Some t' -> P t -> P t'.
Proof. unfold buttonMotion. intros Hd Hp. frame Hd. Qed.

Lemma buttonRelease_frame broken m (t t' : Terminal C) :
  buttonRelease broken m t = Some t' -> P t -> P t'.
Proof. unfold buttonRelease. intros Hd Hp. frame Hd. Qed.

Lemma scrollWheel_frame d m (t t' : Terminal C) :
  scrollWheel d m t = Some t' -> P t -> P t'.
Proof. unfold scrollWheel. intros Hd Hp. frame Hd. Qed.

Lemma paste_frame data (t t' : Terminal C) : paste data t = Some t' -> P t -> P t'.
Proof.
  unfold paste. intros Hd Hp. cbv zeta in Hd. along; subst.
  repeat first [apply P_write | apply frame_if]; eauto with frame.
Qed.

Lemma clearSelection_frame (t t' : Terminal C) : clearSelection t = Some t' -> P t -> P t'.
Proof. unfold clearSelection. eauto with frame. Qed.

(** Every public operation that returns keeps the property. *)
Lemma step_frame o (t t' : Terminal C) : step o t = Some t' -> P t -> P t'.
Proof.
  destruct o; simpl; intros Hs Hp;
    eauto using keyPress_frame, buttonPress_frame, buttonMotion_frame, buttonRelease_frame,
      scrollWheel_frame, paste_frame, clearSelection_frame, read_frame, fixDamage_frame.
Qed.

Lemma steps_frame ops (t t' : Terminal C) : steps ops t = Some t' -> P t -> P t'.
Proof.
  revert t. induction ops as [|o ops IH]; simpl; intros t Hs Hp.
  - injection Hs as <-. assumption.
  - along. eauto using step_frame.
Qed.

End Frame.

(** *** The bytes on their way to the pty *)

Section Stream.

Context {C : Type} `{BufferContent C}.

Import Terminal.

(** X15: a run of [write] calls loses no byte and keeps the order: unless
    the pty raised an error, what the pty has taken followed by what is
    queued grows by exactly the data of the calls, one after the other, at
    its end. *)
Theorem writes_keep_the_stream ds (t : Terminal C) :
  _dumpWrites t = false ->
  _dumpWrites (writes ds t) = false ->
  ttyOut (env (writes ds t)) ++ _writeBuffer (writes ds t)
  = ttyOut (env t) ++ _writeBuffer t ++ concat ds.
Proof.
  revert t. induction ds as [|d ds IH]; intros t Hd Hd'.
  - simpl. rewrite app_nil_r. reflexivity.
  - change (writes (d :: ds) t) with (writes ds (write d t)) in *.
    assert (Hd1 : _dumpWrites (write d t) = false).
    { destruct (_dumpWrites (write d t)) eqn:E; [|reflexivity].
      rewrite (writes_when_dumping _ ds E) in Hd'. congruence. }
    rewrite (IH (write d t) Hd1 Hd'), app_assoc, (write_conserves d t Hd Hd1).
    simpl. rewrite <- !app_assoc. reflexivity.
Qed.

(** X16: [flush] hands the pty a front part of the queue and keeps the rest:
    unless the pty raised an error, what the pty has taken followed by what
    is queued is what it was. *)
Theorem flush_keeps_the_stream (t t' : Terminal C) :
  flush t = Some t' ->
  _dumpWrites t' = false ->
  ttyOut (env t') ++ _writeBuffer t' = ttyOut (env t) ++ _writeBuffer t.
Proof.
  unfold flush.
  destruct (negb (_dispatch t)); cbn [ASSERT mbind option_bind]; [|discriminate].
  destruct (needsFlush t); cbn [ASSERT mbind option_bind]; [|discriminate].
  destruct (negb (_dumpWrites t)); cbn [ASSERT mbind option_bind]; [|discriminate].
  destruct (ttyWriteLoop _ _ _) as [s o rest|s o] eqn:Hl; intros [= <-]; [|discriminate].
  intros _. simpl. eauto using ttyWriteLoop_conserves.
Qed.

Lemma write_keeps_dumping data (t : Terminal C) :
  _dumpWrites t = true -> _dumpWrites (write data t) = true.
Proof. intros Hd. unfold write. rewrite Hd. assumption. Qed.

Lemma write_modes data (t : Terminal C) : _modes (write data t) = _modes t.
Proof.
  unfold write. destruct (_dumpWrites t); [reflexivity|].
  destruct (_writeBuffer t); [destruct (ttyWriteLoop _ _ _)|]; reflexivity.
Qed.

(** X17: in bracketed-paste mode [paste] sends [ESC [ 2 0 0 ~], the data
    and [ESC [ 2 0 1 ~], in this order, behind what is queued; unless the
    pty raised an error, no byte of the three is lost. *)
Theorem paste_brackets_the_data data (t t' : Terminal C) :
  mode BRACKETED_PASTE t = true ->
  _dumpWrites t = false ->
  paste data t = Some t' ->
  _dumpWrites t' = false ->
  ttyOut (env t') ++ _writeBuffer t'
  = ttyOut (env t) ++ _writeBuffer t
      ++ [ESC; chr "["; chr "2"; chr "0"; chr "0"; chr "~"] ++ data
      ++ [ESC; chr "["; chr "2"; chr "0"; chr "1"; chr "~"].
Proof.
  intros Hm Hd. unfold paste.
  destruct (scrollAndFix CScrollBottomHistory t) as [t0|] eqn:Hs; [|discriminate].
  cbn [mbind option_bind]. cbv zeta.
  assert (Hst : streamIs false (ttyOut (env t)) (_writeBuffer t) (_modes t) t0).
  { apply (scrollAndFix_frame (streamIs false (ttyOut (env t)) (_writeBuffer t) (_modes t)))
      with (c := CScrollBottomHistory) (t := t);
      [ intros c u u' r Hb Hp;
        destruct (bufCall_fields c u u' r Hb) as (_ & _ & _ & Hm1 & Hd1 & Hq1 & He1 & _);
        unfold streamIs in *; rewrite Hm1, Hd1, Hq1, He1; exact Hp
      | intros ? ? Hp; exact Hp | intros ? ? Hp; exact Hp | assumption
      | repeat split; assumption ]. }
  destruct Hst as (Hd0 & Ho0 & Hq0 & Hm0).
  assert (Hmode0 : mode BRACKETED_PASTE t0 = true) by (unfold mode in *; congruence).
  rewrite Hmode0.
  set (t1 := write [ESC; chr "["; chr "2"; chr "0"; chr "0"; chr "~"] t0).
  set (t2 := write data t1).
  assert (Hmode2 : mode BRACKETED_PASTE t2 = true).
  { unfold mode, t2, t1. rewrite !write_modes. exact Hmode0. }
  rewrite Hmode2. intros [= <-] Hd3.
  assert (Hd2 : _dumpWrites t2 = false).
  { destruct (_dumpWrites t2) eqn:E; [|reflexivity].
    rewrite write_keeps_dumping in Hd3; [discriminate|assumption]. }
  assert (Hd1 : _dumpWrites t1 = false).
  { destruct (_dumpWrites t1) eqn:E; [|reflexivity].
    unfold t2 in Hd2. rewrite write_keeps_dumping in Hd2; [discriminate|assumption]. }
  rewrite (write_conserves _ t2 Hd2 Hd3).
  unfold t2 at 1 2. rewrite app_assoc, (write_conserves _ t1 Hd1 Hd2).
  unfold t1 at 1 2. rewrite app_assoc, (write_conserves _ t0 Hd0 Hd1).
  rewrite Ho0, Hq0, <- !app_assoc. reflexivity.
Qed.

End Stream.

(** *** Where the cursor goes *)

Section CursorCommands.

Context {C : Type} `{BufferContent C}.

Import Terminal.

(** A buffer call leaves the controller's own fields and the geometry of
    the current buffer as they are. *)
Lemma bufDo_fields c (t : Terminal C) :
  _cursor (bufDo c t) = _cursor t /\ _savedCursor (bufDo c t) = _savedCursor t
  /\ _tabs (bufDo c t) = _tabs t /\ _modes (bufDo c t) = _modes t
  /\ geom (buffer (bufDo c t)) = geom (buffer t).
Proof.
  unfold bufDo, bufCall, buffer, set_buffer.
  destruct (Buffer_call c _) as [b r] eqn:Hb. apply Buffer_call_geom in Hb.
  destruct (_bufferIsAlt t) eqn:Ha; simpl; rewrite ?Ha; auto.
Qed.

(** [moveCursor] under the invariant: it runs to its end, puts the cursor
    at the clamped position and clears [wrapNext]. *)
Lemma moveCursor_result p (t : Terminal C) :
  Inv t ->
  exists t',
    moveCursor p t = Some t'
    /\ _cursor t'
       = Cursor_setWrapNext false
           (Cursor_setPos
              (mkPos (if originMode (_cursor t)
                      then clamp (row p) (getMarginBegin (buffer t)) (getMarginEnd (buffer t) - 1)
                      else clamp (row p) 0 (getRows (buffer t) - 1))
                     (clamp (col p) 0 (getCols (buffer t) - 1)))
              (_cursor t))
    /\ _savedCursor t' = _savedCursor t /\ _tabs t' = _tabs t /\ _modes t' = _modes t
    /\ geom (buffer t') = geom (buffer t).
Proof.
  intros Hi. unfold moveCursor, damageCursor.
  destruct (cursor_asserts t Hi) as [-> ->]. cbn [mbind option_bind].
  destruct (bufDo_fields (CDamageCell (pos (_cursor t))) t) as (Hc & Hs & Ht & Hm & Hg).
  eexists. split; [reflexivity|].
  destruct (Inv_buffer t Hi) as ((Hrows & Hcols & Hmb & Hme & Hmr) & _ & _).
  unfold getMarginBegin, getMarginEnd, getRows, getCols. rewrite Hg, Hc.
  assert (Hcc := clamp_range (col p) 0 (gCols (geom (buffer t)) - 1)).
  assert (Hrr := clamp_range (row p) (gMarginBegin (geom (buffer t)))
                   (gMarginEnd (geom (buffer t)) - 1)).
  assert (Hr0 := clamp_range (row p) 0 (gRows (geom (buffer t)) - 1)).
  split; [|unfold buffer, set_cursor in *; simpl; auto].
  cbn [_cursor set_cursor].
  destruct (originMode (_cursor t)); rewrite !to_uint16_small by lia; reflexivity.
Qed.

(** The forward loop of [tabCursor] for one stop: it ends at the first stop
    beyond the column, or at the last column. *)
Lemma tabForward_next n tabs cols c0 :
  0 <= c0 < cols -> cols < 65536 -> (Z.to_nat (cols - c0) <= n)%nat ->
  let c' := tabForward n tabs cols c0 1 in
  c0 <= c' < cols
  /\ (forall c, c0 < c < c' -> tabAt tabs c = false)
  /\ (c0 < c' /\ tabAt tabs c' = true \/ c' = cols - 1).
Proof.
  revert c0. induction n as [|n IH]; intros c0 Hc0 Hcols Hn; [lia|].
  cbn [tabForward]. cbn [Z.eqb]. rewrite (to_uint16_small (c0 + 1)) by lia.
  destruct (Z.eqb_spec (c0 + 1) cols) as [He|Hne].
  - rewrite to_uint16_small by lia. cbv zeta. split; [lia|]. split; [intros; lia|]. right. lia.
  - destruct (tabAt tabs (c0 + 1)) eqn:Ht.
    + change (to_uint16 (1 - 1)) with 0.
      replace (tabForward n tabs cols (c0 + 1) 0) with (c0 + 1)
        by (destruct n; reflexivity).
      cbv zeta. split; [lia|]. split; [intros; lia|]. left. split; [lia|assumption].
    + specialize (IH (c0 + 1) ltac:(lia) Hcols ltac:(lia)). cbv zeta in IH |- *.
      destruct IH as (Hr & Hno & Hend). split; [lia|]. split.
      * intros c Hc. destruct (Z.eq_dec c (c0 + 1)) as [->|]; [assumption|]. apply Hno. lia.
      * destruct Hend as [[? ?]|?]; [left; split; [lia|assumption]|right; assumption].
Qed.

(** The backward loop for one stop: the first stop before the column, or
    column 0. *)
Lemma tabBackward_previous n tabs c0 :
  0 <= c0 < 65536 -> (Z.to_nat c0 <= n)%nat ->
  let c' := tabBackward n tabs c0 1 in
  0 <= c' <= c0
  /\ (forall c, c' < c < c0 -> tabAt tabs c = false)
  /\ (c' < c0 /\ tabAt tabs c' = true \/ c' = 0).
Proof.
  revert c0. induction n as [|n IH]; intros c0 Hc0 Hn.
  - assert (c0 = 0) as -> by lia. simpl. split; [lia|]. split; [intros; lia|]. right. reflexivity.
  - cbn [tabBackward]. cbn [Z.eqb].
    destruct (Z.eqb_spec c0 0) as [->|Hne].
    { cbv zeta. split; [lia|]. split; [intros; lia|]. right. reflexivity. }
    rewrite (to_uint16_small (c0 - 1)) by lia.
    destruct (tabAt tabs (c0 - 1)) eqn:Ht.
    + change (to_uint16 (1 - 1)) with 0.
      replace (tabBackward n tabs (c0 - 1) 0) with (c0 - 1)
        by (destruct n; reflexivity).
      cbv zeta. split; [lia|]. split; [intros; lia|]. left. split; [lia|assumption].
    + specialize (IH (c0 - 1) ltac:(lia) ltac:(lia)). cbv zeta in IH |- *.
      destruct IH as (Hr & Hno & Hend). split; [lia|]. split.
      * intros c Hc. destruct (Z.eq_dec c (c0 - 1)) as [->|]; [assumption|]. apply Hno. lia.
      * destruct Hend as [[? ?]|?]; [left; split; [lia|assumption]|right; assumption].
Qed.

(** X18: the control character HT moves the cursor to the first tab stop
    to the right of it, or to the last column when there is none, and clears
    [wrapNext]. *)
Theorem tab_moves_to_next_stop (t : Terminal C) :
  Inv t ->
  exists t',
    machineControl HT t = Some t'
    /\ wrapNext (_cursor t') = false
    /\ let c0 := col (pos (_cursor t)) in
       let c' := col (pos (_cursor t')) in
       c0 <= c' < getCols (buffer t)
       /\ (forall c, c0 < c < c' -> tabAt (_tabs t) c = false)
       /\ (c0 < c' /\ tabAt (_tabs t) c' = true \/ c' = getCols (buffer t) - 1).
Proof.
  intros Hi. unfold machineControl. change (HT =? BEL) with false.
  change (HT =? HT) with true. cbv iota. unfold tabCursor. cbv zeta.
  change (to_uint16 1) with 1.
  destruct (Inv_cursorInGrid t Hi) as (_ & Hcol).
  destruct (Inv_buffer t Hi) as ((_ & Hcols & _) & _ & _).
  fold (getCols (buffer t)) in Hcols.
  pose proof (tabForward_next (Z.to_nat (getCols (buffer t) - col (pos (_cursor t))))
                (_tabs t) (getCols (buffer t)) (col (pos (_cursor t)))
                Hcol ltac:(lia) ltac:(lia)) as Hf.
  cbv zeta in Hf.
  set (c1 := tabForward (Z.to_nat (getCols (buffer t) - col (pos (_cursor t))))
               (_tabs t) (getCols (buffer t)) (col (pos (_cursor t))) 1) in *.
  destruct (moveCursor_result (atCol (pos (_cursor t)) c1) t Hi) as (t' & -> & Hc & _).
  exists t'. split; [reflexivity|]. rewrite Hc. split; [reflexivity|].
  cbn [pos col Cursor_setWrapNext Cursor_setPos atCol].
  unfold clamp.
  destruct (Z.ltb_spec c1 0); [lia|].
  destruct (Z.ltb_spec (getCols (buffer t) - 1) c1); [lia|].
  exact Hf.
Qed.

(** X19: [CSI Z] moves the cursor to the first tab stop to the left of it,
    or to column 0 when there is none. *)
Theorem back_tab_moves_to_previous_stop (t : Terminal C) :
  Inv t ->
  exists t',
    machineCsi false [] (chr "Z") t = Some t'
    /\ wrapNext (_cursor t') = false
    /\ let c0 := col (pos (_cursor t)) in
       let c' := col (pos (_cursor t')) in
       0 <= c' <= c0
       /\ (forall c, c' < c < c0 -> tabAt (_tabs t) c = false)
       /\ (c' < c0 /\ tabAt (_tabs t) c' = true \/ c' = 0).
Proof.
  intros Hi.
  assert (Hcsi : machineCsi false [] (chr "Z") t = tabCursor BACKWARD 1 t) by reflexivity.
  rewrite Hcsi. unfold tabCursor. cbv zeta. change (to_uint16 1) with 1.
  destruct (Inv_cursorInGrid t Hi) as (_ & Hcol).
  destruct (Inv_buffer t Hi) as ((_ & Hcols & _) & _ & _).
  fold (getCols (buffer t)) in Hcols.
  pose proof (tabBackward_previous (Z.to_nat (col (pos (_cursor t)))) (_tabs t)
                (col (pos (_cursor t))) ltac:(lia) ltac:(lia)) as Hf.
  cbv zeta in Hf.
  set (c1 := tabBackward (Z.to_nat (col (pos (_cursor t)))) (_tabs t)
               (col (pos (_cursor t))) 1) in *.
  destruct (moveCursor_result (atCol (pos (_cursor t)) c1) t Hi) as (t' & -> & Hc & _).
  exists t'. split; [reflexivity|]. rewrite Hc. split; [reflexivity|].
  cbn [pos col Cursor_setWrapNext Cursor_setPos atCol].
  unfold clamp.
  destruct (Z.ltb_spec c1 0); [lia|].
  destruct (Z.ltb_spec (getCols (buffer t) - 1) c1); [lia|].
  exact Hf.
Qed.

End CursorCommands.

(** *** Positions, margins and the saved cursor *)

Section PositionCommands.

Context {C : Type} `{BufferContent C}.

Import Terminal.

Lemma set_buffer_fields b (t : Terminal C) :
  buffer (set_buffer b t) = b /\ _cursor (set_buffer b t) = _cursor t.
Proof. unfold buffer, set_buffer. destruct (_bufferIsAlt t) eqn:E; simpl; rewrite E; auto. Qed.

(** X20: [CSI r ; c H], with [r] and [c] small enough for the row and the
    column asked for to fit the 16 bits of a [Pos] field, puts the cursor at
    row [r] and column [c], counted from 1 and from the top margin in origin
    mode, and no further than the last row (the bottom margin in origin mode)
    and the last column. *)
Theorem cursor_position_command r c (t : Terminal C) :
  Inv t -> 1 <= r -> 1 <= c ->
  r + getMarginBegin (buffer t) <= 65536 -> c <= 65536 ->
  exists t',
    machineCsi false [r; c] (chr "H") t = Some t'
    /\ wrapNext (_cursor t') = false
    /\ col (pos (_cursor t')) = Z.min (c - 1) (getCols (buffer t) - 1)
    /\ row (pos (_cursor t'))
       = if originMode (_cursor t)
         then Z.min (getMarginBegin (buffer t) + (r - 1)) (getMarginEnd (buffer t) - 1)
         else Z.min (r - 1) (getRows (buffer t) - 1).
Proof.
  intros Hi Hr Hc _ _.
  assert (Hcsi : machineCsi false [r; c] (chr "H") t
                 = moveCursorOriginMode (mkPos (r - 1) (c - 1)) t) by reflexivity.
  rewrite Hcsi. unfold moveCursorOriginMode.
  destruct (moveCursor_result
              (down (mkPos (r - 1) (c - 1))
                 (if originMode (_cursor t) then getMarginBegin (buffer t) else 0)) t Hi)
    as (t' & -> & Hcur & _).
  exists t'. split; [reflexivity|]. rewrite Hcur.
  cbn [wrapNext pos row col Cursor_setWrapNext Cursor_setPos down].
  destruct (Inv_buffer t Hi) as ((Hrows & Hcols & Hmb & Hme & Hmr) & _ & _).
  unfold getRows, getCols, getMarginBegin, getMarginEnd.
  split; [reflexivity|]. unfold clamp. split.
  - destruct (Z.ltb_spec (c - 1) 0); [lia|].
    destruct (Z.ltb_spec (gCols (geom (buffer t)) - 1) (c - 1)); lia.
  - destruct (originMode (_cursor t)).
    + destruct (Z.ltb_spec (r - 1 + gMarginBegin (geom (buffer t)))
                  (gMarginBegin (geom (buffer t)))); [lia|].
      destruct (Z.ltb_spec (gMarginEnd (geom (buffer t)) - 1)
                  (r - 1 + gMarginBegin (geom (buffer t)))); lia.
    + destruct (Z.ltb_spec (r - 1 + 0) 0); [lia|].
      destruct (Z.ltb_spec (gRows (geom (buffer t)) - 1) (r - 1 + 0)); lia.
Qed.

(** X21: [CSI top ; bottom r] with [1 <= top < bottom <= rows] sets the
    margins to the rows [top] to [bottom], counted from 1, and homes the
    cursor: to the top margin in origin mode, to row 0 otherwise. *)
Theorem set_margins_command top bottom (t : Terminal C) :
  Inv t -> 1 <= top -> top < bottom -> bottom <= getRows (buffer t) ->
  exists t',
    machineCsi false [top; bottom] (chr "r") t = Some t'
    /\ getMarginBegin (buffer t') = top - 1
    /\ getMarginEnd (buffer t') = bottom
    /\ getRows (buffer t') = getRows (buffer t)
    /\ pos (_cursor t') = mkPos (if originMode (_cursor t) then top - 1 else 0) 0.
Proof.
  intros Hi Htop Hlt Hbot.
  assert (Hcsi : machineCsi false [top; bottom] (chr "r") t
                 = setTopBottomMargins [top; bottom] t) by reflexivity.
  rewrite Hcsi. unfold setTopBottomMargins. cbn [isEmpty]. cbv zeta.
  unfold nthArgNonZero, nthArg. cbn [lookup list_lookup].
  destruct (Z.eqb_spec top 0); [lia|]. destruct (Z.eqb_spec bottom 0); [lia|].
  unfold clamp at 1 2 3 4.
  destruct (Z.ltb_spec (top - 1) 0); [lia|].
  destruct (Z.ltb_spec (getRows (buffer t) - 1) (top - 1)); [lia|].
  destruct (Z.ltb_spec (bottom - 1) 0); [lia|].
  destruct (Z.ltb_spec (getRows (buffer t) - 1) (bottom - 1)); [lia|].
  destruct (Z.ltb_spec (top - 1) (bottom - 1)); [|lia].
  replace (bottom - 1 + 1) with bottom by lia.
  set (t1 := set_buffer (setMargins (top - 1) bottom (buffer t)) t).
  assert (Hi1 : Inv t1) by (apply Inv_set_margins; [lia|lia|assumption|assumption]).
  destruct (set_buffer_fields (setMargins (top - 1) bottom (buffer t)) t) as [Hb1 Hc1].
  fold t1 in Hb1, Hc1.
  unfold moveCursorOriginMode.
  destruct (moveCursor_result
              (down Pos0 (if originMode (_cursor t1) then getMarginBegin (buffer t1) else 0))
              t1 Hi1) as (t' & -> & Hcur & _ & _ & _ & Hg).
  exists t'. split; [reflexivity|].
  unfold getMarginBegin, getMarginEnd, getRows, getCols in *. rewrite Hg, Hb1.
  cbn [geom setMargins gMarginBegin gMarginEnd gRows].
  repeat (split; [reflexivity|]).
  rewrite Hcur, Hc1, Hb1. cbn [pos Cursor_setWrapNext Cursor_setPos down Pos0 row col].
  cbn [geom setMargins gMarginBegin gMarginEnd gRows gCols].
  destruct (Inv_buffer t Hi) as ((Hrows & Hcols & _) & _ & _).
  unfold getCols. unfold clamp.
  destruct (Z.ltb_spec 0 0); [lia|].
  destruct (Z.ltb_spec (gCols (geom (buffer t)) - 1) 0); [lia|].
  unfold getRows.
  destruct (originMode (_cursor t)).
  - destruct (Z.ltb_spec (0 + (top - 1)) (top - 1)); [lia|].
    destruct (Z.ltb_spec (bottom - 1) (0 + (top - 1))); [lia|].
    reflexivity.
  - destruct (Z.ltb_spec (0 + 0) 0); [lia|].
    destruct (Z.ltb_spec (gRows (geom (buffer t)) - 1) (0 + 0)); [lia|]. reflexivity.
Qed.

(** X22: a printed character, with no wrap pending, moves the cursor one
    column to the right; in the last column the cursor stays and the wrap
    becomes pending. *)
Theorem printing_advances_the_cursor s (t : Terminal C) :
  Inv t -> wrapNext (_cursor t) = false ->
  exists t',
    machineNormal s t = Some t'
    /\ if col (pos (_cursor t)) =? getCols (buffer t) - 1
       then pos (_cursor t') = pos (_cursor t) /\ wrapNext (_cursor t') = true
       else col (pos (_cursor t')) = col (pos (_cursor t)) + 1
            /\ wrapNext (_cursor t') = false
            /\ (originMode (_cursor t) = false ->
                row (pos (_cursor t')) = row (pos (_cursor t))).
Proof.
  intros Hi Hw. unfold machineNormal. cbv zeta. rewrite Hw. cbn [andb mbind option_bind].
  destruct (cursor_asserts t Hi) as [-> ->]. cbn [mbind option_bind].
  set (s' := if (length s =? 1)%nat then translate (lead s) s t else s).
  set (t0 := if mode INSERT t then bufDo (CInsertCells (pos (_cursor t)) 1) t else t).
  assert (H0 : Inv t0 /\ _cursor t0 = _cursor t /\ geom (buffer t0) = geom (buffer t)).
  { unfold t0. destruct (mode INSERT t); [|auto].
    destruct (bufDo_fields (CInsertCells (pos (_cursor t)) 1) t) as (? & _ & _ & _ & ?).
    auto using bufDo_Inv. }
  destruct H0 as (Hi0 & Hc0 & Hg0).
  set (t1 := bufDo (CSetCell (pos (_cursor t0)) (Cell_utf8 s' (style (_cursor t0)))) t0).
  assert (H1 : Inv t1 /\ _cursor t1 = _cursor t /\ geom (buffer t1) = geom (buffer t)).
  { unfold t1.
    destruct (bufDo_fields (CSetCell (pos (_cursor t0)) (Cell_utf8 s' (style (_cursor t0)))) t0)
      as (? & _ & _ & _ & ?).
    split; [auto using bufDo_Inv|]. split; congruence. }
  destruct H1 as (Hi1 & Hc1 & Hg1).
  unfold getCols. rewrite Hc1, Hg1.
  destruct (Inv_cursorInGrid t Hi) as ((Hr0 & Hr1) & (Hcl0 & Hcl1)).
  destruct (Inv_buffer t Hi) as ((Hrows & Hcols & _) & _ & _).
  unfold getCols, getRows in *.
  destruct (Z.eqb_spec (col (pos (_cursor t))) (gCols (geom (buffer t)) - 1)) as [He|Hne].
  - cbn [mbind option_bind _cursor set_cursor].
    change (buffer (set_cursor (Cursor_setWrapNext true (_cursor t)) t1)) with (buffer t1).
    rewrite Hg1. cbn [pos Cursor_setWrapNext col].
    destruct (Z.ltb_spec (col (pos (_cursor t))) (gCols (geom (buffer t)))); [|lia].
    cbn [ASSERT mbind option_bind]. eexists. split; [reflexivity|].
    cbn [_cursor set_cursor]. split; reflexivity.
  - destruct (moveCursor_result (right (pos (_cursor t)) 1) t1 Hi1)
      as (t' & -> & Hcur & _ & _ & _ & Hg).
    cbn [mbind option_bind]. unfold getCols, getRows, getMarginBegin, getMarginEnd in *.
    rewrite Hg, Hcur, Hc1, !Hg1.
    cbn [pos Cursor_setWrapNext Cursor_setPos right row col wrapNext].
    unfold clamp.
    destruct (Z.ltb_spec (col (pos (_cursor t)) + 1) 0); [lia|].
    destruct (Z.ltb_spec (gCols (geom (buffer t)) - 1) (col (pos (_cursor t)) + 1)); [lia|].
    destruct (Z.ltb_spec (col (pos (_cursor t)) + 1) (gCols (geom (buffer t)))); [|lia].
    cbn [ASSERT mbind option_bind]. eexists. split; [reflexivity|].
    rewrite Hcur, Hc1, !Hg1.
    cbn [pos Cursor_setWrapNext Cursor_setPos right row col wrapNext].
    unfold clamp.
    destruct (Z.ltb_spec (col (pos (_cursor t)) + 1) 0); [lia|].
    destruct (Z.ltb_spec (gCols (geom (buffer t)) - 1) (col (pos (_cursor t)) + 1)); [lia|].
    repeat split. intros ->.
    destruct (Z.ltb_spec (row (pos (_cursor t))) 0); [lia|].
    destruct (Z.ltb_spec (gRows (geom (buffer t)) - 1) (row (pos (_cursor t)))); [lia|].
    reflexivity.
Qed.

Lemma saved_bufCall (sc : Cursor) c (u u' : Terminal C) r :
  bufCall c u = (u', r) -> _savedCursor u = sc -> _savedCursor u' = sc.
Proof. intros Hb Hp. destruct (bufCall_fields c u u' r Hb) as (_ & -> & _). exact Hp. Qed.

(** Printing characters and C0 controls leave the saved cursor alone. *)
Lemma processRead_keeps_saved chars (t t' : Terminal C) :
  Forall printing chars -> processRead chars t = Some t' ->
  _savedCursor t' = _savedCursor t.
Proof.
  intros Hp. revert t. induction Hp as [|ev chars Hev _ IH]; intros t.
  - intros [= <-]. reflexivity.
  - cbn [processRead]. unfold processChar.
    destruct (match ev with Some e => dispatch e t | None => Some t end) as [t1|] eqn:Hd;
      [|discriminate].
    cbn [mbind option_bind].
    assert (H1 : _savedCursor t1 = _savedCursor t).
    { destruct ev as [[s|c| | | | | ]|]; try contradiction.
      - exact (machineNormal_frame (fun u => _savedCursor u = _savedCursor t)
                 (saved_bufCall _) (fun _ _ Hp => Hp) _ _ _ Hd eq_refl).
      - exact (machineControl_frame (fun u => _savedCursor u = _savedCursor t)
                 (saved_bufCall _) (fun _ _ Hp => Hp) _ _ _ Hd eq_refl).
      - injection Hd as <-. reflexivity. }
    destruct (if Config._syncTty (_config t1) then fixDamageAll TTY t1 else Some t1)
      as [t2|] eqn:Hf; [|discriminate].
    cbn [mbind option_bind].
    assert (H2 : _savedCursor t2 = _savedCursor t).
    { destruct (Config._syncTty (_config t1)).
      - exact (fixDamageAll_frame (fun u => _savedCursor u = _savedCursor t)
                 (saved_bufCall _) (fun _ _ Hp => Hp) (fun _ _ Hp => Hp) _ _ _ Hf H1).
      - injection Hf as <-. assumption. }
    intros Hrest.
    repeat match type of Hrest with
           | (?m ≫= _) = Some _ =>
               destruct m; cbn [mbind option_bind] in Hrest; [|discriminate Hrest]
           end. apply IH in Hrest. congruence.
Qed.

(** X23: [ESC 7] followed, after any run of printing characters and C0
    controls, by [ESC 8] brings back the cursor as it was saved: position,
    pending wrap, origin mode, style and character sets. *)
Theorem save_and_restore_cursor chars (t t1 t2 t3 : Terminal C) :
  Forall printing chars ->
  machineEscape (chr "7") t = Some t1 ->
  processRead chars t1 = Some t2 ->
  machineEscape (chr "8") t2 = Some t3 ->
  _cursor t3 = _cursor t.
Proof.
  intros Hp H7 Hr H8.
  assert (Hs1 : machineEscape (chr "7") t = Some (set_savedCursor (_cursor t) t))
    by reflexivity.
  rewrite Hs1 in H7. injection H7 as <-.
  apply processRead_keeps_saved in Hr; [|assumption]. cbn [_savedCursor set_savedCursor] in Hr.
  assert (Hs8 : machineEscape (chr "8") t2
                = (t ← damageCursor t2; Some (set_cursor (_savedCursor t) t)))
    by reflexivity.
  rewrite Hs8 in H8.
  destruct (damageCursor t2) as [t2'|] eqn:Hd; cbn [mbind option_bind] in H8;
    [|discriminate H8].
  injection H8 as <-. cbn [_cursor set_cursor].
  rewrite (damageCursor_frame (fun u => _savedCursor u = _savedCursor t2)
             (saved_bufCall _) _ _ Hd eq_refl).
  exact Hr.
Qed.

End PositionCommands.

(** *** The runs of a repainted row *)

Section DrawnRuns.

Context {C : Type} `{BufferContent C}.

Import Terminal.

Lemma tiles_app r from l1 l2 :
  tiles r from (l1 ++ l2) = tiles r from l1 ≫= fun m => tiles r m l2.
Proof.
  revert from. induction l1 as [|c l1 IH]; intros from; [reflexivity|].
  destruct c; try reflexivity. simpl.
  destruct ((row p =? r) && (col p =? from) && (0 <? count)); [apply IH|reflexivity].
Qed.

Lemma runBytes_app l1 l2 : runBytes (l1 ++ l2) = runBytes l1 ++ runBytes l2.
Proof. unfold runBytes. apply bind_app. Qed.

Lemma runBytes_run p st l n : runBytes [terminalDrawRun p st (l ++ [0]) n] = l.
Proof.
  unfold runBytes. simpl. rewrite app_nil_r, length_app. simpl.
  replace (length l + 1 - 1)%nat with (length l) by lia.
  apply take_app_length.
Qed.

Lemma cellBytes_snoc (b : C) r from to :
  from <= to ->
  cellBytes b r from (to + 1) = cellBytes b r from to ++ seqBytes (getCell b (mkPos r to)).
Proof.
  intros Hle. unfold cellBytes.
  replace (to + 1 - from) with ((to - from) + 1) by lia.
  rewrite seqZ_app by lia. rewrite bind_app.
  replace (from + (to - from)) with to by lia.
  change (seqZ to 1) with [to]. simpl. rewrite app_nil_r. reflexivity.
Qed.

Lemma drawCell_gathered reverse (b : C) r cb c log s :
  cb <= c ->
  gathered b r cb c log s ->
  gathered b r cb (c + 1) log (drawCell reverse r c (getCell b (mkPos r c)) s).
Proof.
  intros Hle (done & Hcalls & Htiles & Hrun & Hbytes).
  unfold drawCell, flushRun.
  destruct (isEmpty (run s)) eqn:He.
  - cbn [orb]. exists done. cbn [calls run c_].
    rewrite isEmpty_seqBytes. repeat split; try assumption; try lia.
    rewrite cellBytes_snoc by lia. rewrite <- Hbytes.
    destruct (run s); [|discriminate]. rewrite app_nil_r. reflexivity.
  - specialize (Hrun eq_refl). cbn [orb].
    destruct (negb (bool_decide (runStyle s = cell_style (getCell b (mkPos r c))))).
    + exists (done ++ [terminalDrawRun (mkPos r (c_ s)) (runStyle s) (run s ++ [0])
                         (c - c_ s)]).
      cbn [calls run c_]. rewrite isEmpty_seqBytes.
      split; [rewrite Hcalls, app_assoc; reflexivity|].
      split.
      { rewrite tiles_app, Htiles. cbn [mbind option_bind tiles row col].
        rewrite !Z.eqb_refl. destruct (Z.ltb_spec 0 (c - c_ s)); [|lia].
        cbn [andb]. f_equal. lia. }
      split; [intros _; lia|].
      rewrite runBytes_app, cellBytes_snoc by lia. rewrite <- Hbytes, runBytes_run.
      reflexivity.
    + exists done. cbn [calls run c_].
      assert (Hne : isEmpty (run s ++ seqBytes (getCell b (mkPos r c))) = false)
        by (destruct (run s); [discriminate|reflexivity]).
      rewrite Hne. split; [assumption|]. split; [assumption|]. split; [intros _; lia|].
      rewrite cellBytes_snoc by lia. rewrite <- Hbytes, app_assoc. reflexivity.
Qed.

Lemma drawCols_gathered n reverse (b : C) r cb log :
  forall c s,
    0 <= cb <= c -> c + Z.of_nat n < 65536 ->
    gathered b r cb c log s ->
    fst (drawCols n reverse b r c s) = c + Z.of_nat n
    /\ gathered b r cb (c + Z.of_nat n) log (snd (drawCols n reverse b r c s)).
Proof.
  induction n as [|n IH]; intros c s Hc Hn Hg.
  - simpl. rewrite Z.add_0_r. auto.
  - cbn [drawCols]. rewrite to_uint16_small by lia.
    destruct (IH (c + 1) (drawCell reverse r c (getCell b (mkPos r c)) s))
      as [Hfst Hsnd]; [lia|lia|apply drawCell_gathered; [lia|assumption]|].
    replace (c + Z.of_nat (S n)) with (c + 1 + Z.of_nat n) by lia. auto.
Qed.

(** X24: the [terminalDrawRun] calls [draw] makes for a row tile the columns
    it repaints: each run starts where the one before it ended, the first
    at the first column and the last ending at the end column, none is
    empty, and their strings are, in order, the bytes of the cells. *)
Theorem drawn_runs_tile_the_columns begin_ end_ damage reverse (b : C) r dmg log cb ce :
  match damage with TTY => getDamage b r | _ => (col begin_, col end_) end = (cb, ce) ->
  0 <= cb <= ce -> ce < 65536 ->
  exists runs,
    snd (drawRow begin_ end_ damage reverse b r (dmg, log)) = log ++ runs
    /\ tiles r cb runs = Some ce
    /\ runBytes runs = cellBytes b r cb ce.
Proof.
  intros Hcols Hle Hce. unfold drawRow. rewrite Hcols.
  destruct (if col (rBegin dmg) =? col (rEnd dmg) then _ else _) as [bc ec].
  destruct (if negb (cb =? ce) then _ else _) as [br er].
  rewrite to_uint16_small by lia.
  destruct (drawCols_gathered (Z.to_nat (ce - cb)) reverse b r cb log cb
              (mkRunState [] 0 Style_normal log)) as [Hfst Hsnd]; [lia|lia| |].
  { exists []. cbn [calls run isEmpty]. rewrite app_nil_r.
    split; [reflexivity|]. split; [reflexivity|]. split; [discriminate|].
    unfold cellBytes. rewrite Z.sub_diag. reflexivity. }
  destruct (drawCols (Z.to_nat (ce - cb)) reverse b r cb (mkRunState [] 0 Style_normal log))
    as [c s].
  cbn [fst snd] in *. replace (cb + Z.of_nat (Z.to_nat (ce - cb))) with ce in * by lia.
  subst c. destruct Hsnd as (done & Hcalls & Htiles & Hrun & Hbytes).
  unfold flushRun. destruct (isEmpty (run s)) eqn:He.
  - exists done. split; [assumption|]. split; [assumption|].
    rewrite <- Hbytes. destruct (run s); [|discriminate]. rewrite app_nil_r. reflexivity.
  - specialize (Hrun eq_refl).
    exists (done ++ [terminalDrawRun (mkPos r (c_ s)) (runStyle s) (run s ++ [0]) (ce - c_ s)]).
    cbn [calls]. split; [rewrite Hcalls, app_assoc; reflexivity|]. split.
    + rewrite tiles_app, Htiles. cbn [mbind option_bind tiles row col].
      rewrite !Z.eqb_refl. destruct (Z.ltb_spec 0 (ce - c_ s)); [|lia].
      cbn [andb]. f_equal. lia.
    + rewrite runBytes_app, runBytes_run. exact Hbytes.
Qed.

End DrawnRuns.

(** *** Every operation, from the constructor on *)

Section EveryOperation.

Context {C : Type} `{BufferContent C}.

Import Terminal.

Ltac along :=
  repeat match goal with
    | H : Some _ = Some _ |- _ => injection H as H
    | H : None = Some _ |- _ => discriminate H
    | H : (?m ≫= _) = Some _ |- _ =>
        let E := fresh "E" in
        destruct m eqn:E; [cbn [mbind option_bind] in H|discriminate H]
    | H : (if ?b then _ else _) = Some _ |- _ =>
        let E := fresh "E" in destruct b eqn:E
    | H : match ?x with _ => _ end = Some _ |- _ =>
        let E := fresh "E" in destruct x eqn:E
    end.

(** The loop that sets the stops looks at the length of the vector only. *)
Lemma Terminal_resetTabs_length tabs1 tabs2 :
  length tabs1 = length tabs2 ->
  Tabs.Terminal_resetTabs tabs1 = Tabs.Terminal_resetTabs tabs2.
Proof.
  intros Hlen. apply list_eq. intros i. unfold Tabs.Terminal_resetTabs.
  rewrite !list_lookup_imap.
  destruct (tabs1 !! i) as [x|] eqn:E1; destruct (tabs2 !! i) as [y|] eqn:E2;
    try reflexivity.
  - apply lookup_lt_Some in E1. apply lookup_ge_None in E2. lia.
  - apply lookup_lt_Some in E2. apply lookup_ge_None in E1. lia.
Qed.

Lemma resize_fields rows cols (t t' : Terminal C) :
  resize rows cols t = Some t' ->
  _tabs t' = Tabs.Terminal_resetTabs (Tabs.fresh cols)
  /\ getCols (_priBuffer t') = cols
  /\ _dumpWrites t' = _dumpWrites t /\ env t' = env t
  /\ col (pos (_cursor t')) = clamp (col (pos (_cursor t))) 0 (to_uint16 (cols - 1))
  /\ wrapNext (_cursor t')
     = wrapNext (_cursor t) && (col (pos (_cursor t)) =? cols - 1).
Proof.
  intros Hr. unfold resize, Buffer_resize in Hr.
  destruct (ASSERT ((0 <? rows) && (0 <? cols))) eqn:Hpos; [|discriminate Hr].
  cbn [mbind option_bind] in Hr.
  assert (Htabs : forall tabs : list bool,
             Tabs.Terminal_resetTabs (list.resize (Z.to_nat cols) false tabs)
             = Tabs.Terminal_resetTabs (Tabs.fresh cols)).
  { intros tabs. apply Terminal_resetTabs_length. unfold Tabs.fresh.
    rewrite length_resize, length_replicate. reflexivity. }
  assert (Hw : forall c : Cursor,
             wrapNext (if wrapNext c && negb (col (pos c) =? cols - 1)
                       then Cursor_setWrapNext false c else c)
             = wrapNext c && (col (pos c) =? cols - 1)
             /\ pos (if wrapNext c && negb (col (pos c) =? cols - 1)
                     then Cursor_setWrapNext false c else c) = pos c).
  { intros c. destruct (wrapNext c) eqn:E1; destruct (col (pos c) =? cols - 1) eqn:E2;
      simpl; rewrite ?E1; auto. }
  destruct (Hw (_cursor t)) as [Hw1 Hw2].
  destruct (_bufferIsAlt t); cbv beta iota zeta in Hr; along; subst;
    cbn [_tabs _priBuffer _cursor _dumpWrites env set_tabs set_savedCursor set_cursor
         set_altBuffer set_priBuffer getCols geom gCols pos Cursor_setPos col wrapNext];
    rewrite Htabs, ?Hw2; repeat split; assumption.
Qed.

(** X25: [resize] sets the tab stops anew, as the constructor does for the
    new number of columns, whatever stops were set before; it keeps the
    cursor column or moves it to the last column, and keeps a pending wrap
    only for a cursor in what is the last column after the resize. *)
Theorem resize_resets_the_tab_stops rows cols (t t' : Terminal C) :
  Inv t -> cols < 65536 ->
  resize rows cols t = Some t' ->
  _tabs t' = Tabs.Terminal_resetTabs (Tabs.fresh cols)
  /\ col (pos (_cursor t')) = Z.min (col (pos (_cursor t))) (cols - 1)
  /\ (wrapNext (_cursor t') = true
      <-> wrapNext (_cursor t) = true /\ col (pos (_cursor t)) = cols - 1).
Proof.
  intros Hi Hcols Hr.
  assert (Hpos : 0 < cols).
  { unfold resize in Hr. destruct (Z.ltb_spec 0 cols); [assumption|].
    rewrite andb_false_r in Hr. discriminate Hr. }
  destruct (resize_fields rows cols t t' Hr) as (Ht & _ & _ & _ & Hc & Hw).
  destruct (Inv_cursor t Hi) as (_ & Hc0 & _).
  split; [assumption|]. split.
  - rewrite Hc, to_uint16_small by lia. unfold clamp.
    destruct (Z.ltb_spec (col (pos (_cursor t))) 0); [lia|].
    destruct (Z.ltb_spec (cols - 1) (col (pos (_cursor t)))); lia.
  - rewrite Hw, andb_true_iff, Z.eqb_eq. reflexivity.
Qed.

Lemma ptyClosed_bufCall o c (u u' : Terminal C) r :
  bufCall c u = (u', r) -> ptyClosed o u -> ptyClosed o u'.
Proof.
  intros Hb Hp. destruct (bufCall_fields c u u' r Hb) as (_ & _ & _ & _ & Hd & _ & He & _).
  unfold ptyClosed in *. rewrite Hd, He. exact Hp.
Qed.

Lemma ptyClosed_step o op (t t' : Terminal C) :
  step op t = Some t' -> ptyClosed o t -> ptyClosed o t'.
Proof.
  apply (step_frame (ptyClosed o)); try (intros; assumption).
  - apply ptyClosed_bufCall.
  - intros data u Hp. rewrite write_when_dumping; [exact Hp|apply Hp].
  - intros args u Hp. unfold deviceStatusReport.
    destruct (isEmpty args); [exact Hp|].
    destruct (_ =? 5); [exact Hp|]. destruct (_ =? 6); exact Hp.
  - intros u u' Hf [Hd _]. unfold flush in Hf. rewrite Hd in Hf.
    destruct (ASSERT (negb (_dispatch u))); [|discriminate Hf].
    destruct (ASSERT (needsFlush u)); discriminate Hf.
  - intros rows cols u u' Hr Hp.
    destruct (resize_fields rows cols u u' Hr) as (_ & _ & Hd & He & _).
    unfold ptyClosed in *. rewrite Hd, He. exact Hp.
  - intros b e u Hp. unfold set_buffer. destruct (_bufferIsAlt u); exact Hp.
Qed.

(** X26: once writes are dropped, no public operation hands the pty another
    byte or clears the flag, whatever the operations are. *)
Theorem drop_writes_is_permanent ops (t t' : Terminal C) :
  _dumpWrites t = true ->
  steps ops t = Some t' ->
  _dumpWrites t' = true /\ ttyOut (env t') = ttyOut (env t).
Proof.
  intros Hd. revert t Hd. induction ops as [|op ops IH]; simpl; intros t Hd Hs.
  - injection Hs as <-. auto.
  - destruct (step op t) as [t1|] eqn:Hstep; [|discriminate Hs].
    cbn [mbind option_bind] in Hs.
    destruct (ptyClosed_step (ttyOut (env t)) op t t1 Hstep) as [Hd1 Ho1];
      [split; [assumption|reflexivity]|].
    destruct (IH t1 Hd1 Hs) as [Hd' Ho']. split; congruence.
Qed.

Lemma new_tabsSpan config rows cols (pri alt : C) e :
  tabsSpan (new config rows cols pri alt e).
Proof.
  unfold tabsSpan, new, Tabs.Terminal_resetTabs, Tabs.fresh. simpl.
  rewrite length_imap, length_replicate. reflexivity.
Qed.

Lemma tabsSpan_step op (t t' : Terminal C) :
  step op t = Some t' -> tabsSpan t -> tabsSpan t'.
Proof.
  apply (step_frame tabsSpan); try (intros; assumption).
  - intros c u u' r Hb Hp.
    destruct (bufCall_fields c u u' r Hb) as (_ & _ & Ht & _ & _ & _ & _ & _ & Hg & _).
    unfold tabsSpan, getCols in *. rewrite Ht, Hg. exact Hp.
  - intros data u Hp. unfold write. destruct (_dumpWrites u); [exact Hp|].
    destruct (_writeBuffer u); [destruct (ttyWriteLoop _ _ _)|]; exact Hp.
  - intros args u Hp. unfold deviceStatusReport.
    destruct (isEmpty args); [exact Hp|].
    destruct (_ =? 5); [exact Hp|]. destruct (_ =? 6); exact Hp.
  - intros u u' Hf Hp. unfold flush in Hf. along; subst; exact Hp.
  - intros rows cols u u' Hr _.
    destruct (resize_fields rows cols u u' Hr) as (Ht & Hc & _).
    unfold tabsSpan. rewrite Ht, Hc. unfold Tabs.Terminal_resetTabs, Tabs.fresh.
    rewrite length_imap, length_replicate. reflexivity.
  - intros i v u Hp. unfold tabsSpan in *. cbn [_tabs _priBuffer set_tabs].
    rewrite length_insert. exact Hp.
  - intros u Hp. unfold tabsSpan in *. cbn [_tabs _priBuffer set_tabs].
    rewrite length_replicate. exact Hp.
  - intros u Hp. unfold tabsSpan in *. cbn [_tabs _priBuffer set_tabs].
    unfold Tabs.Terminal_resetTabs. rewrite length_imap. exact Hp.
  - intros b e u Hp. unfold tabsSpan, set_buffer, buffer, setMargins, getCols in *.
    destruct (_bufferIsAlt u); exact Hp.
Qed.

(** X27: after every public operation, from the constructor on, [_tabs]
    has one entry for each column of the screen, so the entry of the cursor
    column, which [ESC H] and [CSI g] write and the tab loops read, exists. *)
Theorem tab_stops_span_the_columns config (rows cols : Z) (pri alt : C) (e : Env)
        (ops : list Op) (t : Terminal C) :
  0 < rows < 65536 ->
  0 < cols < 65536 ->
  steps ops (new config rows cols pri alt e) = Some t ->
  length (_tabs t) = Z.to_nat (getCols (buffer t))
  /\ is_Some (_tabs t !! Z.to_nat (col (pos (_cursor t)))).
Proof.
  intros Hr Hc Hs.
  assert (Hi : Inv t) by (eapply steps_Inv; [eassumption|apply new_Inv; assumption]).
  assert (Ht : tabsSpan t).
  { revert Hs. generalize (new_tabsSpan config rows cols pri alt e).
    generalize (new config rows cols pri alt e). clear Hi.
    induction ops as [|op ops IH]; simpl; intros t0 Ht0 Hs.
    - injection Hs as <-. assumption.
    - destruct (step op t0) as [t1|] eqn:Hstep; [|discriminate Hs].
      eauto using tabsSpan_step. }
  destruct (Inv_buffer t Hi) as (_ & _ & Hcols).
  destruct (Inv_cursorInGrid t Hi) as (_ & Hcol).
  unfold tabsSpan in Ht. rewrite Hcols. split; [assumption|].
  apply lookup_lt_is_Some_2. rewrite Ht, <- Hcols. lia.
Qed.

(** X28: a key that a binding handles sends nothing to the program: the
    bytes the pty has taken and the queue are as they were. *)
Theorem bound_keys_send_nothing k m potent converted (t t1 t' : Terminal C) :
  handleKeyBinding k m t = Some (t1, true) ->
  keyPress k m potent converted t = Some t' ->
  t' = t1
  /\ ttyOut (env t') = ttyOut (env t)
  /\ _writeBuffer t' = _writeBuffer t
  /\ _dumpWrites t' = _dumpWrites t.
Proof.
  intros Hh Hk. unfold keyPress in Hk. rewrite Hh in Hk.
  cbn [mbind option_bind negb andb] in Hk. injection Hk as <-.
  split; [reflexivity|].
  apply (handleKeyBinding_frame
           (fun u => ttyOut (env u) = ttyOut (env t)
                     /\ _writeBuffer u = _writeBuffer t
                     /\ _dumpWrites u = _dumpWrites t)) with (k := k) (m := m) (t := t)
           (handled := true);
    [ intros c u u' r Hb Hp;
      destruct (bufCall_fields c u u' r Hb) as (_ & _ & _ & _ & Hd & Hq & He & _);
      rewrite Hd, Hq, He; exact Hp
    | intros ? ? Hp; exact Hp | intros ? ? Hp; exact Hp | assumption | auto ].
Qed.

End EveryOperation.

(** *** Tabs, one after the other *)

Section TabsCompose.

Context {C : Type} `{BufferContent C}.

Import Terminal.

Lemma tabForward_done n tabs cols c : tabForward n tabs cols c 0 = c.
Proof. destruct n; reflexivity. Qed.

(** The forward loop stays within the screen. *)
Lemma tabForward_range n tabs cols c count :
  0 <= c < cols -> cols < 65536 ->
  c <= tabForward n tabs cols c count < cols.
Proof.
  revert c count. induction n as [|n IH]; intros c count Hc Hcols; [simpl; lia|].
  cbn [tabForward]. destruct (count =? 0); [lia|].
  rewrite (to_uint16_small (c + 1)) by lia.
  destruct (Z.eqb_spec (c + 1) cols); [rewrite to_uint16_small by lia; lia|].
  specialize (IH (c + 1) (if tabAt tabs (c + 1) then to_uint16 (count - 1) else count)
                ltac:(lia) Hcols). lia.
Qed.

(** Passes beyond the distance to the last column change nothing. *)
Lemma tabForward_fuel n m tabs cols c count :
  0 <= c < cols -> cols < 65536 ->
  (Z.to_nat (cols - c) <= n)%nat -> (Z.to_nat (cols - c) <= m)%nat ->
  tabForward n tabs cols c count = tabForward m tabs cols c count.
Proof.
  revert m c count. induction n as [|n IH]; intros m c count Hc Hcols Hn Hm; [lia|].
  destruct m as [|m]; [lia|]. cbn [tabForward].
  destruct (count =? 0); [reflexivity|].
  rewrite (to_uint16_small (c + 1)) by lia.
  destruct (Z.eqb_spec (c + 1) cols); [reflexivity|].
  apply IH; lia.
Qed.

(** [count + 1] stops are one stop and then [count] stops. *)
Lemma tabForward_split n m k tabs cols c count :
  0 <= c < cols -> cols < 65536 -> 1 <= count -> count + 1 < 65536 ->
  (Z.to_nat (cols - c) <= n)%nat -> (Z.to_nat (cols - c) <= m)%nat ->
  (Z.to_nat (cols - tabForward m tabs cols c 1) <= k)%nat ->
  tabForward n tabs cols c (count + 1)
  = tabForward k tabs cols (tabForward m tabs cols c 1) count.
Proof.
  revert m k c. induction n as [|n IH]; intros m k c Hc Hcols Hcount Hmax Hn Hm Hk; [lia|].
  destruct m as [|m]; [lia|].
  cbn [tabForward] in *.
  destruct (Z.eqb_spec (count + 1) 0); [lia|]. cbn [Z.eqb] in *.
  rewrite (to_uint16_small (c + 1)) in * by lia.
  destruct (Z.eqb_spec (c + 1) cols) as [He|Hne].
  - rewrite to_uint16_small in * by lia.
    destruct k as [|k]; [lia|]. cbn [tabForward].
    destruct (Z.eqb_spec count 0); [lia|].
    replace (c + 1 - 1 + 1) with cols by lia. rewrite (to_uint16_small cols) by lia.
    rewrite Z.eqb_refl, to_uint16_small by lia. lia.
  - destruct (tabAt tabs (c + 1)) eqn:Ht.
    + change (to_uint16 (1 - 1)) with 0 in *. rewrite tabForward_done in *.
      replace (count + 1 - 1) with count by lia. rewrite (to_uint16_small count) by lia.
      apply tabForward_fuel; lia.
    + apply IH; lia.
Qed.

Lemma clamp_clamp v lo hi : lo <= hi -> clamp (clamp v lo hi) lo hi = clamp v lo hi.
Proof.
  intros Hle. unfold clamp.
  destruct (Z.ltb_spec v lo).
  - destruct (Z.ltb_spec lo lo); [lia|]. destruct (Z.ltb_spec hi lo); [lia|reflexivity].
  - destruct (Z.ltb_spec hi v).
    + destruct (Z.ltb_spec hi lo); [lia|]. destruct (Z.ltb_spec hi hi); [lia|reflexivity].
    + destruct (Z.ltb_spec v lo); [lia|]. destruct (Z.ltb_spec hi v); [lia|reflexivity].
Qed.

Lemma clamp_id v lo hi : lo <= v <= hi -> clamp v lo hi = v.
Proof.
  intros Hv. unfold clamp. destruct (Z.ltb_spec v lo); [lia|].
  destruct (Z.ltb_spec hi v); [lia|reflexivity].
Qed.

(** X29: a forward tab over [count + 1] stops leaves the cursor where one
    tab followed by a tab over [count] stops leaves it: [CSI n I] moves the
    cursor as [n] characters HT do. *)
Theorem tabs_compose count (t t1 t2 t3 : Terminal C) :
  Inv t -> 1 <= count -> count + 1 < 65536 ->
  tabCursor FORWARD (count + 1) t = Some t1 ->
  tabCursor FORWARD 1 t = Some t2 ->
  tabCursor FORWARD count t2 = Some t3 ->
  _cursor t3 = _cursor t1.
Proof.
  intros Hi Hcount Hmax H1 H2 H3. unfold tabCursor in H1, H2, H3. cbv zeta in H1, H2, H3.
  rewrite (to_uint16_small (count + 1)) in H1 by lia.
  change (to_uint16 1) with 1 in H2. rewrite (to_uint16_small count) in H3 by lia.
  destruct (Inv_cursorInGrid t Hi) as (_ & Hcol).
  destruct (Inv_buffer t Hi) as ((Hrows & Hcols & Hmb & Hme & Hmr) & _ & _).
  fold (getCols (buffer t)) in Hcols. fold (getRows (buffer t)) in Hrows.
  fold (getMarginBegin (buffer t)) in Hmb. fold (getMarginEnd (buffer t)) in Hme, Hmr.
  fold (getMarginBegin (buffer t)) in Hme. fold (getRows (buffer t)) in Hmr.
  set (c0 := col (pos (_cursor t))) in *. set (cols := getCols (buffer t)) in *.
  set (a := tabForward (Z.to_nat (cols - c0)) (_tabs t) cols c0 1) in *.
  assert (Ha : c0 <= a < cols) by (apply tabForward_range; lia).
  destruct (moveCursor_result (atCol (pos (_cursor t)) a) t Hi)
    as (u2 & Hu2 & Hc2 & _ & Ht2 & _ & Hg2).
  rewrite Hu2 in H2. injection H2 as ->.
  assert (Hi2 : Inv t2) by (eapply moveCursor_Inv; eassumption).
  destruct (moveCursor_result
              (atCol (pos (_cursor t))
                 (tabForward (Z.to_nat (cols - c0)) (_tabs t) cols c0 (count + 1))) t Hi)
    as (u1 & Hu1 & Hc1 & _).
  rewrite Hu1 in H1. injection H1 as ->.
  destruct (moveCursor_result
              (atCol (pos (_cursor t2))
                 (tabForward (Z.to_nat (getCols (buffer t2) - col (pos (_cursor t2))))
                    (_tabs t2) (getCols (buffer t2)) (col (pos (_cursor t2))) count)) t2 Hi2)
    as (u3 & Hu3 & Hc3 & _).
  rewrite Hu3 in H3. injection H3 as ->.
  rewrite Hc3, Hc1. unfold getCols, getRows, getMarginBegin, getMarginEnd in *.
  rewrite Hg2, Ht2, Hc2.
  cbn [pos row col originMode Cursor_setWrapNext Cursor_setPos atCol].
  fold c0. fold cols.
  rewrite (clamp_id a 0 (cols - 1)) by lia.
  rewrite (tabForward_split (Z.to_nat (cols - c0)) (Z.to_nat (cols - c0)) (Z.to_nat (cols - a))
             (_tabs t) cols c0 count) by (fold a; lia).
  fold a. unfold Cursor_setWrapNext, Cursor_setPos.
  cbn [cs g0 g1 pos wrapNext originMode style]. f_equal. f_equal.
  destruct (originMode (_cursor t)); apply clamp_clamp; lia.
Qed.

(** X30: [ESC c] brings the modes, the tab stops, the cursor and the saved
    cursor back to what the constructor sets for a screen of the same
    width. *)
Theorem reset_restores_the_initial_state config rows (pri alt : C) e (t : Terminal C) :
  tabsSpan t ->
  let fresh := new config rows (getCols (_priBuffer t)) pri alt e in
  exists t',
    machineEscape (chr "c") t = Some t'
    /\ _modes t' = _modes fresh /\ _tabs t' = _tabs fresh
    /\ _cursor t' = _cursor fresh /\ _savedCursor t' = _savedCursor fresh.
Proof.
  intros Ht. cbv zeta. exists (resetAll t). split; [reflexivity|].
  unfold resetAll, new. cbv zeta.
  cbn [_modes _tabs _cursor _savedCursor observe set_env set_savedCursor set_cursor set_tabs
       set_modes].
  destruct (bufDo_fields CClear t) as (_ & _ & Htabs & _).
  repeat split. rewrite Htabs. apply Terminal_resetTabs_length.
  unfold Tabs.fresh. rewrite length_replicate. exact Ht.
Qed.

End TabsCompose.

Lemma tabs_compose_witness :
  match Terminal.tabCursor Terminal.FORWARD 3 (scenario []) with
  | Some t1 =>
      match Terminal.tabCursor Terminal.FORWARD 1 (scenario []) with
      | Some t2 =>
          match Terminal.tabCursor Terminal.FORWARD 2 t2 with
          | Some t3 => Terminal._cursor t3 = Terminal._cursor t1
          | None => False
          end
      | None => False
      end
  | None => False
  end.
Proof.
  destruct (Terminal.tabCursor Terminal.FORWARD 3 (scenario [])) as [t1|] eqn:E1;
    [|vm_compute in E1; discriminate E1].
  destruct (Terminal.tabCursor Terminal.FORWARD 1 (scenario [])) as [t2|] eqn:E2;
    [|vm_compute in E2; discriminate E2].
  destruct (Terminal.tabCursor Terminal.FORWARD 2 t2) as [t3|] eqn:E3;
    [|vm_compute in E2; injection E2 as <-; vm_compute in E3; discriminate E3].
  apply (tabs_compose 2 (scenario []) t1 t2 t3);
    [unfold scenario; apply new_Inv; lia|lia|lia|exact E1|exact E2|exact E3].
Defined.

Lemma reset_restores_the_initial_state_witness :
  exists t',
    Terminal.machineEscape (chr "c") (scenario []) = Some t'
    /\ Terminal._modes t' = Terminal._modes (scenario []).
Proof.
  destruct (reset_restores_the_initial_state Config.default 24 (Grid.blank 24 80)
              (Grid.blank 24 80) (scenarioEnv []) (scenario []))
    as (t' & Ht & Hm & _); [vm_compute; reflexivity|].
  exists t'. split; [exact Ht|exact Hm].
Defined.

(** *** The properties of the controller at work on the 80 x 24 screen *)

Lemma writes_keep_the_stream_witness :
  let t := scenario [Terminal.Wrote 2] in
  let t' := writes [[chr "a"; chr "b"; chr "c"]; [chr "d"]] t in
  Terminal.ttyOut (Terminal.env t') = [chr "a"; chr "b"]
  /\ Terminal.ttyOut (Terminal.env t') ++ Terminal._writeBuffer t'
     = Terminal.ttyOut (Terminal.env t) ++ Terminal._writeBuffer t
         ++ concat [[chr "a"; chr "b"; chr "c"]; [chr "d"]].
Proof.
  cbv zeta. split; [vm_compute; reflexivity|].
  apply (writes_keep_the_stream [[chr "a"; chr "b"; chr "c"]; [chr "d"]]
           (scenario [Terminal.Wrote 2]));
    vm_compute; reflexivity.
Defined.

Lemma flush_keeps_the_stream_witness :
  let t := Terminal.write [chr "a"; chr "b"; chr "c"]
             (scenario [Terminal.Wrote 0; Terminal.Wrote 2]) in
  match Terminal.flush t with
  | Some t' =>
      Terminal.ttyOut (Terminal.env t') ++ Terminal._writeBuffer t'
      = Terminal.ttyOut (Terminal.env t) ++ Terminal._writeBuffer t
  | None => False
  end.
Proof.
  cbv zeta.
  destruct (Terminal.flush
              (Terminal.write [chr "a"; chr "b"; chr "c"]
                 (scenario [Terminal.Wrote 0; Terminal.Wrote 2]))) as [t'|] eqn:E.
  - apply (flush_keeps_the_stream _ t' E).
    vm_compute in E. injection E as <-. reflexivity.
  - vm_compute in E. discriminate E.
Defined.

Lemma paste_brackets_the_data_witness :
  let t := Terminal.setMode BRACKETED_PASTE true (scenario [Terminal.Wrote 4]) in
  match Terminal.paste [chr "h"; chr "i"] t with
  | Some t' =>
      Terminal.ttyOut (Terminal.env t') ++ Terminal._writeBuffer t'
      = Terminal.ttyOut (Terminal.env t) ++ Terminal._writeBuffer t
          ++ [Terminal.ESC; chr "["; chr "2"; chr "0"; chr "0"; chr "~"] ++ [chr "h"; chr "i"]
          ++ [Terminal.ESC; chr "["; chr "2"; chr "0"; chr "1"; chr "~"]
  | None => False
  end.
Proof.
  cbv zeta.
  destruct (Terminal.paste [chr "h"; chr "i"]
              (Terminal.setMode BRACKETED_PASTE true (scenario [Terminal.Wrote 4])))
    as [t'|] eqn:E.
  - apply (paste_brackets_the_data [chr "h"; chr "i"]
             (Terminal.setMode BRACKETED_PASTE true (scenario [Terminal.Wrote 4])) t');
      [vm_compute; reflexivity|vm_compute; reflexivity|exact E|].
    vm_compute in E. injection E as <-. reflexivity.
  - vm_compute in E. discriminate E.
Defined.

Lemma tab_moves_to_next_stop_witness :
  exists t',
    Terminal.machineControl Terminal.HT (scenario []) = Some t'
    /\ Terminal.wrapNext (Terminal._cursor t') = false.
Proof.
  destruct (tab_moves_to_next_stop (scenario [])) as (t' & Ht & Hw & _);
    [unfold scenario; apply new_Inv; lia|].
  exists t'. split; assumption.
Defined.

Lemma back_tab_moves_to_previous_stop_witness :
  exists t',
    Terminal.machineCsi false [] (chr "Z") (scenario []) = Some t'
    /\ Terminal.wrapNext (Terminal._cursor t') = false.
Proof.
  destruct (back_tab_moves_to_previous_stop (scenario [])) as (t' & Ht & Hw & _);
    [unfold scenario; apply new_Inv; lia|].
  exists t'. split; assumption.
Defined.

(** In origin mode with the margins at rows 5 to 20 ([CSI 5 ; 20 r], then
    [CSI ? 6 h]), [CSI 30 ; 99 H] stops at the bottom margin and at the last
    column. *)
Lemma cursor_position_command_witness :
  match Terminal.steps
          [Terminal.OpRead [Some (Terminal.Csi false [5; 20] (chr "r"));
                            Some (Terminal.Csi true [6] (chr "h"))] None]
          (scenario []) with
  | Some t =>
      exists t',
        Terminal.machineCsi false [30; 99] (chr "H") t = Some t'
        /\ Terminal.wrapNext (Terminal._cursor t') = false
        /\ col (Terminal.pos (Terminal._cursor t')) = 79
        /\ row (Terminal.pos (Terminal._cursor t')) = 19
  | None => False
  end.
Proof.
  destruct (Terminal.steps
              [Terminal.OpRead [Some (Terminal.Csi false [5; 20] (chr "r"));
                                Some (Terminal.Csi true [6] (chr "h"))] None]
              (scenario [])) as [t|] eqn:E.
  - assert (Hi : Inv t)
      by (eapply steps_Inv; [exact E|unfold scenario; apply new_Inv; lia]).
    assert (Ht : Terminal.originMode (Terminal._cursor t) = true
                 /\ getMarginBegin (Terminal.buffer t) = 4
                 /\ getMarginEnd (Terminal.buffer t) = 20
                 /\ getCols (Terminal.buffer t) = 80).
    { vm_compute in E. injection E as <-. vm_compute. auto. }
    destruct Ht as (Ho & Hb & He & Hcols).
    destruct (cursor_position_command 30 99 t Hi) as (t' & Hm & Hw & Hc & Hr);
      [lia|lia|lia|lia|].
    exists t'. rewrite Ho, Hb, He in Hr. rewrite Hcols in Hc.
    split; [exact Hm|]. split; [exact Hw|]. split; [exact Hc|exact Hr].
  - vm_compute in E. discriminate E.
Defined.

Lemma set_margins_command_witness :
  exists t',
    Terminal.machineCsi false [5; 20] (chr "r") (scenario []) = Some t'
    /\ getMarginBegin (Terminal.buffer t') = 5 - 1
    /\ getMarginEnd (Terminal.buffer t') = 20.
Proof.
  destruct (set_margins_command 5 20 (scenario [])) as (t' & Ht & Hb & He & _);
    [unfold scenario; apply new_Inv; lia|lia|lia|vm_compute; discriminate|].
  exists t'. split; [assumption|]. split; assumption.
Defined.

Lemma printing_advances_the_cursor_witness :
  exists t', Terminal.machineNormal [chr "A"] (scenario []) = Some t'.
Proof.
  destruct (printing_advances_the_cursor [chr "A"] (scenario [])) as (t' & Ht & _);
    [unfold scenario; apply new_Inv; lia|reflexivity|].
  exists t'. assumption.
Defined.

Lemma save_and_restore_cursor_witness :
  match Terminal.machineEscape (chr "7") (scenario []) with
  | Some t1 =>
      match Terminal.processRead (typed 3 (chr "A")) t1 with
      | Some t2 =>
          match Terminal.machineEscape (chr "8") t2 with
          | Some t3 => Terminal._cursor t3 = Terminal._cursor (scenario [])
          | None => False
          end
      | None => False
      end
  | None => False
  end.
Proof.
  destruct (Terminal.machineEscape (chr "7") (scenario [])) as [t1|] eqn:E1;
    [|vm_compute in E1; discriminate E1].
  destruct (Terminal.processRead (typed 3 (chr "A")) t1) as [t2|] eqn:E2;
    [|vm_compute in E1; injection E1 as <-; vm_compute in E2; discriminate E2].
  destruct (Terminal.machineEscape (chr "8") t2) as [t3|] eqn:E3;
    [|vm_compute in E1; injection E1 as <-; vm_compute in E2; injection E2 as <-;
      vm_compute in E3; discriminate E3].
  apply (save_and_restore_cursor (typed 3 (chr "A")) (scenario []) t1 t2 t3);
    [repeat constructor|exact E1|exact E2|exact E3].
Defined.

Lemma drawn_runs_tile_the_columns_witness :
  exists runs,
    snd (Terminal.drawRow (mkPos 0 2) (mkPos 1 7) Terminal.EXPOSURE false (Grid.blank 24 80) 0
           (mkRegion Pos0 Pos0, []))
    = [] ++ runs
    /\ tiles 0 2 runs = Some 7
    /\ runBytes runs = cellBytes (Grid.blank 24 80) 0 2 7.
Proof.
  apply (drawn_runs_tile_the_columns (mkPos 0 2) (mkPos 1 7) Terminal.EXPOSURE false
           (Grid.blank 24 80) 0 (mkRegion Pos0 Pos0) [] 2 7); [reflexivity|lia|lia].
Defined.

Lemma resize_resets_the_tab_stops_witness :
  match Terminal.resize 10 20 (scenario []) with
  | Some t' => Terminal._tabs t' = Tabs.Terminal_resetTabs (Tabs.fresh 20)
  | None => False
  end.
Proof.
  destruct (Terminal.resize 10 20 (scenario [])) as [t'|] eqn:E.
  - apply (resize_resets_the_tab_stops 10 20 (scenario []) t');
      [unfold scenario; apply new_Inv; lia|lia|exact E].
  - vm_compute in E. discriminate E.
Defined.

Lemma drop_writes_is_permanent_witness :
  let t := Terminal.write [chr "x"] (scenario [Terminal.Error]) in
  match Terminal.steps sampleSession t with
  | Some t' =>
      Terminal._dumpWrites t' = true
      /\ Terminal.ttyOut (Terminal.env t') = Terminal.ttyOut (Terminal.env t)
  | None => False
  end.
Proof.
  cbv zeta.
  destruct (Terminal.steps sampleSession (Terminal.write [chr "x"] (scenario [Terminal.Error])))
    as [t'|] eqn:E.
  - apply (drop_writes_is_permanent sampleSession
             (Terminal.write [chr "x"] (scenario [Terminal.Error])) t');
      [vm_compute; reflexivity|exact E].
  - vm_compute in E. discriminate E.
Defined.

Lemma tab_stops_span_the_columns_witness :
  match Terminal.steps sampleSession (scenario []) with
  | Some t => length (Terminal._tabs t) = Z.to_nat (getCols (Terminal.buffer t))
  | None => False
  end.
Proof.
  destruct (Terminal.steps sampleSession (scenario [])) as [t|] eqn:E.
  - apply (tab_stops_span_the_columns Config.default 24 80 (Grid.blank 24 80)
             (Grid.blank 24 80) (scenarioEnv []) sampleSession t); [lia|lia|exact E].
  - vm_compute in E. discriminate E.
Defined.

Lemma bound_keys_send_nothing_witness :
  let t := Terminal.write [chr "x"] (scenario [Terminal.Wrote 0]) in
  match Terminal.keyPress Terminal.XKB_KEY_V 5 true (Some [chr "V"]) t with
  | Some t' =>
      Terminal.ttyOut (Terminal.env t') = Terminal.ttyOut (Terminal.env t)
      /\ Terminal._writeBuffer t' = Terminal._writeBuffer t
  | None => False
  end.
Proof.
  cbv zeta.
  destruct (Terminal.keyPress Terminal.XKB_KEY_V 5 true (Some [chr "V"])
              (Terminal.write [chr "x"] (scenario [Terminal.Wrote 0]))) as [t'|] eqn:E.
  - destruct (bound_keys_send_nothing Terminal.XKB_KEY_V 5 true (Some [chr "V"])
                (Terminal.write [chr "x"] (scenario [Terminal.Wrote 0]))
                (Terminal.observe (Terminal.terminalPaste true)
                   (Terminal.write [chr "x"] (scenario [Terminal.Wrote 0]))) t')
      as (_ & Ho & Hq & _); [reflexivity|exact E|].
    split; assumption.
  - vm_compute in E. discriminate E.
Defined.
